(** * TCP over NewIP: keepalive profile, close/disconnect, ingress and the
      connection hash tables

    A shallow embedding of the parts of [tcp_nip.c] and
    [ninet_hashtables.c] that decide the behaviour of

    - [tcp_nip_keepalive_para_update], [tcp_nip_keepalive_enable],
      [tcp_nip_keepalive_disable];
    - [new_state], [tcp_nip_close_state], [tcp_nip_shutdown],
      [tcp_nip_close], [tcp_nip_need_reset], [tcp_nip_disconnect];
    - [nip_get_tcp_input_checksum], [tcp_nip_send_reset], [tcp_nip_rcv];
    - [ninet_unhash2], [ninet_unhash], [__ninet_check_established].

    C integers are [Z] with the conversions between [u8], [u32] and [int]
    written out.  A [struct sock] is a record; the casts [tcp_sk] and
    [inet_sk] are its projections to the TCP and INET layers.  Calls into
    the rest of the kernel (timers, transmit routines, listener teardown)
    are recorded, in program order, in the trace [sk_trace] of the socket. *)

From stdpp Require Import base numbers list gmap.

#[local] Open Scope Z_scope.

(** ** C integer conversions *)

Definition to_u32 (x : Z) : Z := x mod 2 ^ 32.
Definition to_u16 (x : Z) : Z := x mod 2 ^ 16.
Definition to_u8 (x : Z) : Z := x mod 2 ^ 8.

(** Conversion of a 32-bit pattern to [int] (two's complement). *)
Definition to_int (x : Z) : Z :=
  let y := x mod 2 ^ 32 in if y <? 2 ^ 31 then y else y - 2 ^ 32.

(** [htons] on a little-endian host: the two bytes swapped. *)
Definition htons (x : Z) : Z :=
  Z.lor (Z.shiftl (Z.land x 255) 8) (Z.land (Z.shiftr x 8) 255).

(** ** Kernel constants

    Values of [include/net/tcp_states.h], [include/net/sock.h],
    [include/uapi/asm-generic/errno*.h] and [include/net/tcp.h]. *)

Definition TCP_ESTABLISHED : Z := 1.
Definition TCP_SYN_SENT : Z := 2.
Definition TCP_SYN_RECV : Z := 3.
Definition TCP_FIN_WAIT1 : Z := 4.
Definition TCP_FIN_WAIT2 : Z := 5.
Definition TCP_TIME_WAIT : Z := 6.
Definition TCP_CLOSE : Z := 7.
Definition TCP_CLOSE_WAIT : Z := 8.
Definition TCP_LAST_ACK : Z := 9.
Definition TCP_LISTEN : Z := 10.
Definition TCP_CLOSING : Z := 11.
Definition TCP_NEW_SYN_RECV : Z := 12.
Definition TCP_MAX_STATES : Z := 13.

Definition TCP_STATE_MASK : Z := 15.
Definition TCP_ACTION_FIN : Z := Z.shiftl 1 TCP_CLOSE.

Definition TCPF (state : Z) : Z := Z.shiftl 1 state.
Definition TCPF_ESTABLISHED : Z := TCPF TCP_ESTABLISHED.
Definition TCPF_SYN_SENT : Z := TCPF TCP_SYN_SENT.
Definition TCPF_SYN_RECV : Z := TCPF TCP_SYN_RECV.
Definition TCPF_FIN_WAIT1 : Z := TCPF TCP_FIN_WAIT1.
Definition TCPF_FIN_WAIT2 : Z := TCPF TCP_FIN_WAIT2.
Definition TCPF_CLOSE : Z := TCPF TCP_CLOSE.
Definition TCPF_CLOSE_WAIT : Z := TCPF TCP_CLOSE_WAIT.
Definition TCPF_LAST_ACK : Z := TCPF TCP_LAST_ACK.
Definition TCPF_LISTEN : Z := TCPF TCP_LISTEN.
Definition TCPF_CLOSING : Z := TCPF TCP_CLOSING.

Definition SOCK_DEAD : Z := 0.
Definition SOCK_DONE : Z := 1.
Definition SOCK_KEEPOPEN : Z := 3.

Definition RCV_SHUTDOWN : Z := 1.
Definition SEND_SHUTDOWN : Z := 2.
Definition SHUTDOWN_MASK : Z := 3.

Definition EINVAL : Z := 22.
Definition EADDRNOTAVAIL : Z := 99.
Definition ECONNRESET : Z := 104.

Definition TCPHDR_FIN : Z := 1.
Definition TCP_INFINITE_SSTHRESH : Z := 2147483647.
Definition TCP_MIN_MSS : Z := 88.
Definition PACKET_HOST : Z := 0.

Definition TCP_NUM_2 : Z := 2.
Definition TCP_NUM_4 : Z := 4.

(** ** Data model *)

(** [struct nip_addr]: a bit length and the address bytes. *)
Record nip_addr := { bitlen : Z; nip_addr_field8 : list Z }.

#[global] Instance nip_addr_eq_dec : EqDecision nip_addr.
Proof. solve_decision. Defined.

(** The fields of [struct tcphdr] read by the ingress path. *)
Record tcphdr := {
  source : Z;
  dest : Z;
  seq : Z;
  ack_seq : Z;
  doff : Z;
  fin : Z;
  syn : Z;
  rst : Z;
  ack : Z;
  tcp_flag_byte : Z
}.

(** [struct sk_buff] with its NewIP control block [NIPCB] (next header,
    addresses, total packet length) and its TCP control block
    [TCP_SKB_CB]. *)
Record sk_buff := {
  pkt_type : Z;
  len : Z;
  skb_iif : Z;
  nexthdr : Z;
  srcaddr : nip_addr;
  dstaddr : nip_addr;
  pkt_total_len : Z;
  data : tcphdr;
  transport_header : list Z;
  cb_seq : Z;
  cb_end_seq : Z;
  cb_ack_seq : Z;
  cb_tcp_flags : Z
}.

(** Calls that leave the modelled code. *)
Inductive event :=
  | inet_csk_reset_keepalive_timer (timeout : Z)
  | sk_prot_keepalive (val : Z)
  | tcp_nip_send_fin
  | tcp_nip_send_active_reset
  | inet_csk_listen_stop
  | tcp_nip_clear_xmit_timers
  | sk_error_report.

(** The list a socket's [sk_nulls_node] is linked into: a chain of the
    established table or of the listening table. *)
Inductive chain :=
  | ehash_chain (slot : Z)
  | listening_chain (slot : Z).

#[global] Instance chain_eq_dec : EqDecision chain.
Proof. solve_decision. Defined.

(** [struct inet_sock], as far as the code below goes. *)
Record inet_sock := {
  inet_num : Z;
  inet_sport : Z;
  inet_dport : Z
}.

(** [struct tcp_sock], as far as the code below goes.  The NewIP fields
    ([*_bak], [idle_ka_probes_out], [nip_keepalive_out]) are taken to be
    [u32]; [keepalive_probes] is [u8]. *)
Record tcp_sock := {
  keepalive_time : Z;
  keepalive_intvl : Z;
  keepalive_probes : Z;
  keepalive_time_bak : Z;
  keepalive_probes_bak : Z;
  keepalive_intvl_bak : Z;
  nip_keepalive_enable : bool;
  nip_keepalive_out : Z;
  idle_ka_probes_out : Z;
  snd_nxt : Z;
  write_seq : Z;
  max_window : Z;
  srtt_us : Z;
  snd_cwnd : Z;
  packets_out : Z
}.

(** [struct sock].  [sk_nulls_node] is [None] when the node is unhashed
    ([pprev] is null) and names the chain it is linked into otherwise;
    [icsk_listen_portaddr_node] likewise for the second listening table.
    [sk_prot_has_keepalive] says whether [sk->sk_prot->keepalive] is set. *)
Record sock := {
  sk_state : Z;
  sk_flags : Z;
  sk_err : Z;
  sk_shutdown : Z;
  sk_send_head : option sk_buff;
  sk_receive_queue : list sk_buff;
  sk_write_queue : list sk_buff;
  sk_hash : Z;
  sk_nulls_node : option chain;
  icsk_listen_portaddr_node : option Z;
  sk_bound_dev_if : Z;
  sk_nip_rcv_saddr : nip_addr;
  sk_nip_daddr : nip_addr;
  sk_net : Z;
  sk_prot_has_keepalive : bool;
  inet_sk : inet_sock;
  tcp_sk : tcp_sock;
  sk_trace : list event
}.

(** *** Field updates *)

Definition set_inet_num (v : Z) (i : inet_sock) : inet_sock :=
  let '(Build_inet_sock _ b c) := i in Build_inet_sock v b c.
Definition set_inet_sport (v : Z) (i : inet_sock) : inet_sock :=
  let '(Build_inet_sock a _ c) := i in Build_inet_sock a v c.
Definition set_inet_dport (v : Z) (i : inet_sock) : inet_sock :=
  let '(Build_inet_sock a b _) := i in Build_inet_sock a b v.

Definition set_keepalive_time (v : Z) (t : tcp_sock) : tcp_sock :=
  let '(Build_tcp_sock _ b c d e f g h i j k l m n o) := t in
  Build_tcp_sock v b c d e f g h i j k l m n o.
Definition set_keepalive_intvl (v : Z) (t : tcp_sock) : tcp_sock :=
  let '(Build_tcp_sock a _ c d e f g h i j k l m n o) := t in
  Build_tcp_sock a v c d e f g h i j k l m n o.
Definition set_keepalive_probes (v : Z) (t : tcp_sock) : tcp_sock :=
  let '(Build_tcp_sock a b _ d e f g h i j k l m n o) := t in
  Build_tcp_sock a b v d e f g h i j k l m n o.
Definition set_keepalive_time_bak (v : Z) (t : tcp_sock) : tcp_sock :=
  let '(Build_tcp_sock a b c _ e f g h i j k l m n o) := t in
  Build_tcp_sock a b c v e f g h i j k l m n o.
Definition set_keepalive_probes_bak (v : Z) (t : tcp_sock) : tcp_sock :=
  let '(Build_tcp_sock a b c d _ f g h i j k l m n o) := t in
  Build_tcp_sock a b c d v f g h i j k l m n o.
Definition set_keepalive_intvl_bak (v : Z) (t : tcp_sock) : tcp_sock :=
  let '(Build_tcp_sock a b c d e _ g h i j k l m n o) := t in
  Build_tcp_sock a b c d e v g h i j k l m n o.
Definition set_nip_keepalive_enable (v : bool) (t : tcp_sock) : tcp_sock :=
  let '(Build_tcp_sock a b c d e f _ h i j k l m n o) := t in
  Build_tcp_sock a b c d e f v h i j k l m n o.
Definition set_nip_keepalive_out (v : Z) (t : tcp_sock) : tcp_sock :=
  let '(Build_tcp_sock a b c d e f g _ i j k l m n o) := t in
  Build_tcp_sock a b c d e f g v i j k l m n o.
Definition set_idle_ka_probes_out (v : Z) (t : tcp_sock) : tcp_sock :=
  let '(Build_tcp_sock a b c d e f g h _ j k l m n o) := t in
  Build_tcp_sock a b c d e f g h v j k l m n o.
Definition set_write_seq (v : Z) (t : tcp_sock) : tcp_sock :=
  let '(Build_tcp_sock a b c d e f g h i j _ l m n o) := t in
  Build_tcp_sock a b c d e f g h i j v l m n o.
Definition set_srtt_us (v : Z) (t : tcp_sock) : tcp_sock :=
  let '(Build_tcp_sock a b c d e f g h i j k l _ n o) := t in
  Build_tcp_sock a b c d e f g h i j k l v n o.
Definition set_snd_cwnd (v : Z) (t : tcp_sock) : tcp_sock :=
  let '(Build_tcp_sock a b c d e f g h i j k l m _ o) := t in
  Build_tcp_sock a b c d e f g h i j k l m v o.
Definition set_packets_out (v : Z) (t : tcp_sock) : tcp_sock :=
  let '(Build_tcp_sock a b c d e f g h i j k l m n _) := t in
  Build_tcp_sock a b c d e f g h i j k l m n v.

Definition set_sk_state (v : Z) (s : sock) : sock :=
  let '(Build_sock _ b c d e f g h i j k l m n o p q r) := s in
  Build_sock v b c d e f g h i j k l m n o p q r.
Definition set_sk_flags (v : Z) (s : sock) : sock :=
  let '(Build_sock a _ c d e f g h i j k l m n o p q r) := s in
  Build_sock a v c d e f g h i j k l m n o p q r.
Definition set_sk_err (v : Z) (s : sock) : sock :=
  let '(Build_sock a b _ d e f g h i j k l m n o p q r) := s in
  Build_sock a b v d e f g h i j k l m n o p q r.
Definition set_sk_shutdown (v : Z) (s : sock) : sock :=
  let '(Build_sock a b c _ e f g h i j k l m n o p q r) := s in
  Build_sock a b c v e f g h i j k l m n o p q r.
Definition set_sk_send_head (v : option sk_buff) (s : sock) : sock :=
  let '(Build_sock a b c d _ f g h i j k l m n o p q r) := s in
  Build_sock a b c d v f g h i j k l m n o p q r.
Definition set_sk_receive_queue (v : list sk_buff) (s : sock) : sock :=
  let '(Build_sock a b c d e _ g h i j k l m n o p q r) := s in
  Build_sock a b c d e v g h i j k l m n o p q r.
Definition set_sk_write_queue (v : list sk_buff) (s : sock) : sock :=
  let '(Build_sock a b c d e f _ h i j k l m n o p q r) := s in
  Build_sock a b c d e f v h i j k l m n o p q r.
Definition set_sk_hash (v : Z) (s : sock) : sock :=
  let '(Build_sock a b c d e f g _ i j k l m n o p q r) := s in
  Build_sock a b c d e f g v i j k l m n o p q r.
Definition set_sk_nulls_node (v : option chain) (s : sock) : sock :=
  let '(Build_sock a b c d e f g h _ j k l m n o p q r) := s in
  Build_sock a b c d e f g h v j k l m n o p q r.
Definition set_icsk_listen_portaddr_node (v : option Z) (s : sock) : sock :=
  let '(Build_sock a b c d e f g h i _ k l m n o p q r) := s in
  Build_sock a b c d e f g h i v k l m n o p q r.
Definition set_inet_sk (v : inet_sock) (s : sock) : sock :=
  let '(Build_sock a b c d e f g h i j k l m n o _ q r) := s in
  Build_sock a b c d e f g h i j k l m n o v q r.
Definition set_tcp_sk (v : tcp_sock) (s : sock) : sock :=
  let '(Build_sock a b c d e f g h i j k l m n o p _ r) := s in
  Build_sock a b c d e f g h i j k l m n o p v r.
Definition set_sk_trace (v : list event) (s : sock) : sock :=
  let '(Build_sock a b c d e f g h i j k l m n o p q _) := s in
  Build_sock a b c d e f g h i j k l m n o p q v.

(** [tp->field = v] and [inet->field = v] on the socket. *)
Definition upd_tp (f : tcp_sock -> tcp_sock) (s : sock) : sock :=
  set_tcp_sk (f (tcp_sk s)) s.
Definition upd_inet (f : inet_sock -> inet_sock) (s : sock) : sock :=
  set_inet_sk (f (inet_sk s)) s.

(** An external call, appended to the trace. *)
Definition call (e : event) (s : sock) : sock :=
  set_sk_trace (sk_trace s ++ [e]) s.

(** ** Socket flags ([include/net/sock.h]) *)

Definition sock_flag (s : sock) (flag : Z) : bool := Z.testbit (sk_flags s) flag.
Definition sock_set_flag (flag : Z) (s : sock) : sock :=
  set_sk_flags (Z.setbit (sk_flags s) flag) s.
Definition sock_reset_flag (flag : Z) (s : sock) : sock :=
  set_sk_flags (Z.clearbit (sk_flags s) flag) s.
Definition sock_valbool_flag (flag : Z) (valbool : bool) (s : sock) : sock :=
  if valbool then sock_set_flag flag s else sock_reset_flag flag s.

(** [tcp_set_state]: the state is written; the bookkeeping of the kernel
    helper is outside this model. *)
Definition tcp_set_state (state : Z) (s : sock) : sock := set_sk_state state s.

(** [(1 << sk->sk_state) & mask]. *)
Definition state_in (s : sock) (mask : Z) : bool :=
  negb (Z.land (Z.shiftl 1 (sk_state s)) mask =? 0).

(** ** Keepalive ([tcp_nip.c]) *)

(** The module parameters of [tcp_nip_parameter.h] read by the keepalive
    code.  They are [int] variables that can be set at run time. *)
Record nip_parameter := {
  g_nip_keepalive_time : Z;
  g_nip_keepalive_time_short_pkt : Z;
  g_nip_keepalive_intvl : Z;
  g_nip_idle_ka_probes_out : Z
}.

Definition MAX_NIP_TCP_KEEPIDLE : Z := 32767.
Definition MAX_NIP_TCP_KEEPINTVL : Z := 32767.
Definition MAX_NIP_TCP_KEEPCNT : Z := 255.
Definition NIP_PKT_TOTAL_LEN_BOUNDARY : Z := 100000.
Definition NIP_KEEPALIVE_PROBES : Z := 255.

Definition tcp_nip_send_head (sk : sock) : option sk_buff := sk_send_head sk.

Section Keepalive.

(** The timer frequency [HZ] of the kernel configuration, the module
    parameters, and [keepalive_time_elapsed] of [include/net/tcp.h],
    which reads the clock. *)
Variable HZ : Z.
Variable param : nip_parameter.
Variable keepalive_time_elapsed : sock -> Z.

(** Returns the [int] result and the socket as the call leaves it.  The
    arguments are converted to the parameter types [u32], [u32], [u8]. *)
Definition tcp_nip_keepalive_para_update (sk : sock)
    (keepalive_time_arg keepalive_intvl_arg keepalive_probes_arg : Z) : Z * sock :=
  (* set keep idle (TCP_KEEPIDLE) *)
  let val := to_int keepalive_time_arg in
  if (val <? 1) || (val >? MAX_NIP_TCP_KEEPIDLE) then (- EINVAL, sk) else
  let sk := upd_tp (set_keepalive_time (to_u32 val)) sk in
  let sk :=
    if sock_flag sk SOCK_KEEPOPEN && negb (state_in sk (Z.lor TCPF_CLOSE TCPF_LISTEN))
    then
      let elapsed := keepalive_time_elapsed sk in
      let elapsed :=
        if keepalive_time (tcp_sk sk) >? elapsed
        then to_u32 (keepalive_time (tcp_sk sk) - elapsed)
        else 0 in
      call (inet_csk_reset_keepalive_timer elapsed) sk
    else sk in
  (* set keep intvl (TCP_KEEPINTVL) *)
  let val := to_int keepalive_intvl_arg in
  if (val <? 1) || (val >? MAX_NIP_TCP_KEEPINTVL) then (- EINVAL, sk) else
  let sk := upd_tp (set_keepalive_intvl (to_u32 val)) sk in
  (* set keep cnt (TCP_KEEPCNT) *)
  let val := to_u8 keepalive_probes_arg in
  if (val <? 1) || (val >? MAX_NIP_TCP_KEEPCNT) then (- EINVAL, sk) else
  let sk := upd_tp (set_keepalive_probes (to_u8 val)) sk in
  (* enable keepalive (SO_KEEPALIVE) *)
  let sk :=
    if sk_prot_has_keepalive sk
    then sock_valbool_flag SOCK_KEEPOPEN true (call (sk_prot_keepalive 1) sk)
    else sk in
  (0, sk).

(** The three [*_bak] assignments. *)
Definition backup_para (sk : sock) : sock :=
  let sk := upd_tp (set_keepalive_time_bak (keepalive_time (tcp_sk sk))) sk in
  let sk := upd_tp (set_keepalive_probes_bak (keepalive_probes (tcp_sk sk))) sk in
  upd_tp (set_keepalive_intvl_bak (keepalive_intvl (tcp_sk sk))) sk.

Definition tcp_nip_keepalive_enable (sk : sock) : sock :=
  match tcp_nip_send_head sk with
  | None => sk
  | Some skb =>
    let pkt_len := to_u32 (pkt_total_len skb) in
    let nip_keepalive_time :=
      to_u32 (if pkt_len <? NIP_PKT_TOTAL_LEN_BOUNDARY
              then g_nip_keepalive_time_short_pkt param
              else g_nip_keepalive_time param) in
    if nip_keepalive_enable (tcp_sk sk) then
      (* If keepalive set by setsockopt, backup para and change para to nip para *)
      if keepalive_time (tcp_sk sk) >? HZ then
        let sk := backup_para sk in
        let sk := upd_tp (set_keepalive_time nip_keepalive_time) sk in
        let sk := upd_tp (set_keepalive_probes NIP_KEEPALIVE_PROBES) sk in
        let sk := upd_tp (set_keepalive_intvl (to_u32 (g_nip_keepalive_intvl param))) sk in
        call (inet_csk_reset_keepalive_timer (keepalive_time (tcp_sk sk))) sk
      else sk
    else
      (* If keepalive set by setsockopt, backup para *)
      let sk := if sock_flag sk SOCK_KEEPOPEN then backup_para sk else sk in
      (* change para to nip para *)
      let '(ret, sk) :=
        tcp_nip_keepalive_para_update sk nip_keepalive_time
          (to_u32 (g_nip_keepalive_intvl param)) NIP_KEEPALIVE_PROBES in
      if negb (ret =? 0) then sk
      else upd_tp (set_nip_keepalive_enable true) sk
  end.

Definition tcp_nip_keepalive_disable (sk : sock) : sock :=
  if negb (nip_keepalive_enable (tcp_sk sk)) then sk else
  if negb (sock_flag sk SOCK_KEEPOPEN) then
    upd_tp (set_nip_keepalive_enable false) sk
  else
  if idle_ka_probes_out (tcp_sk sk) <? to_u32 (g_nip_idle_ka_probes_out param) then sk else
  (* newip keepalive change to normal keepalive *)
  if negb (keepalive_time_bak (tcp_sk sk) =? 0) then
    let sk := upd_tp (set_keepalive_time (keepalive_time_bak (tcp_sk sk))) sk in
    let sk := upd_tp (set_keepalive_probes (to_u8 (keepalive_probes_bak (tcp_sk sk)))) sk in
    let sk := upd_tp (set_keepalive_intvl (keepalive_intvl_bak (tcp_sk sk))) sk in
    call (inet_csk_reset_keepalive_timer (keepalive_time (tcp_sk sk))) sk
  else
  let sk := upd_tp (set_keepalive_time_bak 0) sk in
  let sk := upd_tp (set_keepalive_probes_bak 0) sk in
  let sk := upd_tp (set_keepalive_intvl_bak 0) sk in
  (* enable keepalive (SO_KEEPALIVE) *)
  let sk := if sk_prot_has_keepalive sk then call (sk_prot_keepalive 0) sk else sk in
  let sk := sock_valbool_flag SOCK_KEEPOPEN false sk in
  upd_tp (set_nip_keepalive_enable false) sk.

(** The keepalive part of [tcp_nip_rtt_init]; the retransmission and
    window fields it also resets are not in the records. *)
Definition tcp_nip_rtt_init (sk : sock) : sock :=
  let sk := upd_tp (set_nip_keepalive_enable false) sk in
  let sk := upd_tp (set_nip_keepalive_out 0) sk in
  let sk := upd_tp (set_idle_ka_probes_out 0) sk in
  let sk := upd_tp (set_keepalive_time 0) sk in
  let sk := upd_tp (set_keepalive_probes 0) sk in
  let sk := upd_tp (set_keepalive_intvl 0) sk in
  let sk := upd_tp (set_keepalive_time_bak 0) sk in
  let sk := upd_tp (set_keepalive_probes_bak 0) sk in
  upd_tp (set_keepalive_intvl_bak 0) sk.

End Keepalive.

(** ** Closing a connection ([tcp_nip.c]) *)

(** The designated initialisers of [new_state[16]], in source order, over
    an array of zeros. *)
Definition new_state : list Z :=
  let set (i v : Z) (a : list Z) : list Z := <[Z.to_nat i := v]> a in
  set TCP_NEW_SYN_RECV TCP_CLOSE
  (set TCP_CLOSING TCP_CLOSING
  (set TCP_LISTEN TCP_CLOSE
  (set TCP_LAST_ACK TCP_LAST_ACK
  (set TCP_CLOSE_WAIT (Z.lor TCP_LAST_ACK TCP_ACTION_FIN)
  (set TCP_CLOSE TCP_CLOSE
  (set TCP_TIME_WAIT TCP_CLOSE
  (set TCP_FIN_WAIT2 TCP_FIN_WAIT2
  (set TCP_FIN_WAIT1 TCP_FIN_WAIT1
  (set TCP_SYN_RECV (Z.lor TCP_FIN_WAIT1 TCP_ACTION_FIN)
  (set TCP_SYN_SENT TCP_CLOSE
  (set TCP_ESTABLISHED (Z.lor TCP_FIN_WAIT1 TCP_ACTION_FIN)
  (set 0 TCP_CLOSE
  (replicate 16 0))))))))))))).

(** Returns [next & TCP_ACTION_FIN] and the socket in its new state; [None]
    stands for a read outside the array. *)
Definition tcp_nip_close_state (sk : sock) : option (Z * sock) :=
  next ← new_state !! Z.to_nat (sk_state sk);
  let ns := Z.land next TCP_STATE_MASK in
  Some (Z.land next TCP_ACTION_FIN, tcp_set_state ns sk).

Definition tcp_nip_shutdown (sk : sock) (how : Z) : option sock :=
  if Z.land how SEND_SHUTDOWN =? 0 then Some sk else
  (* If we've already sent a FIN, or it's a closed state, skip this. *)
  if state_in sk (Z.lor (Z.lor TCPF_ESTABLISHED TCPF_SYN_SENT)
                        (Z.lor TCPF_SYN_RECV TCPF_CLOSE_WAIT))
  then
    '(fin, sk) ← tcp_nip_close_state sk;
    Some (if negb (fin =? 0) then call tcp_nip_send_fin sk else sk)
  else Some sk.

(** The [while] loop of [tcp_nip_close] over the receive queue:
    [data_was_unread], an [int], after the queue is drained. *)
Fixpoint data_was_unread (queue : list sk_buff) (acc : Z) : Z :=
  match queue with
  | [] => acc
  | skb :: queue =>
    let len := to_u32 (cb_end_seq skb - cb_seq skb) in
    let len :=
      if negb (Z.land (cb_tcp_flags skb) TCPHDR_FIN =? 0) then to_u32 (len - 1) else len in
    data_was_unread queue (to_int (acc + len))
  end.

(** [tcp_nip_close] from [lock_sock] to the label [adjudge_to_death]: the
    part that picks the new state and what is sent.  What follows the label
    orphans the socket and, once it is closed, destroys it. *)
Definition tcp_nip_close (sk : sock) : option sock :=
  let sk := set_sk_shutdown SHUTDOWN_MASK sk in
  if sk_state sk =? TCP_LISTEN then
    let sk := tcp_set_state TCP_CLOSE sk in
    Some (call inet_csk_listen_stop sk)
  else
  let unread := data_was_unread (sk_receive_queue sk) 0 in
  let sk := set_sk_receive_queue [] sk in
  if sk_state sk =? TCP_CLOSE then Some sk else
  if negb (unread =? 0) then
    let sk := tcp_set_state TCP_CLOSE sk in
    Some (call tcp_nip_send_active_reset sk)
  else
    '(fin, sk) ← tcp_nip_close_state sk;
    Some (if negb (fin =? 0) then call tcp_nip_send_fin sk else sk).

(** These states need RST on ABORT according to RFC793 *)
Definition tcp_nip_need_reset (state : Z) : bool :=
  negb (Z.land (Z.shiftl 1 state)
          (Z.lor (Z.lor (Z.lor TCPF_ESTABLISHED TCPF_CLOSE_WAIT) TCPF_FIN_WAIT1)
                 (Z.lor TCPF_FIN_WAIT2 TCPF_SYN_RECV)) =? 0).

(** Returns [err] and the socket.  Of the fields [tcp_nip_disconnect]
    resets, those of the records above are followed. *)
Definition tcp_nip_disconnect (sk : sock) (flags : Z) : Z * sock :=
  let err := 0 in
  let old_state := sk_state sk in
  let sk := if negb (old_state =? TCP_CLOSE) then tcp_set_state TCP_CLOSE sk else sk in
  let sk :=
    if old_state =? TCP_LISTEN then call inet_csk_listen_stop sk
    else if tcp_nip_need_reset old_state
            || (negb (snd_nxt (tcp_sk sk) =? write_seq (tcp_sk sk))
                && negb (Z.land (Z.shiftl 1 old_state) (Z.lor TCPF_CLOSING TCPF_LAST_ACK) =? 0))
    then set_sk_err ECONNRESET (call tcp_nip_send_active_reset sk)
    else if old_state =? TCP_SYN_SENT then set_sk_err ECONNRESET sk
    else sk in
  let sk := call tcp_nip_clear_xmit_timers sk in
  let sk := set_sk_receive_queue [] sk in
  let sk := set_sk_write_queue [] sk in
  let sk := tcp_nip_rtt_init sk in
  let sk := upd_inet (set_inet_dport 0) sk in
  let sk := set_sk_shutdown 0 sk in
  let sk := sock_reset_flag SOCK_DONE sk in
  let sk := upd_tp (set_srtt_us 0) sk in
  let sk := upd_tp (set_write_seq
              (to_u32 (write_seq (tcp_sk sk) + max_window (tcp_sk sk) + TCP_NUM_2))) sk in
  let sk := if write_seq (tcp_sk sk) =? 0 then upd_tp (set_write_seq 1) sk else sk in
  let sk := upd_tp (set_snd_cwnd TCP_NUM_2) sk in
  let sk := upd_tp (set_packets_out 0) sk in
  let sk := set_sk_send_head None sk in
  let sk := call sk_error_report sk in
  (err, sk).

(** ** Ingress ([tcp_nip.c]) *)

(** [struct nip_pseudo_header]. *)
Record nip_pseudo_header := {
  nph_saddr : nip_addr;
  nph_daddr : nip_addr;
  nph_check_len : Z;
  nph_nexthdr : Z
}.

(** [ntohl] on a little-endian host. *)
Definition ntohl (x : Z) : Z :=
  Z.lor (Z.lor (Z.shiftl (Z.land x 255) 24)
               (Z.shiftl (Z.land (Z.shiftr x 8) 255) 16))
        (Z.lor (Z.shiftl (Z.land (Z.shiftr x 16) 255) 8)
               (Z.land (Z.shiftr x 24) 255)).

(** What [tcp_nip_rcv] does with a segment, in program order. *)
Inductive rcv_action :=
  | ninet_lookup_skb
  | tcp_nip_actual_send_reset (seq ack_seq : Z)
  | kfree_skb
  | sk_drops_add
  | sock_put
  | sock_hold
  | reqsk_put
  | tcp_nip_rcv_established
  | tcp_nip_rcv_state_process
  | sk_add_backlog.

(** The outcome of [tcp_nip_check_req]: no socket, the listener itself, or
    a child socket. *)
Inductive check_req_result :=
  | req_null
  | req_listener
  | req_child (nsk : sock).

Definition set_tcp_skb_cb (s e a f : Z) (skb : sk_buff) : sk_buff :=
  let '(Build_sk_buff p l i n sa da t d th _ _ _ _) := skb in
  Build_sk_buff p l i n sa da t d th s e a f.

Definition tcp_nip_fill_cb (skb : sk_buff) (th : tcphdr) : sk_buff :=
  let s := ntohl (seq th) in
  set_tcp_skb_cb s
    (to_u32 (s + syn th + fin th + len skb - doff th * TCP_NUM_4))
    (ntohl (ack_seq th)) (tcp_flag_byte th) skb.

Definition tcp_nip_send_reset (skb : sk_buff) : list rcv_action :=
  let th := data skb in
  (* Never send a reset in response to a reset. *)
  if negb (rst th =? 0) then [] else
  if negb (ack th =? 0)
  then [tcp_nip_actual_send_reset (ntohl (ack_seq th)) 0]
  else [tcp_nip_actual_send_reset 0
          (to_u32 (ntohl (seq th) + syn th + fin th + len skb - Z.shiftl (doff th) 2))].

Section Ingress.

(** The checksum routine of [nip_checksum.h], the lookup of
    [ninet_hashtables.h] (the socket found and [refcounted]), and the
    routines of the other files that [tcp_nip_rcv] hands the segment to. *)
Variable nip_check_sum_parse : list Z -> Z -> nip_pseudo_header -> Z.
Variable __ninet_lookup_skb : sk_buff -> option (sock * bool).
Variable tcp_filter : sock -> sk_buff -> bool.
Variable rsk_listener : sock -> sock.
Variable tcp_nip_check_req : sock -> sk_buff -> sock -> check_req_result.
Variable tcp_nip_child_process : sock -> sock -> sk_buff -> Z.
Variable rcv_state_process : sock -> sk_buff -> Z.
Variable sock_owned_by_user : sock -> bool.
Variable tcp_nip_add_backlog : sock -> sk_buff -> bool.

Definition nip_get_tcp_input_checksum (skb : sk_buff) : bool :=
  let nph := {| nph_nexthdr := nexthdr skb;
                nph_saddr := srcaddr skb;
                nph_daddr := dstaddr skb;
                nph_check_len := htons (len skb) |} in
  nip_check_sum_parse (transport_header skb) (len skb) nph =? 65535.

(** All paths return 0. *)
Definition tcp_nip_do_rcv (sk : sock) (skb : sk_buff) : Z * list rcv_action :=
  if sk_state sk =? TCP_ESTABLISHED then (0, [tcp_nip_rcv_established]) else
  if negb (rcv_state_process sk skb =? 0)
  then (0, [tcp_nip_rcv_state_process; kfree_skb])
  else (0, [tcp_nip_rcv_state_process]).

Definition tcp_nip_rcv (skb : sk_buff) : Z * list rcv_action :=
  let discard_it := [kfree_skb] in
  let discard_and_relse (refcounted : bool) :=
    [sk_drops_add] ++ (if refcounted then [sock_put] else []) ++ discard_it in
  if negb (pkt_type skb =? PACKET_HOST) then (0, discard_it) else
  if negb (nip_get_tcp_input_checksum skb) then (0, discard_it) else
  let th := data skb in
  if doff th <? 20 / TCP_NUM_4 then (0, discard_it) else
  match __ninet_lookup_skb skb with
  | None =>
    (* no_tcp_socket: Checksum checked, send reset back *)
    (0, [ninet_lookup_skb] ++ tcp_nip_send_reset skb ++ discard_it)
  | Some (sk, refcounted) =>
    if sk_state sk =? TCP_TIME_WAIT then (0, [ninet_lookup_skb] ++ discard_it) else
    if sk_state sk =? TCP_NEW_SYN_RECV then
      let req := sk in
      let sk := rsk_listener req in
      let nsk :=
        if negb (tcp_filter sk skb)
        then tcp_nip_check_req sk (tcp_nip_fill_cb skb (data skb)) req
        else req_null in
      match nsk with
      | req_null | req_listener =>
        (0, [ninet_lookup_skb; sock_hold; reqsk_put] ++ discard_and_relse true)
      | req_child nsk =>
        if negb (tcp_nip_child_process sk nsk (tcp_nip_fill_cb skb (data skb)) =? 0)
        then (0, [ninet_lookup_skb; sock_hold] ++ discard_and_relse true)
        else (0, [ninet_lookup_skb; sock_hold; sock_put])
      end
    else
    let skb := tcp_nip_fill_cb skb th in
    if tcp_filter sk skb then (0, [ninet_lookup_skb] ++ discard_and_relse refcounted) else
    let put_and_return (ret : Z) (acts : list rcv_action) :=
      ((if negb (ret =? 0) then -1 else 0),
       [ninet_lookup_skb] ++ acts ++ (if refcounted then [sock_put] else [])) in
    if sk_state sk =? TCP_LISTEN then
      let '(ret, acts) := tcp_nip_do_rcv sk skb in put_and_return ret acts
    else
    if negb (sock_owned_by_user sk) then
      let '(ret, acts) := tcp_nip_do_rcv sk skb in put_and_return ret acts
    else
      if tcp_nip_add_backlog sk skb
      then (0, [ninet_lookup_skb; sk_add_backlog] ++ discard_and_relse refcounted)
      else put_and_return 0 [sk_add_backlog]
  end.

End Ingress.

(** ** Connection tables ([ninet_hashtables.c]) *)

(** [struct inet_listen_hashbucket]: the list of socket addresses and its
    [count]. *)
Record inet_listen_hashbucket := {
  ilb_head : list nat;
  ilb_count : Z
}.

(** [struct inet_hashinfo].  [lhash2] is [None] when the pointer is null. *)
Record inet_hashinfo := {
  ehash : list (list nat);
  ehash_mask : Z;
  ehash_locks_mask : Z;
  listening_hash : list inet_listen_hashbucket;
  lhash2 : option (list inet_listen_hashbucket);
  lhash2_mask : Z
}.

Inductive lock :=
  | ehash_lock (i : Z)
  | listening_lock (i : Z)
  | lhash2_lock (i : Z).

(** Lock operations and writes of the table code, in program order. *)
Inductive hash_event :=
  | spin_lock (l : lock)
  | spin_unlock (l : lock)
  | write_inet_num (sk : nat) (v : Z)
  | write_inet_sport (sk : nat) (v : Z)
  | write_sk_hash (sk : nat) (v : Z)
  | hlist_add_head (sk : nat) (c : chain)
  | hlist_del (sk : nat).

(** Sockets by address, the tables, the in-use counter of the protocol and
    the trace. *)
Record kernel := {
  socks : gmap nat sock;
  hashinfo : inet_hashinfo;
  prot_inuse : Z;
  hash_trace : list hash_event
}.

Definition set_socks (v : gmap nat sock) (k : kernel) : kernel :=
  let '(Build_kernel _ b c d) := k in Build_kernel v b c d.
Definition set_hashinfo (v : inet_hashinfo) (k : kernel) : kernel :=
  let '(Build_kernel a _ c d) := k in Build_kernel a v c d.
Definition set_prot_inuse (v : Z) (k : kernel) : kernel :=
  let '(Build_kernel a b _ d) := k in Build_kernel a b v d.
Definition set_hash_trace (v : list hash_event) (k : kernel) : kernel :=
  let '(Build_kernel a b c _) := k in Build_kernel a b c v.

Definition set_ehash (v : list (list nat)) (h : inet_hashinfo) : inet_hashinfo :=
  let '(Build_inet_hashinfo _ b c d e f) := h in Build_inet_hashinfo v b c d e f.
Definition set_listening_hash (v : list inet_listen_hashbucket) (h : inet_hashinfo)
    : inet_hashinfo :=
  let '(Build_inet_hashinfo a b c _ e f) := h in Build_inet_hashinfo a b c v e f.
Definition set_lhash2 (v : option (list inet_listen_hashbucket)) (h : inet_hashinfo)
    : inet_hashinfo :=
  let '(Build_inet_hashinfo a b c d _ f) := h in Build_inet_hashinfo a b c d v f.

Definition emit (e : hash_event) (k : kernel) : kernel :=
  set_hash_trace (hash_trace k ++ [e]) k.

(** The socket at address [sk] is replaced by its image under [f]. *)
Definition upd_sock (sk : nat) (f : sock -> sock) (k : kernel) : kernel :=
  set_socks (alter f sk (socks k)) k.

Definition upd_bucket (f : inet_listen_hashbucket -> inet_listen_hashbucket)
    (i : Z) (a : list inet_listen_hashbucket) : list inet_listen_hashbucket :=
  alter f (Z.to_nat i) a.

Definition count_dec (b : inet_listen_hashbucket) : inet_listen_hashbucket :=
  {| ilb_head := ilb_head b; ilb_count := ilb_count b - 1 |}.

(** The nodes of a chain of the established or listening table. *)
Definition chain_nodes (h : inet_hashinfo) (c : chain) : list nat :=
  match c with
  | ehash_chain i => default [] (ehash h !! Z.to_nat i)
  | listening_chain i => default [] (ilb_head <$> listening_hash h !! Z.to_nat i)
  end.

Definition upd_chain (f : list nat -> list nat) (c : chain) (h : inet_hashinfo)
    : inet_hashinfo :=
  match c with
  | ehash_chain i => set_ehash (alter f (Z.to_nat i) (ehash h)) h
  | listening_chain i =>
    set_listening_hash
      (upd_bucket (fun b => {| ilb_head := f (ilb_head b); ilb_count := ilb_count b |})
         i (listening_hash h)) h
  end.

Definition sk_unhashed (s : sock) : bool :=
  match sk_nulls_node s with None => true | Some _ => false end.
Definition sk_hashed (s : sock) : bool := negb (sk_unhashed s).

(** [__sk_nulls_add_node_rcu]: the node goes to the head of the chain. *)
Definition __sk_nulls_add_node_rcu (sk : nat) (c : chain) (k : kernel) : kernel :=
  let k := set_hashinfo (upd_chain (cons sk) c (hashinfo k)) k in
  let k := upd_sock sk (set_sk_nulls_node (Some c)) k in
  emit (hlist_add_head sk c) k.

(** [__sk_nulls_del_node_init_rcu]: a hashed node is taken out of the
    chain it is linked into and re-initialised. *)
Definition __sk_nulls_del_node_init_rcu (sk : nat) (k : kernel) : kernel :=
  match sk_nulls_node <$> socks k !! sk with
  | Some (Some c) =>
    let k := set_hashinfo (upd_chain (filter (fun x => x ≠ sk)) c (hashinfo k)) k in
    let k := upd_sock sk (set_sk_nulls_node None) k in
    emit (hlist_del sk) k
  | _ => k
  end.

(** Little-endian 32-bit word [i] of an address. *)
Definition nip_addr_field32 (a : nip_addr) (i : nat) : Z :=
  let b (j : nat) := default 0 (nip_addr_field8 a !! (4 * i + j)%nat) in
  Z.lor (Z.lor (b 0%nat) (Z.shiftl (b 1%nat) 8))
        (Z.lor (Z.shiftl (b 2%nat) 16) (Z.shiftl (b 3%nat) 24)).

(** [INET_COMBINED_PORTS] on a little-endian host. *)
Definition INET_COMBINED_PORTS (sport dport : Z) : Z :=
  Z.lor (Z.shiftl (to_u16 dport) 16) (to_u16 sport).

Section Hashtables.

(** Hash primitives of the kernel ([jhash.h], [net_namespace.h],
    [inet_hashtables.h]), the two secrets of [ninet_ehashfn], and the
    macros [__ninet_ehashfn] and [NINET_MATCH] of [ninet_hashtables.h].
    [NINET_MATCH sk net saddr daddr ports dif] says whether the socket
    has this 4-tuple on this device and namespace. *)
Variable jhash_1word : Z -> Z -> Z.
Variable jhash_3words : Z -> Z -> Z -> Z -> Z.
Variable net_hash_mix : Z -> Z.
Variable inet_sk_listen_hashfn : sock -> Z.
Variable ninet_ehash_secret ninet_hash_secret : Z.
Variable __ninet_ehashfn : Z -> Z -> Z -> Z -> Z -> Z.
Variable NINET_MATCH : sock -> Z -> nip_addr -> nip_addr -> Z -> Z -> bool.

Definition nip_portaddr_hash (net : Z) (saddr : nip_addr) (port : Z) : Z :=
  let v := Z.lxor (nip_addr_field32 saddr 0) (nip_addr_field32 saddr 1) in
  Z.lxor (jhash_1word v (net_hash_mix net)) port.

Definition __nip_addr_jhash (a : nip_addr) (initval : Z) : Z :=
  let v := Z.lxor (nip_addr_field32 a 0) (nip_addr_field32 a 1) in
  jhash_3words v (nip_addr_field32 a 0) (nip_addr_field32 a 1) initval.

(** The index of the bucket [ninet_lhash2_bucket_sk] returns. *)
Definition ninet_lhash2_bucket_sk (h : inet_hashinfo) (s : sock) : Z :=
  let hash := nip_portaddr_hash (sk_net s) (sk_nip_rcv_saddr s) (inet_num (inet_sk s)) in
  Z.land hash (lhash2_mask h).

Definition ninet_ehashfn (net : Z) (laddr : nip_addr) (lport : Z)
    (faddr : nip_addr) (fport : Z) : Z :=
  let lhash := nip_addr_field32 laddr 0 in
  let fhash := __nip_addr_jhash faddr ninet_hash_secret in
  __ninet_ehashfn lhash lport fhash fport
    (to_u32 (ninet_ehash_secret + net_hash_mix net)).

Definition ninet_unhash2 (sk : nat) (s : sock) (k : kernel) : kernel :=
  match lhash2 (hashinfo k), icsk_listen_portaddr_node s with
  | Some buckets, Some linked =>
    let ilb2 := ninet_lhash2_bucket_sk (hashinfo k) s in
    let k := emit (spin_lock (lhash2_lock ilb2)) k in
    (* hlist_del_init_rcu(&inet_csk(sk)->icsk_listen_portaddr_node) *)
    let buckets :=
      upd_bucket (fun b => {| ilb_head := filter (fun x => x ≠ sk) (ilb_head b);
                              ilb_count := ilb_count b |}) linked buckets in
    let k := upd_sock sk (set_icsk_listen_portaddr_node None) k in
    let buckets := upd_bucket count_dec ilb2 buckets in
    let k := set_hashinfo (set_lhash2 (Some buckets) (hashinfo k)) k in
    emit (spin_unlock (lhash2_lock ilb2)) k
  | _, _ => k
  end.

(** [None] when [sk] is not the address of a socket. *)
Definition ninet_unhash (sk : nat) (k : kernel) : option kernel :=
  s ← socks k !! sk;
  if sk_unhashed s then Some k else
  let ilb :=
    if sk_state s =? TCP_LISTEN then Some (inet_sk_listen_hashfn s) else None in
  let lock :=
    match ilb with
    | Some i => listening_lock i
    | None => ehash_lock (Z.land (sk_hash s) (ehash_locks_mask (hashinfo k)))
    end in
  let k := emit (spin_lock lock) k in
  (* the second sk_unhashed(sk) test sees what the first one saw *)
  let k :=
    match ilb with
    | Some i =>
      let k := ninet_unhash2 sk s k in
      set_hashinfo
        (set_listening_hash (upd_bucket count_dec i (listening_hash (hashinfo k)))
           (hashinfo k)) k
    | None => k
    end in
  let k := __sk_nulls_del_node_init_rcu sk k in
  let k := set_prot_inuse (prot_inuse k - 1) k in
  Some (emit (spin_unlock lock) k).

(** Whether the scan of the chain finds a socket with this hash that
    [NINET_MATCH]es. *)
Definition found_same_sk (k : kernel) (nodes : list nat) (hash net : Z)
    (saddr daddr : nip_addr) (ports dif : Z) : bool :=
  existsb (fun sk2 =>
             match socks k !! sk2 with
             | Some s2 => (sk_hash s2 =? hash) && NINET_MATCH s2 net saddr daddr ports dif
             | None => false
             end) nodes.

(** Returns the [int] result and the tables; [None] when [sk] is not the
    address of a socket. *)
Definition __ninet_check_established (sk : nat) (lport : Z) (k : kernel)
    : option (Z * kernel) :=
  s ← socks k !! sk;
  let hinfo := hashinfo k in
  let daddr := sk_nip_rcv_saddr s in
  let saddr := sk_nip_daddr s in
  let dif := sk_bound_dev_if s in
  let net := sk_net s in
  let lport := to_u16 lport in
  let ports := INET_COMBINED_PORTS (inet_dport (inet_sk s)) lport in
  let hash := ninet_ehashfn net daddr lport saddr (inet_dport (inet_sk s)) in
  let head := Z.land hash (ehash_mask hinfo) in
  let lock := ehash_lock (Z.land hash (ehash_locks_mask hinfo)) in
  let k := emit (spin_lock lock) k in
  if found_same_sk k (chain_nodes hinfo (ehash_chain head)) hash net saddr daddr ports dif
  then
    (* not_unique *)
    let k := emit (spin_unlock lock) k in
    Some (- EADDRNOTAVAIL, k)
  else
    (* Must record num and sport now. *)
    let k := emit (write_inet_num sk lport) (upd_sock sk (upd_inet (set_inet_num lport)) k) in
    let k := emit (write_inet_sport sk (htons lport))
               (upd_sock sk (upd_inet (set_inet_sport (htons lport))) k) in
    let k := emit (write_sk_hash sk hash) (upd_sock sk (set_sk_hash hash) k) in
    let k := __sk_nulls_add_node_rcu sk (ehash_chain head) k in
    let k := emit (spin_unlock lock) k in
    let k := set_prot_inuse (prot_inuse k + 1) k in
    Some (0, k).

End Hashtables.

(** ** Observations and concrete sockets *)

(** The keepalive parameters in force (idle time, probe count, interval)
    and their backup. *)
Definition keepalive_para (sk : sock) : Z * Z * Z :=
  (keepalive_time (tcp_sk sk), keepalive_probes (tcp_sk sk), keepalive_intvl (tcp_sk sk)).
Definition keepalive_bak (sk : sock) : Z * Z * Z :=
  (keepalive_time_bak (tcp_sk sk), keepalive_probes_bak (tcp_sk sk),
   keepalive_intvl_bak (tcp_sk sk)).

(** A valid connection state: one of the thirteen codes below
    [TCP_MAX_STATES]. *)
Definition valid_state (state : Z) : Prop := 0 <= state < TCP_MAX_STATES.

Definition addr_a : nip_addr := {| bitlen := 16; nip_addr_field8 := [10; 1] |}.
Definition addr_b : nip_addr := {| bitlen := 16; nip_addr_field8 := [10; 2] |}.

Definition th0 : tcphdr :=
  {| source := 80; dest := 5000; seq := 0; ack_seq := 0; doff := 5;
     fin := 0; syn := 0; rst := 0; ack := 0; tcp_flag_byte := 0 |}.

Definition skb0 : sk_buff :=
  {| pkt_type := PACKET_HOST; len := 20; skb_iif := 1; nexthdr := 6;
     srcaddr := addr_b; dstaddr := addr_a; pkt_total_len := 64;
     data := th0; transport_header := [];
     cb_seq := 0; cb_end_seq := 0; cb_ack_seq := 0; cb_tcp_flags := 0 |}.

Definition tp0 : tcp_sock :=
  {| keepalive_time := 0; keepalive_intvl := 0; keepalive_probes := 0;
     keepalive_time_bak := 0; keepalive_probes_bak := 0; keepalive_intvl_bak := 0;
     nip_keepalive_enable := false; nip_keepalive_out := 0; idle_ka_probes_out := 0;
     snd_nxt := 0; write_seq := 0; max_window := 0; srtt_us := 0; snd_cwnd := 0;
     packets_out := 0 |}.

(** A closed, unhashed socket with nothing queued. *)
Definition sock0 : sock :=
  {| sk_state := TCP_CLOSE; sk_flags := 0; sk_err := 0; sk_shutdown := 0;
     sk_send_head := None; sk_receive_queue := []; sk_write_queue := [];
     sk_hash := 0; sk_nulls_node := None; icsk_listen_portaddr_node := None;
     sk_bound_dev_if := 0; sk_nip_rcv_saddr := addr_a; sk_nip_daddr := addr_b;
     sk_net := 0; sk_prot_has_keepalive := true;
     inet_sk := {| inet_num := 0; inet_sport := 0; inet_dport := 80 |};
     tcp_sk := tp0; sk_trace := [] |}.

(** An established socket with data to send on which the user has set
    SO_KEEPALIVE with idle time 7200 s, 9 probes and interval 75 s, for
    [HZ = 100]. *)
Definition sk_user : sock :=
  let tp := set_keepalive_time 720000 (set_keepalive_probes 9 (set_keepalive_intvl 7500 tp0)) in
  set_tcp_sk tp
    (set_sk_send_head (Some skb0)
       (sock_set_flag SOCK_KEEPOPEN (set_sk_state TCP_ESTABLISHED sock0))).

(** Idle-profile times below and above [HZ = 100]. *)
Definition param_below_hz : nip_parameter :=
  {| g_nip_keepalive_time := 25; g_nip_keepalive_time_short_pkt := 5;
     g_nip_keepalive_intvl := 25; g_nip_idle_ka_probes_out := 20 |}.
Definition param_above_hz : nip_parameter :=
  {| g_nip_keepalive_time := 200; g_nip_keepalive_time_short_pkt := 200;
     g_nip_keepalive_intvl := 25; g_nip_idle_ka_probes_out := 20 |}.

(** An interval outside the accepted range. *)
Definition param_bad_intvl : nip_parameter :=
  {| g_nip_keepalive_time := 25; g_nip_keepalive_time_short_pkt := 5;
     g_nip_keepalive_intvl := 0; g_nip_idle_ka_probes_out := 20 |}.

Definition no_elapsed (_ : sock) : Z := 0.

(** [sk_user] after the idle profile was entered and twenty idle probes
    went unanswered. *)
Definition sk_idle : sock :=
  upd_tp (set_idle_ka_probes_out 20)
    (tcp_nip_keepalive_enable 100 param_below_hz no_elapsed sk_user).

(** The close table as the specification words it (not read off
    [new_state]): the state entered and whether a FIN is sent, for each
    current state. *)
Definition close_transition (state : Z) : Z * bool :=
  if (state =? TCP_ESTABLISHED) || (state =? TCP_SYN_RECV) then (TCP_FIN_WAIT1, true)
  else if state =? TCP_CLOSE_WAIT then (TCP_LAST_ACK, true)
  else if (state =? TCP_FIN_WAIT1) || (state =? TCP_FIN_WAIT2)
          || (state =? TCP_CLOSING) || (state =? TCP_LAST_ACK) then (state, false)
  else (TCP_CLOSE, false).

(** When a disconnect sends a reset, as the specification words it (not
    read off the bit masks of [tcp_nip_disconnect]): the prior state is one
    of the five that need one, or data is unacknowledged in Closing or
    LastAck. *)
Definition disconnect_resets (sk : sock) : bool :=
  let state := sk_state sk in
  (state =? TCP_ESTABLISHED) || (state =? TCP_CLOSE_WAIT) || (state =? TCP_FIN_WAIT1)
  || (state =? TCP_FIN_WAIT2) || (state =? TCP_SYN_RECV)
  || (negb (snd_nxt (tcp_sk sk) =? write_seq (tcp_sk sk))
      && ((state =? TCP_CLOSING) || (state =? TCP_LAST_ACK))).

(** Ten bytes received and not yet read. *)
Definition skb_unread : sk_buff := set_tcp_skb_cb 1000 1010 0 0 skb0.

(** An established socket with unread data in its receive queue. *)
Definition sk_unread : sock :=
  set_sk_receive_queue [skb_unread] (set_sk_state TCP_ESTABLISHED sock0).

(** A socket in CloseWait with queued data that was never sent. *)
Definition sk_close_wait : sock :=
  set_tcp_sk (set_write_seq 500 tp0)
    (set_sk_write_queue [skb0] (set_sk_state TCP_CLOSE_WAIT sock0)).

(** Stand-ins for the routines around [tcp_nip_rcv]: a checksum routine
    that accepts every segment and one that rejects every segment, a
    lookup that finds no socket, and handlers that accept what they get. *)
Definition checksum_accepts (_ : list Z) (_ : Z) (_ : nip_pseudo_header) : Z := 65535.
Definition checksum_rejects (_ : list Z) (_ : Z) (_ : nip_pseudo_header) : Z := 0.
Definition lookup_finds_none (_ : sk_buff) : option (sock * bool) := None.
Definition filter_passes (_ : sock) (_ : sk_buff) : bool := false.
Definition listener_of (req : sock) : sock := req.
Definition check_req_fails (_ : sock) (_ : sk_buff) (_ : sock) : check_req_result := req_null.
Definition child_process_ok (_ _ : sock) (_ : sk_buff) : Z := 0.
Definition state_process_ok (_ : sock) (_ : sk_buff) : Z := 0.
Definition not_owned (_ : sock) : bool := false.
Definition backlog_accepts (_ : sock) (_ : sk_buff) : bool := false.

(** [tcp_nip_rcv] among these stand-ins. *)
Definition rcv_with (checksum : list Z -> Z -> nip_pseudo_header -> Z) (skb : sk_buff)
    : Z * list rcv_action :=
  tcp_nip_rcv checksum lookup_finds_none filter_passes listener_of check_req_fails
    child_process_ok state_process_ok not_owned backlog_accepts skb.

(** A SYN segment and a RST segment, 20 bytes of header each. *)
Definition skb_syn : sk_buff :=
  {| pkt_type := PACKET_HOST; len := 20; skb_iif := 1; nexthdr := 6;
     srcaddr := addr_b; dstaddr := addr_a; pkt_total_len := 20;
     data := {| source := 80; dest := 5000; seq := 16777216; ack_seq := 0; doff := 5;
                fin := 0; syn := 1; rst := 0; ack := 0; tcp_flag_byte := 2 |};
     transport_header := [];
     cb_seq := 0; cb_end_seq := 0; cb_ack_seq := 0; cb_tcp_flags := 0 |}.
Definition skb_rst : sk_buff :=
  {| pkt_type := PACKET_HOST; len := 20; skb_iif := 1; nexthdr := 6;
     srcaddr := addr_b; dstaddr := addr_a; pkt_total_len := 20;
     data := {| source := 80; dest := 5000; seq := 16777216; ack_seq := 0; doff := 5;
                fin := 0; syn := 0; rst := 1; ack := 0; tcp_flag_byte := 4 |};
     transport_header := [];
     cb_seq := 0; cb_end_seq := 0; cb_ack_seq := 0; cb_tcp_flags := 0 |}.

(** Stand-ins for the hash primitives, and a match on the 4-tuple, the
    device and the namespace. *)
Definition jhash_1word_xor (a initval : Z) : Z := Z.lxor a initval.
Definition jhash_3words_sum (a b c initval : Z) : Z := to_u32 (a + b + c + initval).
Definition hash_mix_zero (_ : Z) : Z := 0.
Definition listen_hashfn_low (s : sock) : Z := Z.land (inet_num (inet_sk s)) 31.
Definition ehashfn_sum (laddr lport faddr fport initval : Z) : Z :=
  to_u32 (laddr + lport + faddr + fport + initval).
Definition match_tuple (s2 : sock) (net : Z) (saddr daddr : nip_addr) (ports dif : Z)
    : bool :=
  (INET_COMBINED_PORTS (inet_dport (inet_sk s2)) (inet_num (inet_sk s2)) =? ports)
  && bool_decide (sk_nip_daddr s2 = saddr)
  && bool_decide (sk_nip_rcv_saddr s2 = daddr)
  && ((sk_bound_dev_if s2 =? 0) || (sk_bound_dev_if s2 =? dif))
  && (sk_net s2 =? net).

(** [__ninet_check_established] and [ninet_unhash] among these
    stand-ins. *)
Definition check_established_with (sk : nat) (lport : Z) (k : kernel)
    : option (Z * kernel) :=
  __ninet_check_established jhash_3words_sum hash_mix_zero 0 0 ehashfn_sum match_tuple
    sk lport k.
Definition unhash_with (sk : nat) (k : kernel) : option kernel :=
  ninet_unhash jhash_1word_xor hash_mix_zero listen_hashfn_low sk k.

(** Empty tables of four established chains, thirty-two listening buckets
    and four buckets in the second listening table. *)
Definition hashinfo0 : inet_hashinfo :=
  {| ehash := replicate 4 []; ehash_mask := 3; ehash_locks_mask := 1;
     listening_hash := replicate 32 {| ilb_head := []; ilb_count := 0 |};
     lhash2 := Some (replicate 4 {| ilb_head := []; ilb_count := 0 |});
     lhash2_mask := 3 |}.

(** Two connecting sockets (addresses 1 and 2) with the same remote
    address and port, none of them hashed yet. *)
Definition kernel0 : kernel :=
  {| socks := {[ 1%nat := set_sk_state TCP_SYN_SENT sock0;
                 2%nat := set_sk_state TCP_SYN_SENT sock0 ]};
     hashinfo := hashinfo0; prot_inuse := 0; hash_trace := [] |}.

(** [kernel0] after socket 1 took local port 5000. *)
Definition kernel1 : kernel :=
  default kernel0 (snd <$> check_established_with 1 5000 kernel0).

(** A listener on port 80 (address 3), linked into bucket 16 of the
    listening table and bucket 2 of the second listening table. *)
Definition sk_listener : sock :=
  set_icsk_listen_portaddr_node (Some 2)
    (set_sk_nulls_node (Some (listening_chain 16))
       (upd_inet (set_inet_num 80) (set_sk_state TCP_LISTEN sock0))).
Definition kernel_listen : kernel :=
  {| socks := {[ 3%nat := sk_listener ]};
     hashinfo :=
       set_lhash2 (Some (<[2%nat := {| ilb_head := [3%nat]; ilb_count := 1 |}]>
                           (replicate 4 {| ilb_head := []; ilb_count := 0 |})))
         (set_listening_hash
            (<[16%nat := {| ilb_head := [3%nat]; ilb_count := 1 |}]>
               (listening_hash hashinfo0)) hashinfo0);
     prot_inuse := 1; hash_trace := [] |}.

(** ** Further code and observations *)

#[global] Instance event_eq_dec : EqDecision event.
Proof. solve_decision. Defined.

#[global] Instance rcv_action_eq_dec : EqDecision rcv_action.
Proof. intros x y. unfold Decision. repeat decide equality. Defined.

(** How often an event, or an action, occurs in a trace. *)
Definition count_event (e : event) (tr : list event) : nat :=
  length (filter (fun x => x = e) tr).
Definition count_action (a : rcv_action) (tr : list rcv_action) : nat :=
  length (filter (fun x => x = a) tr).

(** The sequence space a queued segment holds beyond its FIN. *)
Definition unread_len (skb : sk_buff) : Z :=
  cb_end_seq skb - cb_seq skb
  - (if negb (Z.land (cb_tcp_flags skb) TCPHDR_FIN =? 0) then 1 else 0).

(** *** The write queue ([tcp_nip.h]) *)

Definition tcp_nip_add_write_queue_tail (skb : sk_buff) (sk : sock) : sock :=
  let sk := set_sk_write_queue (sk_write_queue sk ++ [skb]) sk in
  match sk_send_head sk with
  | None => set_sk_send_head (Some skb) sk
  | Some _ => sk
  end.

(** Every segment is dequeued and freed, then the send head is cleared;
    the retransmit hints and [icsk_backoff] are not in the records. *)
Definition tcp_nip_write_queue_purge (sk : sock) : sock :=
  let sk := set_sk_write_queue [] sk in
  set_sk_send_head None sk.

Definition tcp_nip_write_queue_empty (sk : sock) : bool :=
  match sk_write_queue sk with [] => true | _ => false end.

(** The send head, when there is one, is a segment of the write queue. *)
Definition send_head_queued (sk : sock) : Prop :=
  match sk_send_head sk with
  | None => True
  | Some skb => skb ∈ sk_write_queue sk
  end.

(** A segment that carries only a FIN. *)
Definition skb_fin : sk_buff := set_tcp_skb_cb 1010 1011 0 TCPHDR_FIN skb0.

(** An established socket whose peer has sent a FIN and nothing else. *)
Definition sk_fin_queued : sock :=
  set_sk_receive_queue [skb_fin] (set_sk_state TCP_ESTABLISHED sock0).

(** *** Keepalive: a further socket *)

(** An established socket with data to send on which the user has not set
    SO_KEEPALIVE. *)
Definition sk_plain : sock :=
  set_sk_send_head (Some skb0) (set_sk_state TCP_ESTABLISHED sock0).

(** *** Ingress: further observations *)

(** A lookup that finds socket [sk], holding a reference or not. *)
Definition lookup_finds (sk : sock) (refcounted : bool) (_ : sk_buff)
    : option (sock * bool) := Some (sk, refcounted).

(** A request socket. *)
Definition sk_request : sock := set_sk_state TCP_NEW_SYN_RECV sock0.

(** A segment of ten bytes of payload with FIN set, 20 bytes of header. *)
Definition skb_data_fin : sk_buff :=
  {| pkt_type := PACKET_HOST; len := 30; skb_iif := 1; nexthdr := 6;
     srcaddr := addr_b; dstaddr := addr_a; pkt_total_len := 30;
     data := {| source := 80; dest := 5000; seq := 16777216; ack_seq := 0; doff := 5;
                fin := 1; syn := 0; rst := 0; ack := 0; tcp_flag_byte := 1 |};
     transport_header := [];
     cb_seq := 0; cb_end_seq := 0; cb_ack_seq := 0; cb_tcp_flags := 0 |}.

(** Whether an action is a reset, and how many resets a trace holds. *)
Definition is_reset (a : rcv_action) : bool :=
  match a with tcp_nip_actual_send_reset _ _ => true | _ => false end.
Definition count_resets (tr : list rcv_action) : nat :=
  length (filter (fun a => is_reset a = true) tr).

(** *** Listener insertion and the lookups ([ninet_hashtables.c]) *)

Definition count_inc (b : inet_listen_hashbucket) : inet_listen_hashbucket :=
  {| ilb_head := ilb_head b; ilb_count := ilb_count b + 1 |}.

(** The state of the scan of [ninet_lhash2_lookup]. *)
Record lhash2_scan := {
  result : option nat;
  hiscore : Z;
  matches : Z;
  reuseport : Z;
  phash : Z
}.

Section Lookups.

(** The primitives of [Section Hashtables], and with them:
    [inet_ehash_nolisten] of the kernel (called with [osk] and
    [found_dup_sk] null), the index of the flag SOCK_RCU_FREE, the fields
    [sk_refcnt], [sk_family], [sk_incoming_cpu] and [sk_reuseport] of
    [struct sock], which the records above leave out, the constant
    PF_NINET, [nip_any_addr] and [nip_addr_eq] of [nip_addr.h],
    [inet_sk_bound_dev_eq] of [inet_sock.h], the number of the running
    processor, and [reciprocal_scale] and [next_pseudo_random32] of the
    kernel. *)
Variable jhash_1word : Z -> Z -> Z.
Variable jhash_3words : Z -> Z -> Z -> Z -> Z.
Variable net_hash_mix : Z -> Z.
Variable inet_sk_listen_hashfn : sock -> Z.
Variable ninet_ehash_secret ninet_hash_secret : Z.
Variable __ninet_ehashfn : Z -> Z -> Z -> Z -> Z -> Z.
Variable NINET_MATCH : sock -> Z -> nip_addr -> nip_addr -> Z -> Z -> bool.
Variable inet_ehash_nolisten : nat -> kernel -> kernel.
Variable SOCK_RCU_FREE : Z.
Variable sk_refcnt : sock -> Z.
Variable sk_family : sock -> Z.
Variable PF_NINET : Z.
Variable nip_any_addr : nip_addr.
Variable nip_addr_eq : nip_addr -> nip_addr -> bool.
Variable inet_sk_bound_dev_eq : Z -> Z -> Z -> Z -> bool.
Variable sk_incoming_cpu : sock -> Z.
Variable raw_smp_processor_id : Z.
Variable sk_reuseport : sock -> Z.
Variable reciprocal_scale : Z -> Z -> Z.
Variable next_pseudo_random32 : Z -> Z.

Definition ninet_hash2 (sk : nat) (s : sock) (k : kernel) : kernel :=
  match lhash2 (hashinfo k) with
  | None => k
  | Some buckets =>
    let ilb2 := ninet_lhash2_bucket_sk jhash_1word net_hash_mix (hashinfo k) s in
    let k := emit (spin_lock (lhash2_lock ilb2)) k in
    (* hlist_add_head_rcu(&inet_csk(sk)->icsk_listen_portaddr_node, &ilb2->head) *)
    let buckets :=
      upd_bucket (fun b => {| ilb_head := sk :: ilb_head b; ilb_count := ilb_count b |})
        ilb2 buckets in
    let k := upd_sock sk (set_icsk_listen_portaddr_node (Some ilb2)) k in
    let buckets := upd_bucket count_inc ilb2 buckets in
    let k := set_hashinfo (set_lhash2 (Some buckets) (hashinfo k)) k in
    emit (spin_unlock (lhash2_lock ilb2)) k
  end.

(** Returns [err] and the tables; [None] when [sk] is not the address of
    a socket. *)
Definition __ninet_hash (sk : nat) (k : kernel) : option (Z * kernel) :=
  s ← socks k !! sk;
  let err := 0 in
  if negb (sk_state s =? TCP_LISTEN) then Some (0, inet_ehash_nolisten sk k) else
  let i := inet_sk_listen_hashfn s in
  let k := emit (spin_lock (listening_lock i)) k in
  let k := __sk_nulls_add_node_rcu sk (listening_chain i) k in
  let k := ninet_hash2 sk s k in
  let k :=
    set_hashinfo
      (set_listening_hash (upd_bucket count_inc i (listening_hash (hashinfo k)))
         (hashinfo k)) k in
  let k := upd_sock sk (sock_set_flag SOCK_RCU_FREE) k in
  let k := set_prot_inuse (prot_inuse k + 1) k in
  let k := emit (spin_unlock (listening_lock i)) k in
  Some (err, k).

Definition ninet_hash (sk : nat) (k : kernel) : option (Z * kernel) :=
  s ← socks k !! sk;
  let err := 0 in
  if negb (sk_state s =? TCP_CLOSE) then __ninet_hash sk k else Some (err, k).

(** The scan of one chain by [__ninet_lookup_established], run without
    interference: the second [NINET_MATCH] sees what the first one saw and
    the end of the chain carries the number of its slot, so that the scan
    is not restarted.  A matching socket whose reference count is 0 ends
    the scan with nothing found; the reference taken on the socket that is
    returned is not followed. *)
Fixpoint lookup_established_scan (k : kernel) (nodes : list nat) (hash net : Z)
    (saddr daddr : nip_addr) (ports dif : Z) : option nat :=
  match nodes with
  | [] => None
  | sk :: nodes =>
    match socks k !! sk with
    | None => lookup_established_scan k nodes hash net saddr daddr ports dif
    | Some s =>
      if negb (sk_hash s =? hash)
      then lookup_established_scan k nodes hash net saddr daddr ports dif
      else if negb (NINET_MATCH s net saddr daddr ports dif)
      then lookup_established_scan k nodes hash net saddr daddr ports dif
      else if sk_refcnt s =? 0 then None
      else Some sk
    end
  end.

Definition __ninet_lookup_established (k : kernel) (net : Z) (saddr : nip_addr)
    (sport : Z) (daddr : nip_addr) (hnum dif : Z) : option nat :=
  let hashinfo := hashinfo k in
  let ports := INET_COMBINED_PORTS sport hnum in
  let hash :=
    ninet_ehashfn jhash_3words net_hash_mix ninet_ehash_secret ninet_hash_secret
      __ninet_ehashfn net daddr hnum saddr sport in
  let slot := Z.land hash (ehash_mask hashinfo) in
  lookup_established_scan k (chain_nodes hashinfo (ehash_chain slot))
    hash net saddr daddr ports dif.

(** The hash of the connection of socket [s] from local port [lport]. *)
Definition tuple_hash (s : sock) (lport : Z) : Z :=
  ninet_ehashfn jhash_3words net_hash_mix ninet_ehash_secret ninet_hash_secret
    __ninet_ehashfn (sk_net s) (sk_nip_rcv_saddr s) (to_u16 lport) (sk_nip_daddr s)
    (inet_dport (inet_sk s)).

(** Socket [s] once [__ninet_check_established] has given it [lport]. *)
Definition established_sock (s : sock) (lport : Z) (head : Z) : sock :=
  set_sk_nulls_node (Some (ehash_chain head))
    (set_sk_hash (tuple_hash s lport)
       (upd_inet (set_inet_sport (htons (to_u16 lport)))
          (upd_inet (set_inet_num (to_u16 lport)) s))).

Definition nip_tcp_compute_score (s : sock) (net hnum : Z) (daddr : nip_addr)
    (dif sdif : Z) : Z :=
  let score := -1 in
  if (inet_num (inet_sk s) =? hnum) && (sk_family s =? PF_NINET) && (sk_net s =? net)
  then
    let score := 1 in
    if negb (nip_addr_eq (sk_nip_rcv_saddr s) nip_any_addr)
       && negb (nip_addr_eq (sk_nip_rcv_saddr s) daddr)
    then -1 else
    let score :=
      if negb (nip_addr_eq (sk_nip_rcv_saddr s) nip_any_addr) then score + 1 else score in
    if negb (inet_sk_bound_dev_eq net (sk_bound_dev_if s) dif sdif) then -1 else
    let score := score + 1 in
    let score := if sk_incoming_cpu s =? raw_smp_processor_id then score + 1 else score in
    score
  else score.

(** One round of the loop of [ninet_lhash2_lookup]. *)
Definition lhash2_lookup_step (k : kernel) (net : Z) (saddr : nip_addr) (sport : Z)
    (daddr : nip_addr) (hnum dif sdif : Z) (st : lhash2_scan) (sk : nat)
    : lhash2_scan :=
  match socks k !! sk with
  | None => st
  | Some s =>
    let score := nip_tcp_compute_score s net hnum daddr dif sdif in
    if score >? hiscore st then
      let reuseport := sk_reuseport s in
      if negb (reuseport =? 0)
      then {| result := Some sk; hiscore := score; matches := 1; reuseport := reuseport;
              phash := ninet_ehashfn jhash_3words net_hash_mix ninet_ehash_secret
                         ninet_hash_secret __ninet_ehashfn net daddr hnum saddr sport |}
      else {| result := Some sk; hiscore := score; matches := matches st;
              reuseport := reuseport; phash := phash st |}
    else if (score =? hiscore st) && negb (reuseport st =? 0) then
      let matches := to_int (matches st + 1) in
      {| result := if reciprocal_scale (phash st) (to_u32 matches) =? 0
                   then Some sk else result st;
         hiscore := hiscore st; matches := matches; reuseport := reuseport st;
         phash := next_pseudo_random32 (phash st) |}
    else st
  end.

Definition ninet_lhash2_lookup (k : kernel) (net : Z) (ilb2 : inet_listen_hashbucket)
    (saddr : nip_addr) (sport : Z) (daddr : nip_addr) (hnum dif sdif : Z)
    : option nat :=
  let st := {| result := None; hiscore := 0; matches := 0; reuseport := 0; phash := 0 |} in
  result (foldl (lhash2_lookup_step k net saddr sport daddr hnum dif sdif) st
            (ilb_head ilb2)).

(** [None] when the second listening table is missing or the bucket is
    out of range; the socket found, if any, otherwise.  An address is
    never an error pointer, so the test [IS_ERR] at the end is passed. *)
Definition ninet_lookup_listener (k : kernel) (net : Z) (saddr : nip_addr) (sport : Z)
    (daddr : nip_addr) (hnum dif sdif : Z) : option (option nat) :=
  let hashinfo := hashinfo k in
  let bucket (hash2 : Z) :=
    buckets ← lhash2 hashinfo;
    buckets !! Z.to_nat (Z.land hash2 (lhash2_mask hashinfo)) in
  let hash2 := nip_portaddr_hash jhash_1word net_hash_mix net daddr hnum in
  ilb2 ← bucket hash2;
  match ninet_lhash2_lookup k net ilb2 saddr sport daddr hnum dif sdif with
  | Some sk => Some (Some sk)
  | None =>
    let hash2 := nip_portaddr_hash jhash_1word net_hash_mix net nip_any_addr hnum in
    ilb2 ← bucket hash2;
    Some (ninet_lhash2_lookup k net ilb2 saddr sport nip_any_addr hnum dif sdif)
  end.

End Lookups.

(** The established table is well formed: a socket linked into a chain is
    a socket whose node names that chain. *)
Definition ehash_wf (k : kernel) : Prop :=
  forall (i : nat) (nodes : list nat) (sk : nat),
    ehash (hashinfo k) !! i = Some nodes -> sk ∈ nodes ->
    sk_nulls_node <$> socks k !! sk = Some (Some (ehash_chain (Z.of_nat i))).

(** A reference count that is never 0. *)
Definition refcnt_one (_ : sock) : Z := 1.

(** Stand-ins for the fields and helpers of the listener lookup: every
    socket of family 45 on processor 0, no port reuse, the wildcard
    address [addr_any], addresses compared field by field, and a device
    test that accepts an unbound socket or the incoming device. *)
Definition family_ninet (_ : sock) : Z := 45.
Definition addr_any : nip_addr := {| bitlen := 16; nip_addr_field8 := [255; 9] |}.
Definition addr_eq (a b : nip_addr) : bool := bool_decide (a = b).
Definition bound_dev_eq (_ bound dif sdif : Z) : bool :=
  (bound =? 0) || (bound =? dif) || (bound =? sdif).
Definition cpu_zero (_ : sock) : Z := 0.
Definition no_reuseport (_ : sock) : Z := 0.
Definition scale_low (val ep_ro : Z) : Z := Z.shiftr (val * ep_ro) 32.
Definition next_random (seed : Z) : Z := to_u32 (seed * 1664525 + 1013904223).

(** The score of the socket at an address; -1 where there is none. *)
Definition score_of (score : sock -> Z) (k : kernel) (sk : nat) : Z :=
  match socks k !! sk with Some s => score s | None => -1 end.

(** Two listeners on port 80, the first bound to [addr_a], the second to
    the wildcard address, in one bucket. *)
Definition sk_listen_any : sock :=
  let '(Build_sock a b c d e f g h i j k _ m n o p q r) :=
    upd_inet (set_inet_num 80) (set_sk_state TCP_LISTEN sock0) in
  Build_sock a b c d e f g h i j k addr_any m n o p q r.
Definition kernel_two_listeners : kernel :=
  {| socks := {[ 3%nat := upd_inet (set_inet_num 80) (set_sk_state TCP_LISTEN sock0);
                 4%nat := sk_listen_any ]};
     hashinfo := hashinfo0; prot_inuse := 2; hash_trace := [] |}.
Definition bucket_two_listeners : inet_listen_hashbucket :=
  {| ilb_head := [4%nat; 3%nat]; ilb_count := 2 |}.

(** [__ninet_lookup_established] and the listener functions among the
    stand-ins; SOCK_RCU_FREE is flag 23 here, and [inet_ehash_nolisten]
    is not followed. *)
Definition lookup_established_with (k : kernel) (net : Z) (saddr : nip_addr) (sport : Z)
    (daddr : nip_addr) (hnum dif : Z) : option nat :=
  __ninet_lookup_established jhash_3words_sum hash_mix_zero 0 0 ehashfn_sum match_tuple
    refcnt_one k net saddr sport daddr hnum dif.
Definition ehash_nolisten_skip (_ : nat) (k : kernel) : kernel := k.
Definition hash_with (sk : nat) (k : kernel) : option (Z * kernel) :=
  ninet_hash jhash_1word_xor hash_mix_zero listen_hashfn_low ehash_nolisten_skip 23 sk k.
Definition lhash2_lookup_with (k : kernel) (net : Z) (ilb2 : inet_listen_hashbucket)
    (saddr : nip_addr) (sport : Z) (daddr : nip_addr) (hnum dif sdif : Z) : option nat :=
  ninet_lhash2_lookup jhash_3words_sum hash_mix_zero 0 0 ehashfn_sum family_ninet 45
    addr_any addr_eq bound_dev_eq cpu_zero 0 no_reuseport scale_low next_random
    k net ilb2 saddr sport daddr hnum dif sdif.
Definition lookup_listener_with (k : kernel) (net : Z) (saddr : nip_addr) (sport : Z)
    (daddr : nip_addr) (hnum dif sdif : Z) : option (option nat) :=
  ninet_lookup_listener jhash_1word_xor jhash_3words_sum hash_mix_zero 0 0 ehashfn_sum
    family_ninet 45 addr_any addr_eq bound_dev_eq cpu_zero 0 no_reuseport scale_low
    next_random k net saddr sport daddr hnum dif sdif.

(** A listener on port 80 (address 3) that is not hashed yet. *)
Definition sk_listener_new : sock :=
  upd_inet (set_inet_num 80) (set_sk_state TCP_LISTEN sock0).
Definition kernel_listen_new : kernel :=
  {| socks := {[ 3%nat := sk_listener_new ]};
     hashinfo := hashinfo0; prot_inuse := 0; hash_trace := [] |}.

(** *** Connect ([tcp_nip.c]) *)

Definition EFAULT : Z := 14.
Definition EAFNOSUPPORT : Z := 97.

(** [struct sockaddr_nin]. *)
Record sockaddr_nin := {
  sin_family : Z;
  sin_port : Z;
  sin_addr : nip_addr
}.

Definition set_sk_nip_rcv_saddr (v : nip_addr) (s : sock) : sock :=
  let '(Build_sock a b c d e f g h i j k _ m n o p q r) := s in
  Build_sock a b c d e f g h i j k v m n o p q r.
Definition set_sk_nip_daddr (v : nip_addr) (s : sock) : sock :=
  let '(Build_sock a b c d e f g h i j k l _ n o p q r) := s in
  Build_sock a b c d e f g h i j k l v n o p q r.

(** [int] converted to [size_t] for a comparison with [sizeof]. *)
Definition to_size_t (x : Z) : Z := x mod 2 ^ 64.

Section Connect.

(** The size of [struct sockaddr_nin] and the constant AF_NINET; the
    route lookup [nip_dst_lookup_flow], which gives an error or the source
    address of the route; [nip_any_addr], [nip_addr_eq] and
    [nip_addr_invalid] of [nip_addr.h]; [ninet_hash_connect] and
    [__tcp_nip_connect], which give an error code and the socket as they
    leave it; the fields [rx_opt.ts_recent_stamp] and [repair] of
    [struct tcp_sock]; and [secure_tcp_nip_sequence_number]. *)
Variable sizeof_sockaddr_nin : Z.
Variable AF_NINET : Z.
Variable nip_dst_lookup_flow : sock -> nip_addr -> Z -> Z + nip_addr.
Variable nip_any_addr : nip_addr.
Variable nip_addr_eq : nip_addr -> nip_addr -> bool.
Variable nip_addr_invalid : nip_addr -> bool.
Variable ninet_hash_connect : sock -> Z * sock.
Variable ts_recent_stamp : sock -> Z.
Variable repair : sock -> Z.
Variable secure_tcp_nip_sequence_number : nip_addr -> nip_addr -> Z -> Z -> Z.
Variable __tcp_nip_connect : sock -> Z * sock.

(** Returns [err] and the socket.  [sk_route_caps], [icsk_ext_hdr_len],
    [inet_id], the transmit hash and the route are not in the records. *)
Definition tcp_nip_connect (sk : sock) (usin : sockaddr_nin) (addr_len : Z) : Z * sock :=
  let failure (err : Z) (sk : sock) := (err, upd_inet (set_inet_dport 0) sk) in
  let late_failure (err : Z) (sk : sock) := failure err (tcp_set_state TCP_CLOSE sk) in
  if to_size_t addr_len <? sizeof_sockaddr_nin then (- EINVAL, sk) else
  if negb (sin_family usin =? AF_NINET) then (- EAFNOSUPPORT, sk) else
  match nip_dst_lookup_flow sk (sin_addr usin) (sk_bound_dev_if sk) with
  | inl err => failure err sk
  | inr saddr =>
    (* find the actual source addr for sk->sk_nip_rcv_saddr *)
    let sk :=
      if nip_addr_eq (sk_nip_rcv_saddr sk) nip_any_addr
      then set_sk_nip_rcv_saddr saddr sk else sk in
    let saddr := sk_nip_rcv_saddr sk in
    if nip_addr_invalid (sin_addr usin) then failure (- EFAULT) sk else
    if nip_addr_invalid saddr then failure (- EFAULT) sk else
    let sk := upd_inet (set_inet_dport (sin_port usin)) sk in
    let sk := set_sk_nip_daddr (sin_addr usin) sk in
    let sk := tcp_set_state TCP_SYN_SENT sk in
    (* Dynamically bind local ports *)
    let '(err, sk) := ninet_hash_connect sk in
    if negb (err =? 0) then late_failure err sk else
    let sk :=
      if negb (ts_recent_stamp sk =? 0) && (repair sk =? 0)
      then upd_tp (set_write_seq 0) sk else sk in
    let sk :=
      if write_seq (tcp_sk sk) =? 0
      then upd_tp (set_write_seq
                     (to_u32 (secure_tcp_nip_sequence_number (sk_nip_rcv_saddr sk)
                                (sk_nip_daddr sk) (inet_sport (inet_sk sk))
                                (sin_port usin)))) sk
      else sk in
    let '(err, sk) := __tcp_nip_connect sk in
    if negb (err =? 0) then late_failure err sk else
    (0, sk)
  end.

End Connect.

(** Stand-ins: a route lookup that fails with [-ENETUNREACH], and one
    that finds the source address [addr_a]; no address is invalid; the
    port is bound and the SYN sent without error. *)
Definition route_unreachable (_ : sock) (_ : nip_addr) (_ : Z) : Z + nip_addr := inl (-101).
Definition route_from_a (_ : sock) (_ : nip_addr) (_ : Z) : Z + nip_addr := inr addr_a.
Definition addr_valid (_ : nip_addr) : bool := false.
Definition hash_connect_ok (sk : sock) : Z * sock := (0, sk).
Definition hash_connect_fails (sk : sock) : Z * sock := (- EADDRNOTAVAIL, sk).
Definition no_stamp (_ : sock) : Z := 0.
Definition secure_seq_const (_ _ : nip_addr) (_ _ : Z) : Z := 12345.
Definition send_syn_ok (sk : sock) : Z * sock := (0, sk).

Definition usin_b : sockaddr_nin := {| sin_family := 45; sin_port := 80; sin_addr := addr_b |}.

Definition connect_with (route : sock -> nip_addr -> Z -> Z + nip_addr)
    (hash_connect : sock -> Z * sock) (sk : sock) (usin : sockaddr_nin) (addr_len : Z)
    : Z * sock :=
  tcp_nip_connect 24 45 route addr_any addr_eq addr_valid hash_connect no_stamp no_stamp
    secure_seq_const send_syn_ok sk usin addr_len.

(** *** The size goal of a send ([tcp_nip.c]) *)

(** The fields [tcp_xmit_size_goal] works on: [gso_segs] of
    [struct tcp_sock], [sk_gso_max_size] and [sk_gso_max_segs] of
    [struct sock]. *)
Record gso := {
  gso_segs : Z;
  sk_gso_max_size : Z;
  sk_gso_max_segs : Z
}.

Section SizeGoal.

(** MAX_TCP_HEADER and [tcp_bound_to_half_wnd] of [include/net/tcp.h]. *)
Variable MAX_TCP_HEADER : Z.
Variable tcp_bound_to_half_wnd : Z -> Z.

(** Returns the goal and the fields; [None] where the code divides by
    [mss_now = 0]. *)
Definition tcp_xmit_size_goal (g : gso) (mss_now large_allowed : Z) : option (Z * gso) :=
  if large_allowed =? 0 then Some (mss_now, g) else
  (* Note : tcp_tso_autosize() will eventually split this later *)
  let new_size_goal := to_u32 (sk_gso_max_size g - 1 - MAX_TCP_HEADER) in
  let new_size_goal := to_u32 (tcp_bound_to_half_wnd (to_int new_size_goal)) in
  (* We try hard to avoid divides here *)
  let size_goal := to_u32 (gso_segs g * mss_now) in
  if (new_size_goal <? size_goal) || (new_size_goal >=? to_u32 (size_goal + mss_now))
  then
    if mss_now =? 0 then None else
    let segs := Z.min (to_u16 (new_size_goal / mss_now)) (to_u16 (sk_gso_max_segs g)) in
    let g := {| gso_segs := segs; sk_gso_max_size := sk_gso_max_size g;
                sk_gso_max_segs := sk_gso_max_segs g |} in
    let size_goal := to_u32 (gso_segs g * mss_now) in
    Some (Z.max size_goal mss_now, g)
  else Some (Z.max size_goal mss_now, g).

End SizeGoal.

(** A window that does not bound the goal, and fields before the first send. *)
Definition half_wnd_unbounded (pktsize : Z) : Z := pktsize.
Definition gso0 : gso := {| gso_segs := 0; sk_gso_max_size := 65536; sk_gso_max_segs := 64 |}.

(** * Theorems *)

(** ** Records and integer conversions *)

#[local] Arguments to_u32 : simpl never.
#[local] Arguments to_u16 : simpl never.
#[local] Arguments to_u8 : simpl never.
#[local] Arguments to_int : simpl never.
#[local] Arguments htons : simpl never.
#[local] Arguments sock_flag : simpl never.
#[local] Arguments state_in : simpl never.
#[local] Arguments sock_valbool_flag : simpl never.
#[local] Arguments Z.testbit : simpl never.
#[local] Arguments Z.setbit : simpl never.
#[local] Arguments Z.clearbit : simpl never.

Lemma to_u32_idem (x : Z) : to_u32 (to_u32 x) = to_u32 x.
Proof. unfold to_u32. apply Z.mod_mod. lia. Qed.

Lemma to_u32_small (x : Z) : 0 <= x < 2 ^ 32 -> to_u32 x = x.
Proof. intros H. unfold to_u32. apply Z.mod_small. exact H. Qed.

(** An accepted [int] value is the 32-bit pattern it was converted from. *)
Lemma to_int_accepted (x : Z) :
  (to_int x <? 1) || (to_int x >? 32767) = false ->
  to_u32 (to_int x) = to_u32 x /\ 1 <= to_int x <= 32767.
Proof.
  intros H. apply orb_false_elim in H as [H1 H2].
  apply Z.ltb_ge in H1. rewrite Z.gtb_ltb in H2. apply Z.ltb_ge in H2.
  split; [|lia]. revert H1 H2. unfold to_int, to_u32.
  pose proof (Z.mod_pos_bound x (2 ^ 32) ltac:(lia)) as Hb.
  destruct (x `mod` 2 ^ 32 <? 2 ^ 31) eqn:E; intros.
  - apply Z.mod_small. lia.
  - apply Z.ltb_ge in E. lia.
Qed.

Lemma tcp_sk_upd_tp (f : tcp_sock -> tcp_sock) (sk : sock) :
  tcp_sk (upd_tp f sk) = f (tcp_sk sk).
Proof. destruct sk; reflexivity. Qed.

Lemma tcp_sk_call (e : event) (sk : sock) : tcp_sk (call e sk) = tcp_sk sk.
Proof. destruct sk; reflexivity. Qed.

Lemma tcp_sk_sock_valbool_flag (flag : Z) (b : bool) (sk : sock) :
  tcp_sk (sock_valbool_flag flag b sk) = tcp_sk sk.
Proof. destruct sk, b; reflexivity. Qed.

Lemma sk_send_head_upd_tp (f : tcp_sock -> tcp_sock) (sk : sock) :
  sk_send_head (upd_tp f sk) = sk_send_head sk.
Proof. destruct sk; reflexivity. Qed.

Lemma sk_send_head_call (e : event) (sk : sock) :
  sk_send_head (call e sk) = sk_send_head sk.
Proof. destruct sk; reflexivity. Qed.

Lemma sk_send_head_sock_valbool_flag (flag : Z) (b : bool) (sk : sock) :
  sk_send_head (sock_valbool_flag flag b sk) = sk_send_head sk.
Proof. destruct sk, b; reflexivity. Qed.

Lemma sk_flags_upd_tp (f : tcp_sock -> tcp_sock) (sk : sock) :
  sk_flags (upd_tp f sk) = sk_flags sk.
Proof. destruct sk; reflexivity. Qed.

Lemma sk_flags_call (e : event) (sk : sock) : sk_flags (call e sk) = sk_flags sk.
Proof. destruct sk; reflexivity. Qed.

Lemma sk_trace_upd_tp (f : tcp_sock -> tcp_sock) (sk : sock) :
  sk_trace (upd_tp f sk) = sk_trace sk.
Proof. destruct sk; reflexivity. Qed.

Lemma sk_trace_call (e : event) (sk : sock) : sk_trace (call e sk) = sk_trace sk ++ [e].
Proof. destruct sk; reflexivity. Qed.

Lemma sk_trace_sock_valbool_flag (flag : Z) (b : bool) (sk : sock) :
  sk_trace (sock_valbool_flag flag b sk) = sk_trace sk.
Proof. destruct sk, b; reflexivity. Qed.

Lemma sock_flag_upd_tp (f : tcp_sock -> tcp_sock) (sk : sock) (flag : Z) :
  sock_flag (upd_tp f sk) flag = sock_flag sk flag.
Proof. destruct sk; reflexivity. Qed.

Lemma sock_flag_call (e : event) (sk : sock) (flag : Z) :
  sock_flag (call e sk) flag = sock_flag sk flag.
Proof. destruct sk; reflexivity. Qed.

Lemma sock_flag_reset (flag : Z) (sk : sock) :
  sock_flag (sock_valbool_flag flag false sk) flag = false.
Proof. destruct sk. unfold sock_flag. simpl. apply Z.clearbit_eq. Qed.

Lemma sk_prot_has_keepalive_upd_tp (f : tcp_sock -> tcp_sock) (sk : sock) :
  sk_prot_has_keepalive (upd_tp f sk) = sk_prot_has_keepalive sk.
Proof. destruct sk; reflexivity. Qed.

Create Rewrite HintDb sock_fields.
#[local] Hint Rewrite tcp_sk_upd_tp tcp_sk_call tcp_sk_sock_valbool_flag
  sk_send_head_upd_tp sk_send_head_call sk_send_head_sock_valbool_flag
  sk_flags_upd_tp sk_flags_call sk_trace_upd_tp sk_trace_call
  sk_trace_sock_valbool_flag sock_flag_upd_tp sock_flag_call
  sk_prot_has_keepalive_upd_tp : sock_fields.

(** ** Keepalive *)

Section KeepaliveFacts.

Variable HZ : Z.
Variable param : nip_parameter.
Variable keepalive_time_elapsed : sock -> Z.

Abbreviation para_update := (tcp_nip_keepalive_para_update keepalive_time_elapsed).
Abbreviation enable := (tcp_nip_keepalive_enable HZ param keepalive_time_elapsed).
Abbreviation disable := (tcp_nip_keepalive_disable param).

(** The update reports [-EINVAL] exactly when one of the three values is
    outside its range. *)
Lemma para_update_ret (sk : sock) (t i p : Z) :
  (para_update sk t i p).1 =
    if ((to_int t <? 1) || (to_int t >? MAX_NIP_TCP_KEEPIDLE))
       || ((to_int i <? 1) || (to_int i >? MAX_NIP_TCP_KEEPINTVL))
       || ((to_u8 p <? 1) || (to_u8 p >? MAX_NIP_TCP_KEEPCNT))
    then - EINVAL else 0.
Proof.
  unfold tcp_nip_keepalive_para_update.
  destruct ((to_int t <? 1) || (to_int t >? MAX_NIP_TCP_KEEPIDLE)); [reflexivity|].
  destruct ((to_int i <? 1) || (to_int i >? MAX_NIP_TCP_KEEPINTVL)); [reflexivity|].
  destruct ((to_u8 p <? 1) || (to_u8 p >? MAX_NIP_TCP_KEEPCNT)); reflexivity.
Qed.

(** An idle time outside its range is refused before anything is
    written. *)
Lemma para_update_time_refused (sk : sock) (t i p : Z) :
  (to_int t <? 1) || (to_int t >? MAX_NIP_TCP_KEEPIDLE) = true ->
  para_update sk t i p = (- EINVAL, sk).
Proof. intros H. unfold tcp_nip_keepalive_para_update. rewrite H. reflexivity. Qed.

(** The update writes neither the idle-profile flag, the backup nor the
    send head, whatever it returns. *)
Lemma para_update_frame (sk : sock) (t i p : Z) :
  let sk' := (para_update sk t i p).2 in
  nip_keepalive_enable (tcp_sk sk') = nip_keepalive_enable (tcp_sk sk)
  /\ keepalive_bak sk' = keepalive_bak sk
  /\ sk_send_head sk' = sk_send_head sk.
Proof.
  unfold tcp_nip_keepalive_para_update, keepalive_bak.
  destruct sk as [? ? ? ? ? ? ? ? ? ? ? ? ? ? ? ? [] ?].
  repeat case_match; simpl; auto.
Qed.

(** After a successful update the idle time in force is the 32-bit value
    that was passed, and it lies in the accepted range. *)
Lemma para_update_ok_time (sk : sock) (t i p : Z) :
  (para_update sk t i p).1 = 0 ->
  keepalive_time (tcp_sk (para_update sk t i p).2) = to_u32 t
  /\ 1 <= to_int t <= 32767.
Proof.
  unfold tcp_nip_keepalive_para_update.
  destruct ((to_int t <? 1) || (to_int t >? MAX_NIP_TCP_KEEPIDLE)) eqn:Et;
    [discriminate|].
  apply to_int_accepted in Et as [Eu Er].
  destruct sk as [? ? ? ? ? ? ? ? ? ? ? ? ? ? ? ? [] ?].
  repeat case_match; simpl; try discriminate; intros _; auto.
Qed.

(** With the idle profile active and an idle time in force that does not
    exceed [HZ], [enable] changes nothing. *)
Lemma enable_active_below_hz (sk : sock) :
  nip_keepalive_enable (tcp_sk sk) = true ->
  keepalive_time (tcp_sk sk) <= HZ ->
  enable sk = sk.
Proof.
  intros Hon Hle. unfold tcp_nip_keepalive_enable.
  destruct (tcp_nip_send_head sk); [|reflexivity].
  rewrite Hon. destruct (keepalive_time (tcp_sk sk) >? HZ) eqn:E; [|reflexivity].
  rewrite Z.gtb_ltb in E. apply Z.ltb_lt in E. lia.
Qed.

(** What the first [enable] leaves behind when the idle profile is active
    afterwards: nothing was done, or the idle time in force is an
    idle-profile time. *)
Lemma enable_active_time (sk : sock) :
  nip_keepalive_enable (tcp_sk (enable sk)) = true ->
  enable sk = sk
  \/ keepalive_time (tcp_sk (enable sk)) = to_u32 (g_nip_keepalive_time param)
  \/ keepalive_time (tcp_sk (enable sk)) = to_u32 (g_nip_keepalive_time_short_pkt param).
Proof.
  unfold tcp_nip_keepalive_enable.
  destruct (tcp_nip_send_head sk) as [skb|]; [|auto].
  destruct (nip_keepalive_enable (tcp_sk sk)) eqn:Hon.
  - destruct (keepalive_time (tcp_sk sk) >? HZ); [|auto].
    intros _. right. autorewrite with sock_fields.
    destruct (to_u32 (pkt_total_len skb) <? NIP_PKT_TOTAL_LEN_BOUNDARY);
      destruct sk as [? ? ? ? ? ? ? ? ? ? ? ? ? ? ? ? [] ?]; simpl; auto.
  - match goal with
    | |- context [tcp_nip_keepalive_para_update _ ?s ?t ?i ?p] =>
        pose proof (para_update_frame s t i p) as (Hf & _ & _);
        pose proof (para_update_ok_time s t i p) as Hok;
        destruct (tcp_nip_keepalive_para_update _ s t i p) as [ret sk'] eqn:E
    end.
    cbn [fst snd] in Hf, Hok. destruct (ret =? 0) eqn:Er; cbn [negb].
    + apply Z.eqb_eq in Er. destruct (Hok Er) as [Ht _].
      intros _. right. autorewrite with sock_fields.
      rewrite to_u32_idem in Ht.
      destruct (to_u32 (pkt_total_len skb) <? NIP_PKT_TOTAL_LEN_BOUNDARY);
        destruct (tcp_sk sk'); simpl in *; auto.
    + rewrite Hf. intros Hon'. exfalso.
      destruct (sock_flag sk SOCK_KEEPOPEN); unfold backup_para in Hon';
        autorewrite with sock_fields in Hon';
        destruct (tcp_sk sk); simpl in *; congruence.
Qed.

(** The backup the first [enable] takes when the idle profile was not yet
    active: the user's parameters when SO_KEEPALIVE is on, and nothing
    otherwise. *)
Lemma enable_first_backup (sk : sock) :
  nip_keepalive_enable (tcp_sk sk) = false ->
  nip_keepalive_enable (tcp_sk (enable sk)) = true ->
  keepalive_bak (enable sk) =
    if sock_flag sk SOCK_KEEPOPEN then keepalive_para sk else keepalive_bak sk.
Proof.
  intros Hoff. unfold tcp_nip_keepalive_enable.
  destruct (tcp_nip_send_head sk) as [skb|]; [|congruence].
  rewrite Hoff.
  match goal with
  | |- context [tcp_nip_keepalive_para_update _ ?s ?t ?i ?p] =>
      pose proof (para_update_frame s t i p) as (_ & Hb & _);
      destruct (tcp_nip_keepalive_para_update _ s t i p) as [ret sk'] eqn:E
  end.
  cbn [fst snd] in Hb. intros _.
  assert (keepalive_bak (if negb (ret =? 0) then sk'
                         else upd_tp (set_nip_keepalive_enable true) sk')
          = keepalive_bak sk') as ->.
  { destruct (negb (ret =? 0)); [reflexivity|].
    unfold keepalive_bak. autorewrite with sock_fields.
    destruct (tcp_sk sk'); reflexivity. }
  rewrite Hb. destruct (sock_flag sk SOCK_KEEPOPEN); [|reflexivity].
  unfold keepalive_bak, keepalive_para, backup_para. autorewrite with sock_fields.
  destruct (tcp_sk sk); reflexivity.
Qed.

(** C10.  If the connection has no send head, [tcp_nip_keepalive_enable]
    returns at once: no keepalive parameter, backup field, timer or flag
    is written, the socket is as it was. *)
Theorem enable_without_send_head (sk : sock) :
  tcp_nip_send_head sk = None ->
  enable sk = sk.
Proof. intros H. unfold tcp_nip_keepalive_enable. rewrite H. reflexivity. Qed.

(** Where the backup survives a second [enable].  Provided neither
    idle-profile idle time exceeds [HZ]: when the idle profile is active
    after a first [enable], a second [enable] changes nothing; in
    particular the backup stays what the first call left, which is the
    user's parameters from before the first call when they were backed up.
    Outside this region the backup is lost, see
    [enable_twice_overwrites_backup]. *)
Theorem enable_twice_keeps_backup (sk : sock) :
  to_u32 (g_nip_keepalive_time param) <= HZ ->
  to_u32 (g_nip_keepalive_time_short_pkt param) <= HZ ->
  nip_keepalive_enable (tcp_sk (enable sk)) = true ->
  enable (enable sk) = enable sk
  /\ keepalive_bak (enable (enable sk)) = keepalive_bak (enable sk)
  /\ (nip_keepalive_enable (tcp_sk sk) = false ->
      keepalive_bak (enable (enable sk)) =
        if sock_flag sk SOCK_KEEPOPEN then keepalive_para sk else keepalive_bak sk).
Proof.
  intros Hlong Hshort Hon.
  assert (enable (enable sk) = enable sk) as Hsame.
  { destruct (enable_active_time sk Hon) as [Hid | [Ht | Ht]].
    - rewrite Hid. exact Hid.
    - apply enable_active_below_hz; [exact Hon | rewrite Ht; exact Hlong].
    - apply enable_active_below_hz; [exact Hon | rewrite Ht; exact Hshort]. }
  rewrite Hsame. split; [reflexivity|]. split; [reflexivity|].
  intros Hoff. apply enable_first_backup; assumption.
Qed.

(** The two branches of [disable] as the code has them, with the idle
    profile active, SO_KEEPALIVE on and the configured number of idle
    probes unanswered.  If a backup exists, the parameters in force become
    the backed-up ones and the keepalive timer is re-armed with the
    restored idle time; the function returns there, so the backup fields,
    the idle-profile flag and SO_KEEPALIVE stay as they are.  If none
    exists, keepalive is turned off, the backup fields are zero and the
    idle-profile flag is cleared.  Only the second branch cleans up; see
    [disable_keeps_backup_and_flag] and [stale_backup_rearms_keepalive]
    for what the first one leaves behind. *)
Theorem disable_after_probes_out (sk : sock) :
  nip_keepalive_enable (tcp_sk sk) = true ->
  sock_flag sk SOCK_KEEPOPEN = true ->
  to_u32 (g_nip_idle_ka_probes_out param) <= idle_ka_probes_out (tcp_sk sk) ->
  (keepalive_time_bak (tcp_sk sk) <> 0 ->
     keepalive_para (disable sk) =
       (keepalive_time_bak (tcp_sk sk), to_u8 (keepalive_probes_bak (tcp_sk sk)),
        keepalive_intvl_bak (tcp_sk sk))
     /\ sk_trace (disable sk) =
          sk_trace sk ++ [inet_csk_reset_keepalive_timer (keepalive_time_bak (tcp_sk sk))]
     /\ keepalive_bak (disable sk) = keepalive_bak sk
     /\ nip_keepalive_enable (tcp_sk (disable sk)) = true
     /\ sock_flag (disable sk) SOCK_KEEPOPEN = true)
  /\ (keepalive_time_bak (tcp_sk sk) = 0 ->
     keepalive_para (disable sk) = keepalive_para sk
     /\ sk_trace (disable sk) =
          sk_trace sk ++ (if sk_prot_has_keepalive sk then [sk_prot_keepalive 0] else [])
     /\ keepalive_bak (disable sk) = (0, 0, 0)
     /\ nip_keepalive_enable (tcp_sk (disable sk)) = false
     /\ sock_flag (disable sk) SOCK_KEEPOPEN = false).
Proof.
  intros Hon Hka Hout. unfold tcp_nip_keepalive_disable.
  rewrite Hon, Hka. simpl.
  destruct (idle_ka_probes_out (tcp_sk sk) <? to_u32 (g_nip_idle_ka_probes_out param))
    eqn:E; [apply Z.ltb_lt in E; lia|].
  split; intros Hbak.
  - apply Z.eqb_neq in Hbak. rewrite Hbak. simpl.
    unfold keepalive_para, keepalive_bak. autorewrite with sock_fields.
    rewrite Hka. destruct (tcp_sk sk); simpl. auto.
  - rewrite Hbak. simpl.
    unfold keepalive_para, keepalive_bak.
    rewrite tcp_sk_upd_tp, sock_flag_upd_tp, sock_flag_reset, sk_trace_upd_tp.
    rewrite tcp_sk_sock_valbool_flag, sk_trace_sock_valbool_flag.
    autorewrite with sock_fields.
    destruct (sk_prot_has_keepalive sk); autorewrite with sock_fields;
      rewrite ?app_nil_r; destruct (tcp_sk sk); simpl; auto.
Qed.

End KeepaliveFacts.

(** C10 at a socket with nothing to send. *)
Lemma enable_without_send_head_witness :
  tcp_nip_send_head sock0 = None
  /\ tcp_nip_keepalive_enable 100 param_below_hz no_elapsed sock0 = sock0.
Proof.
  split; [reflexivity|].
  apply (enable_without_send_head 100 param_below_hz no_elapsed sock0).
  reflexivity.
Defined.

(** C1 at a failing input: idle-profile idle times of 200 jiffies with
    [HZ = 100], and [enable] called twice in a row on [sk_user].  The first
    call backs up the user's (720000, 9, 7500), puts (200, 255, 25) in
    force and activates the idle profile.  The second call tests the idle
    time in force against [HZ] to detect parameters set by the socket
    option; the 200 it finds was stored by the first call, not by the
    user, yet the branch fires and overwrites the backup with the
    idle-profile values (200, 255, 25).  The user's parameters are then
    held nowhere: a later [disable] puts (200, 255, 25) in force. *)
Theorem enable_twice_overwrites_backup :
  nip_keepalive_enable (tcp_sk sk_user) = false
  /\ keepalive_para sk_user = (720000, 9, 7500)
  /\ nip_keepalive_enable
       (tcp_sk (tcp_nip_keepalive_enable 100 param_above_hz no_elapsed sk_user)) = true
  /\ keepalive_para (tcp_nip_keepalive_enable 100 param_above_hz no_elapsed sk_user)
     = (200, 255, 25)
  /\ keepalive_bak (tcp_nip_keepalive_enable 100 param_above_hz no_elapsed sk_user)
     = (720000, 9, 7500)
  /\ keepalive_bak
       (tcp_nip_keepalive_enable 100 param_above_hz no_elapsed
          (tcp_nip_keepalive_enable 100 param_above_hz no_elapsed sk_user))
     = (200, 255, 25)
  /\ keepalive_para
       (tcp_nip_keepalive_disable param_above_hz
          (upd_tp (set_idle_ka_probes_out 20)
             (tcp_nip_keepalive_enable 100 param_above_hz no_elapsed
                (tcp_nip_keepalive_enable 100 param_above_hz no_elapsed sk_user))))
     = (200, 255, 25).
Proof. vm_compute. repeat split. Qed.

(** The same loss with idle-profile idle times below [HZ] (25 and 5 with
    [HZ = 100]): the idle profile is active on [sk_user] with the user's
    (720000, 9, 7500) backed up, and the user then sets the idle time to
    6000 by the socket option (a write of [keepalive_time]).  The next
    [enable] overwrites the backup with (6000, 255, 25): the user's probe
    count and interval are replaced by the idle-profile ones. *)
Lemma enable_after_keepidle_overwrites_backup :
  let sk := upd_tp (set_keepalive_time 6000)
              (tcp_nip_keepalive_enable 100 param_below_hz no_elapsed sk_user) in
  nip_keepalive_enable (tcp_sk sk) = true
  /\ keepalive_para sk = (6000, 255, 25)
  /\ keepalive_bak sk = (720000, 9, 7500)
  /\ keepalive_bak (tcp_nip_keepalive_enable 100 param_below_hz no_elapsed sk)
     = (6000, 255, 25).
Proof. vm_compute. repeat split. Qed.

(** [enable_twice_keeps_backup] at [sk_user] with idle-profile idle times
    25 and 5 and [HZ = 100]. *)
Lemma enable_twice_keeps_backup_witness :
  (to_u32 (g_nip_keepalive_time param_below_hz) <= 100
   /\ to_u32 (g_nip_keepalive_time_short_pkt param_below_hz) <= 100
   /\ nip_keepalive_enable
        (tcp_sk (tcp_nip_keepalive_enable 100 param_below_hz no_elapsed sk_user)) = true)
  /\ keepalive_bak
       (tcp_nip_keepalive_enable 100 param_below_hz no_elapsed
          (tcp_nip_keepalive_enable 100 param_below_hz no_elapsed sk_user))
     = (720000, 9, 7500).
Proof.
  assert (to_u32 (g_nip_keepalive_time param_below_hz) <= 100) as H1
    by (vm_compute; discriminate).
  assert (to_u32 (g_nip_keepalive_time_short_pkt param_below_hz) <= 100) as H2
    by (vm_compute; discriminate).
  assert (nip_keepalive_enable
            (tcp_sk (tcp_nip_keepalive_enable 100 param_below_hz no_elapsed sk_user))
          = true) as H3 by reflexivity.
  split; [auto|].
  destruct (enable_twice_keeps_backup 100 param_below_hz no_elapsed sk_user H1 H2 H3)
    as (_ & _ & Hbak).
  rewrite Hbak; reflexivity.
Defined.

(** C3 at a failing input: on [sk_idle], where a backup exists and the
    probe count is reached, [disable] restores the user's parameters and
    returns; the backup fields and the idle-profile flag, which the branch
    without a backup clears, are left as they were. *)
Theorem disable_keeps_backup_and_flag :
  nip_keepalive_enable (tcp_sk sk_idle) = true
  /\ sock_flag sk_idle SOCK_KEEPOPEN = true
  /\ to_u32 (g_nip_idle_ka_probes_out param_below_hz) <= idle_ka_probes_out (tcp_sk sk_idle)
  /\ keepalive_bak sk_idle = (720000, 9, 7500)
  /\ keepalive_para (tcp_nip_keepalive_disable param_below_hz sk_idle) = (720000, 9, 7500)
  /\ keepalive_bak (tcp_nip_keepalive_disable param_below_hz sk_idle) = (720000, 9, 7500)
  /\ keepalive_bak (tcp_nip_keepalive_disable param_below_hz sk_idle) <> (0, 0, 0)
  /\ nip_keepalive_enable (tcp_sk (tcp_nip_keepalive_disable param_below_hz sk_idle)) = true.
Proof. vm_compute. repeat split; discriminate. Qed.

(** What the backup left behind does later.  After the restore on
    [sk_idle] the user switches SO_KEEPALIVE off (the socket flag is
    cleared); [disable] then only drops the idle-profile flag, and the
    backup (720000, 9, 7500) is still there.  The next [enable] finds
    SO_KEEPALIVE off, so it backs nothing up, and the [disable] that
    follows once the probes are out takes the stale backup for the user's
    parameters: SO_KEEPALIVE stays on and the keepalive timer is re-armed
    with 720000, on a socket whose user had switched keepalive off. *)
Lemma stale_backup_rearms_keepalive :
  let restored := tcp_nip_keepalive_disable param_below_hz sk_idle in
  let user_off := sock_valbool_flag SOCK_KEEPOPEN false restored in
  let left := tcp_nip_keepalive_disable param_below_hz user_off in
  let entered :=
    upd_tp (set_idle_ka_probes_out 20)
      (tcp_nip_keepalive_enable 100 param_below_hz no_elapsed left) in
  let final := tcp_nip_keepalive_disable param_below_hz entered in
  (sock_flag left SOCK_KEEPOPEN = false
   /\ nip_keepalive_enable (tcp_sk left) = false
   /\ keepalive_bak left = (720000, 9, 7500))
  /\ (nip_keepalive_enable (tcp_sk entered) = true
      /\ keepalive_para entered = (5, 255, 25))
  /\ (sock_flag final SOCK_KEEPOPEN = true
      /\ keepalive_para final = (720000, 9, 7500)
      /\ sk_trace final =
           sk_trace entered ++ [inet_csk_reset_keepalive_timer 720000]).
Proof. vm_compute. repeat split. Qed.

(** [disable_after_probes_out] at [sk_idle]. *)
Lemma disable_after_probes_out_witness :
  (nip_keepalive_enable (tcp_sk sk_idle) = true
   /\ sock_flag sk_idle SOCK_KEEPOPEN = true
   /\ to_u32 (g_nip_idle_ka_probes_out param_below_hz) <= idle_ka_probes_out (tcp_sk sk_idle)
   /\ keepalive_time_bak (tcp_sk sk_idle) <> 0)
  /\ keepalive_para (tcp_nip_keepalive_disable param_below_hz sk_idle) = (720000, 9, 7500)
  /\ sk_trace (tcp_nip_keepalive_disable param_below_hz sk_idle) =
       sk_trace sk_idle ++ [inet_csk_reset_keepalive_timer 720000].
Proof.
  assert (nip_keepalive_enable (tcp_sk sk_idle) = true) as H1 by reflexivity.
  assert (sock_flag sk_idle SOCK_KEEPOPEN = true) as H2 by reflexivity.
  assert (to_u32 (g_nip_idle_ka_probes_out param_below_hz)
          <= idle_ka_probes_out (tcp_sk sk_idle)) as H3 by (vm_compute; discriminate).
  assert (keepalive_time_bak (tcp_sk sk_idle) <> 0) as H4 by (vm_compute; discriminate).
  split; [auto|].
  destruct (disable_after_probes_out param_below_hz sk_idle H1 H2 H3) as [Hrestore _].
  destruct (Hrestore H4) as (Hpara & Htrace & _).
  split; [exact Hpara | exact Htrace].
Defined.

(** C4 at a failing input: idle time 5 and probe count 255 are in range,
    interval 0 is not.  The update returns [-EINVAL], yet the idle time of
    the socket is already 5 instead of 720000 and the keepalive timer has
    been re-armed.  This is the call [enable] makes when the module
    parameter for the interval is 0: the idle profile is not activated,
    and the user's idle time is replaced by the idle-profile one. *)
Theorem para_update_partial_commit :
  (tcp_nip_keepalive_para_update no_elapsed sk_user 5 0 255).1 = - EINVAL
  /\ keepalive_para sk_user = (720000, 9, 7500)
  /\ keepalive_para (tcp_nip_keepalive_para_update no_elapsed sk_user 5 0 255).2
     = (5, 9, 7500)
  /\ sk_trace sk_user = []
  /\ sk_trace (tcp_nip_keepalive_para_update no_elapsed sk_user 5 0 255).2
     = [inet_csk_reset_keepalive_timer 5]
  /\ nip_keepalive_enable
       (tcp_sk (tcp_nip_keepalive_enable 100 param_bad_intvl no_elapsed sk_user)) = false
  /\ keepalive_para (tcp_nip_keepalive_enable 100 param_bad_intvl no_elapsed sk_user)
     = (5, 9, 7500).
Proof. vm_compute. repeat split. Qed.

(** ** Close and disconnect *)


Lemma valid_state_cases (state : Z) :
  valid_state state ->
  state ∈ [0; TCP_ESTABLISHED; TCP_SYN_SENT; TCP_SYN_RECV; TCP_FIN_WAIT1;
           TCP_FIN_WAIT2; TCP_TIME_WAIT; TCP_CLOSE; TCP_CLOSE_WAIT; TCP_LAST_ACK;
           TCP_LISTEN; TCP_CLOSING; TCP_NEW_SYN_RECV].
Proof.
  unfold valid_state, TCP_MAX_STATES. intros H.
  assert (state = 0 \/ state = 1 \/ state = 2 \/ state = 3 \/ state = 4 \/ state = 5
          \/ state = 6 \/ state = 7 \/ state = 8 \/ state = 9 \/ state = 10
          \/ state = 11 \/ state = 12) as Hc by lia.
  clear H.
  repeat (destruct Hc as [Hc | Hc]; [rewrite Hc; set_solver|]).
  rewrite Hc; set_solver.
Qed.


(** *** What the updates leave alone: state and trace *)

Lemma sk_state_frame (sk : sock) :
  (forall e, sk_state (call e sk) = sk_state sk)
  /\ (forall f, sk_state (upd_tp f sk) = sk_state sk)
  /\ (forall f, sk_state (upd_inet f sk) = sk_state sk)
  /\ (forall v, sk_state (set_sk_err v sk) = sk_state sk)
  /\ (forall v, sk_state (set_sk_shutdown v sk) = sk_state sk)
  /\ (forall v, sk_state (set_sk_send_head v sk) = sk_state sk)
  /\ (forall v, sk_state (set_sk_receive_queue v sk) = sk_state sk)
  /\ (forall v, sk_state (set_sk_write_queue v sk) = sk_state sk)
  /\ (forall v, sk_state (sock_reset_flag v sk) = sk_state sk)
  /\ sk_state (tcp_nip_rtt_init sk) = sk_state sk
  /\ (forall v, sk_state (tcp_set_state v sk) = v).
Proof. destruct sk. repeat split. Qed.

Lemma sk_trace_frame (sk : sock) :
  (forall f, sk_trace (upd_inet f sk) = sk_trace sk)
  /\ (forall v, sk_trace (set_sk_err v sk) = sk_trace sk)
  /\ (forall v, sk_trace (set_sk_shutdown v sk) = sk_trace sk)
  /\ (forall v, sk_trace (set_sk_send_head v sk) = sk_trace sk)
  /\ (forall v, sk_trace (set_sk_receive_queue v sk) = sk_trace sk)
  /\ (forall v, sk_trace (set_sk_write_queue v sk) = sk_trace sk)
  /\ (forall v, sk_trace (sock_reset_flag v sk) = sk_trace sk)
  /\ sk_trace (tcp_nip_rtt_init sk) = sk_trace sk
  /\ (forall v, sk_trace (tcp_set_state v sk) = sk_trace sk).
Proof. destruct sk. repeat split. Qed.

Lemma tcp_sk_frame (sk : sock) :
  (forall v, tcp_sk (set_sk_err v sk) = tcp_sk sk)
  /\ (forall v, tcp_sk (tcp_set_state v sk) = tcp_sk sk).
Proof. destruct sk. repeat split. Qed.

(** Rewriting with the conjuncts of the three lemmas above. *)
Ltac frame :=
  repeat first
    [ rewrite (proj1 (sk_state_frame _))
    | rewrite (proj1 (proj2 (sk_state_frame _)))
    | rewrite (proj1 (proj2 (proj2 (sk_state_frame _))))
    | rewrite (proj1 (proj2 (proj2 (proj2 (sk_state_frame _)))))
    | rewrite (proj1 (proj2 (proj2 (proj2 (proj2 (sk_state_frame _))))))
    | rewrite (proj1 (proj2 (proj2 (proj2 (proj2 (proj2 (sk_state_frame _)))))))
    | rewrite (proj1 (proj2 (proj2 (proj2 (proj2 (proj2 (proj2 (sk_state_frame _))))))))
    | rewrite (proj1 (proj2 (proj2 (proj2 (proj2 (proj2 (proj2 (proj2
                (sk_state_frame _)))))))))
    | rewrite (proj1 (proj2 (proj2 (proj2 (proj2 (proj2 (proj2 (proj2 (proj2
                (sk_state_frame _))))))))))
    | rewrite (proj1 (proj2 (proj2 (proj2 (proj2 (proj2 (proj2 (proj2 (proj2 (proj2
                (sk_state_frame _)))))))))))
    | rewrite (proj2 (proj2 (proj2 (proj2 (proj2 (proj2 (proj2 (proj2 (proj2 (proj2
                (sk_state_frame _)))))))))))
    | rewrite (proj1 (sk_trace_frame _))
    | rewrite (proj1 (proj2 (sk_trace_frame _)))
    | rewrite (proj1 (proj2 (proj2 (sk_trace_frame _))))
    | rewrite (proj1 (proj2 (proj2 (proj2 (sk_trace_frame _)))))
    | rewrite (proj1 (proj2 (proj2 (proj2 (proj2 (sk_trace_frame _))))))
    | rewrite (proj1 (proj2 (proj2 (proj2 (proj2 (proj2 (sk_trace_frame _)))))))
    | rewrite (proj1 (proj2 (proj2 (proj2 (proj2 (proj2 (proj2 (sk_trace_frame _))))))))
    | rewrite (proj1 (proj2 (proj2 (proj2 (proj2 (proj2 (proj2 (proj2
                (sk_trace_frame _)))))))))
    | rewrite (proj2 (proj2 (proj2 (proj2 (proj2 (proj2 (proj2 (proj2
                (sk_trace_frame _)))))))))
    | rewrite (proj1 (tcp_sk_frame _))
    | rewrite (proj2 (tcp_sk_frame _))
    | rewrite sk_trace_call
    | rewrite sk_trace_upd_tp
    | rewrite tcp_sk_call ].

(** On valid states the two bit tests of [tcp_nip_disconnect] name the
    states they are meant to. *)
Lemma need_reset_valid (state : Z) :
  valid_state state ->
  tcp_nip_need_reset state =
    (state =? TCP_ESTABLISHED) || (state =? TCP_CLOSE_WAIT) || (state =? TCP_FIN_WAIT1)
    || (state =? TCP_FIN_WAIT2) || (state =? TCP_SYN_RECV).
Proof.
  intros H. apply valid_state_cases in H.
  repeat (apply elem_of_cons in H as [-> | H]; [reflexivity|]).
  apply elem_of_nil in H. contradiction.
Qed.

Lemma closing_or_last_ack_valid (state : Z) :
  valid_state state ->
  negb (Z.land (Z.shiftl 1 state) (Z.lor TCPF_CLOSING TCPF_LAST_ACK) =? 0) =
    (state =? TCP_CLOSING) || (state =? TCP_LAST_ACK).
Proof.
  intros H. apply valid_state_cases in H.
  repeat (apply elem_of_cons in H as [-> | H]; [reflexivity|]).
  apply elem_of_nil in H. contradiction.
Qed.

(** The table itself: [tcp_nip_close_state] enters the state and returns
    the FIN action that [close_transition] names. *)
Lemma close_state_table (sk : sock) :
  valid_state (sk_state sk) ->
  tcp_nip_close_state sk =
    Some (if (close_transition (sk_state sk)).2 then TCP_ACTION_FIN else 0,
          tcp_set_state (close_transition (sk_state sk)).1 sk).
Proof.
  intros H. apply valid_state_cases in H.
  unfold tcp_nip_close_state.
  repeat (apply elem_of_cons in H as [-> | H]; [reflexivity|]).
  apply elem_of_nil in H. contradiction.
Qed.

(** C2 (amended).  When the receive queue holds no unread data, [close]
    takes its transition from the table over the current state:
    Established and SynRecv go to FinWait1 and CloseWait goes to LastAck,
    each sending a FIN; FinWait1, FinWait2, Closing and LastAck stay as
    they are and every other state goes to Closed, without a FIN.  The
    state written and the FIN action returned by [tcp_nip_close_state] are
    those of the table for every state. *)
Theorem close_follows_table (sk : sock) :
  valid_state (sk_state sk) ->
  tcp_nip_close_state sk =
    Some (if (close_transition (sk_state sk)).2 then TCP_ACTION_FIN else 0,
          tcp_set_state (close_transition (sk_state sk)).1 sk)
  /\ (data_was_unread (sk_receive_queue sk) 0 = 0 ->
      exists sk',
        tcp_nip_close sk = Some sk'
        /\ sk_state sk' = (close_transition (sk_state sk)).1
        /\ sk_trace sk' =
             sk_trace sk
             ++ (if (close_transition (sk_state sk)).2 then [tcp_nip_send_fin]
                 else if sk_state sk =? TCP_LISTEN then [inet_csk_listen_stop]
                 else [])).
Proof.
  intros H. split; [apply close_state_table; exact H|].
  intros Hread. apply valid_state_cases in H.
  unfold tcp_nip_close.
  destruct sk as [st ? ? ? ? rq ? ? ? ? ? ? ? ? ? ? ? tr].
  cbn [sk_state sk_receive_queue sk_trace set_sk_shutdown] in *.
  repeat (apply elem_of_cons in H as [-> | H];
          [cbn; rewrite ?Hread; cbn; rewrite ?app_nil_r; eauto|]).
  apply elem_of_nil in H. contradiction.
Qed.

(** C2 as stated fails: [close] on an established socket with ten unread
    bytes does not consult the table; it enters Closed and sends a reset
    instead of entering FinWait1 and sending a FIN. *)
Lemma close_with_unread_data_resets :
  sk_state sk_unread = TCP_ESTABLISHED
  /\ close_transition (sk_state sk_unread) = (TCP_FIN_WAIT1, true)
  /\ (sk_state <$> tcp_nip_close sk_unread) = Some TCP_CLOSE
  /\ (sk_trace <$> tcp_nip_close sk_unread) = Some [tcp_nip_send_active_reset].
Proof. vm_compute. repeat split. Qed.

(** C2 (amended) at an established socket with an empty receive queue. *)
Lemma close_follows_table_witness :
  (valid_state (sk_state sk_user) /\ data_was_unread (sk_receive_queue sk_user) 0 = 0)
  /\ exists sk',
       tcp_nip_close sk_user = Some sk'
       /\ sk_state sk' = TCP_FIN_WAIT1
       /\ sk_trace sk' = [tcp_nip_send_fin].
Proof.
  assert (valid_state (sk_state sk_user)) as H1 by (vm_compute; split; [discriminate | reflexivity]).
  assert (data_was_unread (sk_receive_queue sk_user) 0 = 0) as H2 by reflexivity.
  split; [auto|].
  destruct (close_follows_table sk_user H1) as [_ Hclose].
  exact (Hclose H2).
Defined.

Lemma reset_in_disconnect_trace (tr : list event) (resets listen : bool) :
  tcp_nip_send_active_reset
    ∈ tr ++ (if resets then [tcp_nip_send_active_reset]
             else if listen then [inet_csk_listen_stop] else [])
         ++ [tcp_nip_clear_xmit_timers; sk_error_report]
  <-> tcp_nip_send_active_reset ∈ tr \/ resets = true.
Proof.
  rewrite !elem_of_app. destruct resets, listen;
    rewrite ?elem_of_cons, ?elem_of_nil; intuition congruence.
Qed.

(** C7.  [disconnect] leaves the socket in Closed whatever the state it
    starts from, and sends a reset exactly when the prior state is
    Established, CloseWait, FinWait1, FinWait2 or SynRecv, or when
    [snd_nxt] differs from [write_seq] and the prior state is Closing or
    LastAck. *)
Theorem disconnect_closes_and_resets (sk : sock) (flags : Z) :
  valid_state (sk_state sk) ->
  sk_state (tcp_nip_disconnect sk flags).2 = TCP_CLOSE
  /\ sk_trace (tcp_nip_disconnect sk flags).2 =
       sk_trace sk
       ++ (if disconnect_resets sk then [tcp_nip_send_active_reset]
           else if sk_state sk =? TCP_LISTEN then [inet_csk_listen_stop]
           else [])
       ++ [tcp_nip_clear_xmit_timers; sk_error_report]
  /\ (tcp_nip_send_active_reset ∈ sk_trace (tcp_nip_disconnect sk flags).2
      <-> tcp_nip_send_active_reset ∈ sk_trace sk \/ disconnect_resets sk = true).
Proof.
  intros H.
  assert (sk_state (tcp_nip_disconnect sk flags).2 = TCP_CLOSE) as Hst.
  { unfold tcp_nip_disconnect. cbv zeta. cbn [fst snd].
    repeat case_match; frame; try reflexivity;
      match goal with E : negb (_ =? _) = false |- _ =>
        apply negb_false_iff, Z.eqb_eq in E; exact E end. }
  assert (sk_trace (tcp_nip_disconnect sk flags).2 =
            sk_trace sk
            ++ (if disconnect_resets sk then [tcp_nip_send_active_reset]
                else if sk_state sk =? TCP_LISTEN then [inet_csk_listen_stop]
                else [])
            ++ [tcp_nip_clear_xmit_timers; sk_error_report]) as Htr.
  { unfold tcp_nip_disconnect, disconnect_resets. cbv zeta. cbn [fst snd].
    assert (forall s : sock,
              sk_trace (if write_seq (tcp_sk s) =? 0 then upd_tp (set_write_seq 1) s else s)
              = sk_trace s) as Hw
      by (intros s; destruct (write_seq (tcp_sk s) =? 0); frame; reflexivity).
    assert (forall s : sock,
              tcp_sk (if negb (sk_state sk =? TCP_CLOSE) then tcp_set_state TCP_CLOSE s else s)
              = tcp_sk s /\
              sk_trace (if negb (sk_state sk =? TCP_CLOSE) then tcp_set_state TCP_CLOSE s else s)
              = sk_trace s) as Hc
      by (intros s; destruct (negb (sk_state sk =? TCP_CLOSE)); frame; auto).
    frame. rewrite Hw. frame.
    rewrite (need_reset_valid _ H), (closing_or_last_ack_valid _ H).
    rewrite (proj1 (Hc sk)).
    destruct (sk_state sk =? TCP_LISTEN) eqn:El.
    - frame. rewrite (proj2 (Hc sk)), <- !app_assoc.
      apply Z.eqb_eq in El. rewrite El.
      change (TCP_LISTEN =? TCP_CLOSING) with false.
      change (TCP_LISTEN =? TCP_LAST_ACK) with false.
      rewrite andb_false_r. reflexivity.
    - match goal with
      | |- context [if ?b then set_sk_err _ _ else _] => destruct b
      end.
      + frame. rewrite (proj2 (Hc sk)), <- !app_assoc. reflexivity.
      + destruct (sk_state sk =? TCP_SYN_SENT); frame;
          rewrite (proj2 (Hc sk)), <- !app_assoc; reflexivity. }
  split; [exact Hst|]. split; [exact Htr|].
  rewrite Htr. apply reset_in_disconnect_trace.
Qed.

(** C7 at a socket in CloseWait with queued, unacknowledged data: a reset
    is sent and the socket is Closed. *)
Lemma disconnect_closes_and_resets_witness :
  valid_state (sk_state sk_close_wait)
  /\ sk_state (tcp_nip_disconnect sk_close_wait 0).2 = TCP_CLOSE
  /\ sk_trace (tcp_nip_disconnect sk_close_wait 0).2 =
       [tcp_nip_send_active_reset; tcp_nip_clear_xmit_timers; sk_error_report].
Proof.
  assert (valid_state (sk_state sk_close_wait)) as H by (vm_compute; split; [discriminate | reflexivity]).
  split; [exact H|].
  destruct (disconnect_closes_and_resets sk_close_wait 0 H) as (Hst & Htr & _).
  split; [exact Hst | exact Htr].
Defined.

(** ** Ingress *)

Section IngressFacts.

Variable nip_check_sum_parse : list Z -> Z -> nip_pseudo_header -> Z.
Variable __ninet_lookup_skb : sk_buff -> option (sock * bool).
Variable tcp_filter : sock -> sk_buff -> bool.
Variable rsk_listener : sock -> sock.
Variable tcp_nip_check_req : sock -> sk_buff -> sock -> check_req_result.
Variable tcp_nip_child_process : sock -> sock -> sk_buff -> Z.
Variable rcv_state_process : sock -> sk_buff -> Z.
Variable sock_owned_by_user : sock -> bool.
Variable tcp_nip_add_backlog : sock -> sk_buff -> bool.

Abbreviation input_checksum := (nip_get_tcp_input_checksum nip_check_sum_parse).
Abbreviation rcv :=
  (tcp_nip_rcv nip_check_sum_parse __ninet_lookup_skb tcp_filter rsk_listener
     tcp_nip_check_req tcp_nip_child_process rcv_state_process sock_owned_by_user
     tcp_nip_add_backlog).

(** C5.  A segment whose checksum over the transport data and the
    pseudo-header (next header, source address, destination address,
    length) is not [0xffff] is freed and nothing else happens: no socket is
    looked up, no reset is sent, and the handler returns 0. *)
Theorem rcv_drops_bad_checksum (skb : sk_buff) :
  nip_check_sum_parse (transport_header skb) (len skb)
    {| nph_saddr := srcaddr skb; nph_daddr := dstaddr skb;
       nph_check_len := htons (len skb); nph_nexthdr := nexthdr skb |} <> 65535 ->
  input_checksum skb = false
  /\ rcv skb = (0, [kfree_skb]).
Proof.
  intros H. apply Z.eqb_neq in H.
  assert (input_checksum skb = false) as Hsum by exact H.
  split; [exact Hsum|].
  unfold tcp_nip_rcv. rewrite Hsum.
  destruct (negb (pkt_type skb =? PACKET_HOST)); reflexivity.
Qed.

(** The reset that answers a segment: none for a segment with RST set,
    otherwise one that takes its sequence number from the acknowledgment
    of the segment, or acknowledges what the segment occupies. *)
Lemma send_reset_cases (skb : sk_buff) :
  tcp_nip_send_reset skb =
    if negb (rst (data skb) =? 0) then []
    else [tcp_nip_actual_send_reset
            (if negb (ack (data skb) =? 0) then ntohl (ack_seq (data skb)) else 0)
            (if negb (ack (data skb) =? 0) then 0
             else to_u32 (ntohl (seq (data skb)) + syn (data skb) + fin (data skb)
                          + len skb - Z.shiftl (doff (data skb)) 2))].
Proof.
  unfold tcp_nip_send_reset.
  destruct (negb (rst (data skb) =? 0)); [reflexivity|].
  destruct (negb (ack (data skb) =? 0)); reflexivity.
Qed.

(** C6.  A segment for the local host that passes the checksum and whose
    header length is valid, and for which the lookup finds no socket, is
    answered by one reset and freed; if the segment itself has RST set, it
    is only freed. *)
Theorem rcv_resets_unmatched (skb : sk_buff) :
  pkt_type skb = PACKET_HOST ->
  input_checksum skb = true ->
  5 <= doff (data skb) ->
  __ninet_lookup_skb skb = None ->
  rcv skb = (0, [ninet_lookup_skb] ++ tcp_nip_send_reset skb ++ [kfree_skb])
  /\ (rst (data skb) <> 0 -> tcp_nip_send_reset skb = [])
  /\ (rst (data skb) = 0 ->
      exists seq ack_seq, tcp_nip_send_reset skb = [tcp_nip_actual_send_reset seq ack_seq]).
Proof.
  intros Hhost Hsum Hdoff Hnone. split; [|split].
  - unfold tcp_nip_rcv. rewrite Hhost, Hsum, Hnone. cbn [negb Z.eqb PACKET_HOST].
    destruct (doff (data skb) <? 20 / TCP_NUM_4) eqn:E; [|reflexivity].
    apply Z.ltb_lt in E. change (20 / TCP_NUM_4) with 5 in E. lia.
  - intros Hrst. rewrite send_reset_cases.
    apply Z.eqb_neq in Hrst. rewrite Hrst. reflexivity.
  - intros Hrst. rewrite send_reset_cases. rewrite Hrst. cbn [Z.eqb negb]. eauto.
Qed.

End IngressFacts.

(** C5 at a SYN segment that the checksum routine rejects. *)
Lemma rcv_drops_bad_checksum_witness :
  checksum_rejects (transport_header skb_syn) (len skb_syn)
    {| nph_saddr := srcaddr skb_syn; nph_daddr := dstaddr skb_syn;
       nph_check_len := htons (len skb_syn); nph_nexthdr := nexthdr skb_syn |} <> 65535
  /\ rcv_with checksum_rejects skb_syn = (0, [kfree_skb]).
Proof.
  assert (checksum_rejects (transport_header skb_syn) (len skb_syn)
            {| nph_saddr := srcaddr skb_syn; nph_daddr := dstaddr skb_syn;
               nph_check_len := htons (len skb_syn); nph_nexthdr := nexthdr skb_syn |}
          <> 65535) as H by (vm_compute; discriminate).
  split; [exact H|].
  exact (proj2 (rcv_drops_bad_checksum checksum_rejects lookup_finds_none filter_passes
                  listener_of check_req_fails child_process_ok state_process_ok
                  not_owned backlog_accepts skb_syn H)).
Defined.

(** C6 at a SYN segment for which no socket exists: the reset
    acknowledges sequence number 1 + 1. *)
Lemma rcv_resets_unmatched_witness :
  (pkt_type skb_syn = PACKET_HOST
   /\ nip_get_tcp_input_checksum checksum_accepts skb_syn = true
   /\ 5 <= doff (data skb_syn)
   /\ lookup_finds_none skb_syn = None)
  /\ rcv_with checksum_accepts skb_syn =
       (0, [ninet_lookup_skb; tcp_nip_actual_send_reset 0 2; kfree_skb]).
Proof.
  assert (pkt_type skb_syn = PACKET_HOST) as H1 by reflexivity.
  assert (nip_get_tcp_input_checksum checksum_accepts skb_syn = true) as H2 by reflexivity.
  assert (5 <= doff (data skb_syn)) as H3 by (vm_compute; discriminate).
  assert (lookup_finds_none skb_syn = None) as H4 by reflexivity.
  split; [auto|].
  exact (proj1 (rcv_resets_unmatched checksum_accepts lookup_finds_none filter_passes
                  listener_of check_req_fails child_process_ok state_process_ok
                  not_owned backlog_accepts skb_syn H1 H2 H3 H4)).
Defined.

(** A RST segment for which no socket exists is freed without a reply. *)
Example rcv_unmatched_rst :
  rcv_with checksum_accepts skb_rst = (0, [ninet_lookup_skb; kfree_skb]).
Proof. reflexivity. Qed.

(** ** Connection tables *)

Lemma socks_frame (k : kernel) :
  (forall e, socks (emit e k) = socks k)
  /\ (forall h, socks (set_hashinfo h k) = socks k)
  /\ (forall v, socks (set_prot_inuse v k) = socks k)
  /\ (forall sk f, socks (upd_sock sk f k) = alter f sk (socks k)).
Proof. destruct k. repeat split. Qed.

Lemma hashinfo_frame (k : kernel) :
  (forall e, hashinfo (emit e k) = hashinfo k)
  /\ (forall h, hashinfo (set_hashinfo h k) = h)
  /\ (forall v, hashinfo (set_prot_inuse v k) = hashinfo k)
  /\ (forall sk f, hashinfo (upd_sock sk f k) = hashinfo k).
Proof. destruct k. repeat split. Qed.

Lemma prot_inuse_frame (k : kernel) :
  (forall e, prot_inuse (emit e k) = prot_inuse k)
  /\ (forall h, prot_inuse (set_hashinfo h k) = prot_inuse k)
  /\ (forall v, prot_inuse (set_prot_inuse v k) = v)
  /\ (forall sk f, prot_inuse (upd_sock sk f k) = prot_inuse k).
Proof. destruct k. repeat split. Qed.

Lemma hash_trace_frame (k : kernel) :
  (forall e, hash_trace (emit e k) = hash_trace k ++ [e])
  /\ (forall h, hash_trace (set_hashinfo h k) = hash_trace k)
  /\ (forall v, hash_trace (set_prot_inuse v k) = hash_trace k)
  /\ (forall sk f, hash_trace (upd_sock sk f k) = hash_trace k).
Proof. destruct k. repeat split. Qed.

(** Rewriting with the conjuncts of the four lemmas above. *)
Ltac kframe :=
  repeat first
    [ rewrite (proj1 (socks_frame _))
    | rewrite (proj1 (proj2 (socks_frame _)))
    | rewrite (proj1 (proj2 (proj2 (socks_frame _))))
    | rewrite (proj2 (proj2 (proj2 (socks_frame _))))
    | rewrite (proj1 (hashinfo_frame _))
    | rewrite (proj1 (proj2 (hashinfo_frame _)))
    | rewrite (proj1 (proj2 (proj2 (hashinfo_frame _))))
    | rewrite (proj2 (proj2 (proj2 (hashinfo_frame _))))
    | rewrite (proj1 (prot_inuse_frame _))
    | rewrite (proj1 (proj2 (prot_inuse_frame _)))
    | rewrite (proj1 (proj2 (proj2 (prot_inuse_frame _))))
    | rewrite (proj2 (proj2 (proj2 (prot_inuse_frame _))))
    | rewrite (proj1 (hash_trace_frame _))
    | rewrite (proj1 (proj2 (hash_trace_frame _)))
    | rewrite (proj1 (proj2 (proj2 (hash_trace_frame _))))
    | rewrite (proj2 (proj2 (proj2 (hash_trace_frame _)))) ].

Section HashFacts.

Variable jhash_1word : Z -> Z -> Z.
Variable jhash_3words : Z -> Z -> Z -> Z -> Z.
Variable net_hash_mix : Z -> Z.
Variable inet_sk_listen_hashfn : sock -> Z.
Variable ninet_ehash_secret ninet_hash_secret : Z.
Variable __ninet_ehashfn : Z -> Z -> Z -> Z -> Z -> Z.
Variable NINET_MATCH : sock -> Z -> nip_addr -> nip_addr -> Z -> Z -> bool.

Abbreviation unhash2 := (ninet_unhash2 jhash_1word net_hash_mix).
Abbreviation unhash := (ninet_unhash jhash_1word net_hash_mix inet_sk_listen_hashfn).
Abbreviation ehashfn :=
  (ninet_ehashfn jhash_3words net_hash_mix ninet_ehash_secret ninet_hash_secret
     __ninet_ehashfn).
Abbreviation check_established :=
  (__ninet_check_established jhash_3words net_hash_mix ninet_ehash_secret
     ninet_hash_secret __ninet_ehashfn NINET_MATCH).

(** [ninet_unhash2] leaves the [sk_nulls_node] of every socket alone. *)
Lemma unhash2_nulls_node (sk : nat) (s : sock) (k : kernel) (i : nat) :
  sk_nulls_node <$> socks (unhash2 sk s k) !! i = sk_nulls_node <$> socks k !! i.
Proof.
  unfold ninet_unhash2.
  destruct (lhash2 (hashinfo k)); [|reflexivity].
  destruct (icsk_listen_portaddr_node s); [|reflexivity].
  kframe. rewrite lookup_alter. case_decide; [subst i|reflexivity].
  destruct (socks k !! sk) as [[]|]; reflexivity.
Qed.

(** Once the node is deleted the socket is unhashed. *)
Lemma del_node_unhashed (sk : nat) (k : kernel) :
  is_Some (socks k !! sk) ->
  sk_nulls_node <$> socks (__sk_nulls_del_node_init_rcu sk k) !! sk = Some None.
Proof.
  intros [s Hs]. unfold __sk_nulls_del_node_init_rcu. rewrite Hs. cbn [fmap option_fmap option_map].
  destruct (sk_nulls_node s) eqn:E.
  - kframe. rewrite lookup_alter_eq, Hs. destruct s; reflexivity.
  - rewrite Hs. cbn. rewrite E. reflexivity.
Qed.

(** On an unhashed socket [ninet_unhash] does nothing at all. *)
Lemma unhash_unhashed (sk : nat) (k : kernel) (s : sock) :
  socks k !! sk = Some s ->
  sk_unhashed s = true ->
  unhash sk k = Some k.
Proof. intros Hs Hu. unfold ninet_unhash. rewrite Hs. cbn. rewrite Hu. reflexivity. Qed.

(** Whatever [ninet_unhash] returns, the socket is unhashed in it. *)
Lemma unhash_result (sk : nat) (k k' : kernel) :
  unhash sk k = Some k' ->
  exists s', socks k' !! sk = Some s' /\ sk_unhashed s' = true.
Proof.
  unfold ninet_unhash. destruct (socks k !! sk) as [s|] eqn:Hs; [|discriminate].
  cbn. destruct (sk_unhashed s) eqn:Hu.
  - intros [= <-]. eauto.
  - intros [= <-]. kframe.
    match goal with
    | |- context [__sk_nulls_del_node_init_rcu sk ?k0] =>
        assert (is_Some (socks k0 !! sk)) as Hsome
    end.
    { destruct (sk_state s =? TCP_LISTEN); kframe; [|rewrite Hs; eauto].
      pose proof (unhash2_nulls_node sk s (emit (spin_lock (listening_lock
                    (inet_sk_listen_hashfn s))) k) sk) as Hn.
      revert Hn. kframe. rewrite Hs.
      destruct (socks (unhash2 sk s _) !! sk); [eauto | discriminate]. }
    apply del_node_unhashed in Hsome.
    destruct (socks (__sk_nulls_del_node_init_rcu sk _) !! sk) as [s'|];
      [|discriminate].
    exists s'. split; [reflexivity|].
    injection Hsome as Hnone. unfold sk_unhashed. rewrite Hnone. reflexivity.
Qed.

(** C9.  Unhashing is idempotent: on a socket that is already unhashed
    [ninet_unhash] returns the tables, the sockets and the trace as they
    are, and unhashing twice gives what unhashing once gives. *)
Theorem unhash_idempotent (sk : nat) (k : kernel) :
  (unhash sk k ≫= unhash sk) = unhash sk k
  /\ (forall s, socks k !! sk = Some s -> sk_unhashed s = true -> unhash sk k = Some k)
  /\ (is_Some (socks k !! sk) -> is_Some (unhash sk k)).
Proof.
  split; [|split].
  - destruct (unhash sk k) as [k'|] eqn:E; [|reflexivity].
    cbn. destruct (unhash_result sk k k' E) as (s' & Hs' & Hu).
    apply (unhash_unhashed sk k' s' Hs' Hu).
  - intros s. apply unhash_unhashed.
  - intros [s Hs]. unfold ninet_unhash. rewrite Hs. cbn.
    destruct (sk_unhashed s); eauto.
Qed.



End HashFacts.


(** The collision: socket 2 asks for the port socket 1 holds towards the
    same peer.  The call returns [-EADDRNOTAVAIL]; only the lock was
    taken and released. *)
Example check_established_collision :
  (fst <$> check_established_with 2 5000 kernel1) = Some (- EADDRNOTAVAIL)
  /\ (socks ∘ snd <$> check_established_with 2 5000 kernel1) = Some (socks kernel1)
  /\ (hashinfo ∘ snd <$> check_established_with 2 5000 kernel1) = Some (hashinfo kernel1)
  /\ (hash_trace ∘ snd <$> check_established_with 2 5000 kernel1)
     = Some (hash_trace kernel1 ++ [spin_lock (ehash_lock 0); spin_unlock (ehash_lock 0)]).
Proof. vm_compute. repeat split. Qed.

(** C9 at socket 1 of [kernel1]: the first [ninet_unhash] takes it out of
    slot 2, the second changes nothing. *)
Lemma unhash_idempotent_witness :
  (unhash_with 1 kernel1 ≫= unhash_with 1) = unhash_with 1 kernel1
  /\ ehash (hashinfo kernel1) = [[]; []; [1%nat]; []]
  /\ (ehash ∘ hashinfo <$> unhash_with 1 kernel1) = Some [[]; []; []; []].
Proof.
  split; [|split; reflexivity].
  exact (proj1 (unhash_idempotent jhash_1word_xor hash_mix_zero listen_hashfn_low
                  1 kernel1)).
Defined.

(** Unhashing a listener takes it out of both listening tables under the
    locks of its buckets; a second call changes nothing. *)
Example unhash_listener :
  (hash_trace <$> unhash_with 3 kernel_listen)
  = Some [spin_lock (listening_lock 16); spin_lock (lhash2_lock 2);
          spin_unlock (lhash2_lock 2); hlist_del 3; spin_unlock (listening_lock 16)]
  /\ (listening_hash ∘ hashinfo <$> unhash_with 3 kernel_listen)
     = Some (listening_hash hashinfo0)
  /\ (lhash2 ∘ hashinfo <$> unhash_with 3 kernel_listen) = Some (lhash2 hashinfo0)
  /\ (prot_inuse <$> unhash_with 3 kernel_listen) = Some 0
  /\ (unhash_with 3 kernel_listen ≫= unhash_with 3) = unhash_with 3 kernel_listen.
Proof. vm_compute. repeat split. Qed.

(** * Further properties *)

(** ** Keepalive: update, round trip and re-entry *)

Lemma to_int_mod (x : Z) : to_int x `mod` 2 ^ 32 = x `mod` 2 ^ 32.
Proof.
  unfold to_int. destruct (x `mod` 2 ^ 32 <? 2 ^ 31).
  - apply Z.mod_mod. lia.
  - rewrite <- (Z.mod_add _ 1) by lia.
    replace (x `mod` 2 ^ 32 - 2 ^ 32 + 1 * 2 ^ 32) with (x `mod` 2 ^ 32) by lia.
    apply Z.mod_mod. lia.
Qed.

Lemma to_u32_to_int (x : Z) : to_u32 (to_int x) = to_u32 x.
Proof. apply to_int_mod. Qed.

Lemma to_u8_idem (x : Z) : to_u8 (to_u8 x) = to_u8 x.
Proof. unfold to_u8. apply Z.mod_mod. lia. Qed.

Section KeepaliveMore.

Variable HZ : Z.
Variable param : nip_parameter.
Variable keepalive_time_elapsed : sock -> Z.

Abbreviation para_update' := (tcp_nip_keepalive_para_update keepalive_time_elapsed).
Abbreviation enable' := (tcp_nip_keepalive_enable HZ param keepalive_time_elapsed).
Abbreviation disable' := (tcp_nip_keepalive_disable param).

(** X1.  A successful update stores the three values it was given (as
    [u32], [u8], [u32]) and leaves SO_KEEPALIVE on if the protocol has a
    keepalive handler or it was on before; the values it accepted are in
    range. *)
Theorem para_update_ok_commits (sk : sock) (t i p : Z) :
  (para_update' sk t i p).1 = 0 ->
  keepalive_para (para_update' sk t i p).2 = (to_u32 t, to_u8 p, to_u32 i)
  /\ sock_flag (para_update' sk t i p).2 SOCK_KEEPOPEN
     = sk_prot_has_keepalive sk || sock_flag sk SOCK_KEEPOPEN
  /\ 1 <= to_u32 t <= 32767 /\ 1 <= to_u32 i <= 32767 /\ 1 <= to_u8 p <= 255.
Proof.
  unfold tcp_nip_keepalive_para_update.
  destruct ((to_int t <? 1) || (to_int t >? MAX_NIP_TCP_KEEPIDLE)) eqn:Et;
    [discriminate|].
  destruct ((to_int i <? 1) || (to_int i >? MAX_NIP_TCP_KEEPINTVL)) eqn:Ei;
    [discriminate|].
  destruct ((to_u8 p <? 1) || (to_u8 p >? MAX_NIP_TCP_KEEPCNT)) eqn:Ep;
    [discriminate|].
  intros _.
  apply to_int_accepted in Et as [Et Ert].
  apply to_int_accepted in Ei as [Ei Eri].
  rewrite to_u32_to_int in *.
  assert (1 <= to_u32 t <= 32767) as Ht.
  { rewrite <- to_u32_to_int. rewrite to_u32_small by lia. lia. }
  assert (1 <= to_u32 i <= 32767) as Hi.
  { rewrite <- to_u32_to_int. rewrite to_u32_small by lia. lia. }
  assert (1 <= to_u8 p <= 255) as Hp.
  { apply orb_false_elim in Ep as [E1 E2]. apply Z.ltb_ge in E1.
    rewrite Z.gtb_ltb in E2. apply Z.ltb_ge in E2.
    unfold MAX_NIP_TCP_KEEPCNT in E2. lia. }
  destruct sk as [? fl ? ? ? ? ? ? ? ? ? ? ? ? hk ? [] ?].
  unfold keepalive_para, sock_flag, sock_valbool_flag, sock_set_flag.
  cbn. rewrite !to_u32_to_int, to_u8_idem.
  assert (Z.testbit (Z.setbit fl SOCK_KEEPOPEN) SOCK_KEEPOPEN = true) as Hset
    by (apply Z.setbit_eq; unfold SOCK_KEEPOPEN; lia).
  repeat case_match; cbn in *; subst; cbn; rewrite ?Hset;
    repeat split; auto; lia.
Qed.

(** The update never turns SO_KEEPALIVE off. *)
Lemma para_update_keeps_keepopen (sk : sock) (t i p : Z) :
  sock_flag sk SOCK_KEEPOPEN = true ->
  sock_flag (para_update' sk t i p).2 SOCK_KEEPOPEN = true.
Proof.
  intros H. unfold tcp_nip_keepalive_para_update.
  destruct sk as [? fl ? ? ? ? ? ? ? ? ? ? ? ? hk ? [] ?].
  unfold sock_flag, sock_valbool_flag, sock_set_flag in *. cbn in *.
  assert (Z.testbit (Z.setbit fl SOCK_KEEPOPEN) SOCK_KEEPOPEN = true) as Hset
    by (apply Z.setbit_eq; unfold SOCK_KEEPOPEN; lia).
  repeat case_match; cbn in *; subst; cbn; rewrite ?Hset; auto.
Qed.

(** The restore branch of [disable]. *)
Lemma disable_restores (sk : sock) :
  nip_keepalive_enable (tcp_sk sk) = true ->
  sock_flag sk SOCK_KEEPOPEN = true ->
  to_u32 (g_nip_idle_ka_probes_out param) <= idle_ka_probes_out (tcp_sk sk) ->
  keepalive_time_bak (tcp_sk sk) <> 0 ->
  disable' sk =
    call (inet_csk_reset_keepalive_timer (keepalive_time_bak (tcp_sk sk)))
      (upd_tp (set_keepalive_intvl (keepalive_intvl_bak (tcp_sk sk)))
         (upd_tp (set_keepalive_probes (to_u8 (keepalive_probes_bak (tcp_sk sk))))
            (upd_tp (set_keepalive_time (keepalive_time_bak (tcp_sk sk))) sk))).
Proof.
  intros Hon Hka Hout Hbak. unfold tcp_nip_keepalive_disable.
  rewrite Hon, Hka. cbn [negb].
  destruct (idle_ka_probes_out (tcp_sk sk) <? to_u32 (g_nip_idle_ka_probes_out param))
    eqn:E; [apply Z.ltb_lt in E; lia|].
  apply Z.eqb_neq in Hbak. rewrite Hbak. cbn [negb].
  destruct sk as [? ? ? ? ? ? ? ? ? ? ? ? ? ? ? ? [] ?]. reflexivity.
Qed.

(** What the first [enable] leaves when it activates the idle profile on
    a socket with SO_KEEPALIVE on: the flag and SO_KEEPALIVE set, the
    backup equal to the user's parameters, the probe counter untouched. *)
Lemma enable_first_state (sk : sock) :
  nip_keepalive_enable (tcp_sk sk) = false ->
  sock_flag sk SOCK_KEEPOPEN = true ->
  nip_keepalive_enable (tcp_sk (enable' sk)) = true ->
  keepalive_bak (enable' sk) = keepalive_para sk
  /\ sock_flag (enable' sk) SOCK_KEEPOPEN = true
  /\ sk_send_head (enable' sk) = sk_send_head sk.
Proof.
  intros Hoff Hka. unfold tcp_nip_keepalive_enable.
  destruct (tcp_nip_send_head sk) as [skb|] eqn:Hh; [|congruence].
  rewrite Hoff, Hka.
  match goal with
  | |- context [tcp_nip_keepalive_para_update _ ?s ?t ?i ?p] =>
      pose proof (para_update_frame keepalive_time_elapsed s t i p) as (_ & Hb & Hs);
      pose proof (para_update_keeps_keepopen s t i p) as Hk;
      destruct (tcp_nip_keepalive_para_update _ s t i p) as [ret sk'] eqn:E
  end.
  cbn [fst snd] in *. intros Hon.
  assert (sock_flag (backup_para sk) SOCK_KEEPOPEN = true) as Hk0.
  { unfold backup_para. autorewrite with sock_fields. exact Hka. }
  specialize (Hk Hk0).
  assert (keepalive_bak (backup_para sk) = keepalive_para sk) as Hb0.
  { unfold keepalive_bak, keepalive_para, backup_para. autorewrite with sock_fields.
    destruct (tcp_sk sk); reflexivity. }
  assert (sk_send_head (backup_para sk) = sk_send_head sk) as Hs0.
  { unfold backup_para. autorewrite with sock_fields. reflexivity. }
  destruct (negb (ret =? 0)).
  - rewrite Hb, Hb0, Hk, Hs, Hs0. auto.
  - unfold keepalive_bak in *. autorewrite with sock_fields.
    rewrite Hk, Hs, Hs0. split; [|auto].
    rewrite <- Hb0, <- Hb. destruct (tcp_sk sk'); reflexivity.
Qed.

(** X2.  Round trip.  On a socket with SO_KEEPALIVE on and a non-zero
    user idle time, entering the idle profile and then running [disable]
    once the configured number of idle probes went unanswered puts the
    user's idle time, probe count and interval back in force. *)
Theorem enable_disable_restores_user_para (sk : sock) (n : Z) :
  nip_keepalive_enable (tcp_sk sk) = false ->
  sock_flag sk SOCK_KEEPOPEN = true ->
  keepalive_time (tcp_sk sk) <> 0 ->
  0 <= keepalive_probes (tcp_sk sk) < 256 ->
  nip_keepalive_enable (tcp_sk (enable' sk)) = true ->
  to_u32 (g_nip_idle_ka_probes_out param) <= n ->
  keepalive_para (disable' (upd_tp (set_idle_ka_probes_out n) (enable' sk)))
  = keepalive_para sk.
Proof.
  intros Hoff Hka Ht Hp Hon Hn.
  destruct (enable_first_state sk Hoff Hka Hon) as (Hbak & Hka' & _).
  set (s1 := upd_tp (set_idle_ka_probes_out n) (enable' sk)).
  assert (keepalive_bak s1 = keepalive_para sk) as Hb1.
  { unfold s1, keepalive_bak in *. autorewrite with sock_fields.
    rewrite <- Hbak. destruct (tcp_sk (enable' sk)); reflexivity. }
  assert (nip_keepalive_enable (tcp_sk s1) = true) as Hon1.
  { unfold s1. autorewrite with sock_fields.
    destruct (tcp_sk (enable' sk)); exact Hon. }
  assert (sock_flag s1 SOCK_KEEPOPEN = true) as Hka1.
  { unfold s1. autorewrite with sock_fields. exact Hka'. }
  assert (idle_ka_probes_out (tcp_sk s1) = n) as Hn1.
  { unfold s1. autorewrite with sock_fields.
    destruct (tcp_sk (enable' sk)); reflexivity. }
  unfold keepalive_bak, keepalive_para in Hb1. injection Hb1 as Hb_t Hb_p Hb_i.
  rewrite disable_restores by (assumption || lia || congruence).
  unfold keepalive_para. autorewrite with sock_fields.
  rewrite Hb_t, Hb_p, Hb_i.
  destruct (tcp_sk s1); cbn.
  unfold to_u8. rewrite Z.mod_small by lia. reflexivity.
Qed.

(** The branch of [enable] for an active profile with a user idle time in
    force. *)
Lemma enable_active_above_hz (sk : sock) (skb : sk_buff) :
  nip_keepalive_enable (tcp_sk sk) = true ->
  HZ < keepalive_time (tcp_sk sk) ->
  sk_send_head sk = Some skb ->
  enable' sk =
    let nip_keepalive_time :=
      to_u32 (if to_u32 (pkt_total_len skb) <? NIP_PKT_TOTAL_LEN_BOUNDARY
              then g_nip_keepalive_time_short_pkt param
              else g_nip_keepalive_time param) in
    call (inet_csk_reset_keepalive_timer nip_keepalive_time)
      (upd_tp (set_keepalive_intvl (to_u32 (g_nip_keepalive_intvl param)))
         (upd_tp (set_keepalive_probes NIP_KEEPALIVE_PROBES)
            (upd_tp (set_keepalive_time nip_keepalive_time) (backup_para sk)))).
Proof.
  intros Hon Ht Hh. unfold tcp_nip_keepalive_enable, tcp_nip_send_head.
  rewrite Hh, Hon.
  assert ((keepalive_time (tcp_sk sk) >? HZ) = true) as ->
    by (rewrite Z.gtb_ltb; apply Z.ltb_lt; lia).
  cbv zeta. autorewrite with sock_fields.
  unfold backup_para. autorewrite with sock_fields.
  destruct (tcp_sk sk); reflexivity.
Qed.

(** X3.  Re-entry.  After such a restore the idle-profile flag is still
    set; when the user's idle time exceeds [HZ], the next [enable] puts
    the idle profile back in force with the same backup as the first
    time. *)
Theorem enable_reenters_after_restore (sk : sock) (n : Z) :
  nip_keepalive_enable (tcp_sk sk) = false ->
  sock_flag sk SOCK_KEEPOPEN = true ->
  HZ < keepalive_time (tcp_sk sk) ->
  0 <= HZ ->
  0 <= keepalive_probes (tcp_sk sk) < 256 ->
  nip_keepalive_enable (tcp_sk (enable' sk)) = true ->
  to_u32 (g_nip_idle_ka_probes_out param) <= n ->
  let restored := disable' (upd_tp (set_idle_ka_probes_out n) (enable' sk)) in
  nip_keepalive_enable (tcp_sk restored) = true
  /\ keepalive_bak (enable' restored) = keepalive_para sk
  /\ nip_keepalive_enable (tcp_sk (enable' restored)) = true
  /\ exists skb,
       sk_send_head sk = Some skb
       /\ keepalive_para (enable' restored) =
            (to_u32 (if to_u32 (pkt_total_len skb) <? NIP_PKT_TOTAL_LEN_BOUNDARY
                     then g_nip_keepalive_time_short_pkt param
                     else g_nip_keepalive_time param),
             NIP_KEEPALIVE_PROBES, to_u32 (g_nip_keepalive_intvl param)).
Proof.
  intros Hoff Hka Ht Hz Hp Hon Hn restored.
  destruct (enable_first_state sk Hoff Hka Hon) as (Hbak & Hka' & Hhead).
  set (s1 := upd_tp (set_idle_ka_probes_out n) (enable' sk)) in *.
  assert (keepalive_bak s1 = keepalive_para sk) as Hb1.
  { unfold s1, keepalive_bak in *. autorewrite with sock_fields.
    rewrite <- Hbak. destruct (tcp_sk (enable' sk)); reflexivity. }
  assert (nip_keepalive_enable (tcp_sk s1) = true) as Hon1.
  { unfold s1. autorewrite with sock_fields.
    destruct (tcp_sk (enable' sk)); exact Hon. }
  assert (sock_flag s1 SOCK_KEEPOPEN = true) as Hka1.
  { unfold s1. autorewrite with sock_fields. exact Hka'. }
  assert (idle_ka_probes_out (tcp_sk s1) = n) as Hn1.
  { unfold s1. autorewrite with sock_fields.
    destruct (tcp_sk (enable' sk)); reflexivity. }
  assert (sk_send_head s1 = sk_send_head sk) as Hh1.
  { unfold s1. autorewrite with sock_fields. exact Hhead. }
  unfold keepalive_bak, keepalive_para in Hb1. injection Hb1 as Hb_t Hb_p Hb_i.
  assert (restored =
            call (inet_csk_reset_keepalive_timer (keepalive_time_bak (tcp_sk s1)))
              (upd_tp (set_keepalive_intvl (keepalive_intvl_bak (tcp_sk s1)))
                 (upd_tp (set_keepalive_probes (to_u8 (keepalive_probes_bak (tcp_sk s1))))
                    (upd_tp (set_keepalive_time (keepalive_time_bak (tcp_sk s1))) s1))))
    as Hr.
  { unfold restored. apply disable_restores; (assumption || lia || congruence). }
  assert (exists skb, sk_send_head sk = Some skb) as [skb Hsk].
  { destruct (sk_send_head sk) as [skb|] eqn:Hsk; [eauto|].
    unfold tcp_nip_keepalive_enable, tcp_nip_send_head in Hon.
    rewrite Hsk in Hon. congruence. }
  clearbody restored.
  assert (nip_keepalive_enable (tcp_sk restored) = true) as Hon2.
  { rewrite Hr. autorewrite with sock_fields. destruct (tcp_sk s1); exact Hon1. }
  assert (keepalive_para restored = keepalive_para sk) as Hp2.
  { rewrite Hr. unfold keepalive_para. autorewrite with sock_fields.
    rewrite Hb_t, Hb_p, Hb_i. destruct (tcp_sk s1); cbn.
    unfold to_u8. rewrite Z.mod_small by lia. reflexivity. }
  assert (sk_send_head restored = Some skb) as Hh2.
  { rewrite Hr. autorewrite with sock_fields. congruence. }
  assert (HZ < keepalive_time (tcp_sk restored)) as Ht2.
  { unfold keepalive_para in Hp2. injection Hp2 as -> _ _. exact Ht. }
  rewrite (enable_active_above_hz restored skb Hon2 Ht2 Hh2). cbv zeta.
  split; [exact Hon2|].
  unfold keepalive_bak, keepalive_para, backup_para in *.
  autorewrite with sock_fields.
  destruct (tcp_sk restored). cbn in *.
  split; [exact Hp2|]. split; [exact Hon2|].
  exists skb. split; [exact Hsk | reflexivity].
Qed.

End KeepaliveMore.

Lemma para_update_ok_commits_witness :
  (tcp_nip_keepalive_para_update no_elapsed sk_user 5 25 255).1 = 0
  /\ keepalive_para (tcp_nip_keepalive_para_update no_elapsed sk_user 5 25 255).2
     = (5, 255, 25).
Proof.
  assert ((tcp_nip_keepalive_para_update no_elapsed sk_user 5 25 255).1 = 0) as H
    by reflexivity.
  split; [exact H|].
  destruct (para_update_ok_commits no_elapsed sk_user 5 25 255 H) as [Hpara _].
  rewrite Hpara. reflexivity.
Defined.

Lemma enable_disable_restores_user_para_witness :
  (nip_keepalive_enable (tcp_sk sk_user) = false
   /\ sock_flag sk_user SOCK_KEEPOPEN = true
   /\ keepalive_para (tcp_nip_keepalive_enable 100 param_below_hz no_elapsed sk_user)
      = (5, 255, 25))
  /\ keepalive_para (tcp_nip_keepalive_disable param_below_hz sk_idle)
     = (720000, 9, 7500).
Proof.
  assert (nip_keepalive_enable (tcp_sk sk_user) = false) as H1 by reflexivity.
  assert (sock_flag sk_user SOCK_KEEPOPEN = true) as H2 by reflexivity.
  assert (keepalive_time (tcp_sk sk_user) <> 0) as H3 by discriminate.
  assert (0 <= keepalive_probes (tcp_sk sk_user) < 256) as H4
    by (vm_compute; split; [discriminate | reflexivity]).
  assert (nip_keepalive_enable
            (tcp_sk (tcp_nip_keepalive_enable 100 param_below_hz no_elapsed sk_user))
          = true) as H5 by reflexivity.
  assert (to_u32 (g_nip_idle_ka_probes_out param_below_hz) <= 20) as H6
    by (vm_compute; discriminate).
  split; [split; [exact H1 | split; [exact H2 | reflexivity]]|].
  unfold sk_idle.
  rewrite (enable_disable_restores_user_para 100 param_below_hz no_elapsed sk_user 20
             H1 H2 H3 H4 H5 H6).
  reflexivity.
Defined.

Lemma enable_reenters_after_restore_witness :
  (100 < keepalive_time (tcp_sk sk_user)
   /\ nip_keepalive_enable
        (tcp_sk (tcp_nip_keepalive_enable 100 param_below_hz no_elapsed sk_user)) = true)
  /\ keepalive_bak
       (tcp_nip_keepalive_enable 100 param_below_hz no_elapsed
          (tcp_nip_keepalive_disable param_below_hz sk_idle))
     = (720000, 9, 7500)
  /\ nip_keepalive_enable
       (tcp_sk (tcp_nip_keepalive_enable 100 param_below_hz no_elapsed
                  (tcp_nip_keepalive_disable param_below_hz sk_idle))) = true.
Proof.
  assert (nip_keepalive_enable (tcp_sk sk_user) = false) as H1 by reflexivity.
  assert (sock_flag sk_user SOCK_KEEPOPEN = true) as H2 by reflexivity.
  assert (100 < keepalive_time (tcp_sk sk_user)) as H3 by reflexivity.
  assert (0 <= 100) as Hz by discriminate.
  assert (0 <= keepalive_probes (tcp_sk sk_user) < 256) as H4
    by (vm_compute; split; [discriminate | reflexivity]).
  assert (nip_keepalive_enable
            (tcp_sk (tcp_nip_keepalive_enable 100 param_below_hz no_elapsed sk_user))
          = true) as H5 by reflexivity.
  assert (to_u32 (g_nip_idle_ka_probes_out param_below_hz) <= 20) as H6
    by (vm_compute; discriminate).
  split; [split; [exact H3 | exact H5]|].
  destruct (enable_reenters_after_restore 100 param_below_hz no_elapsed sk_user 20
              H1 H2 H3 Hz H4 H5 H6) as (_ & Hbak & Hon & _).
  unfold sk_idle. rewrite Hbak. split; [reflexivity | exact Hon].
Defined.

(** ** Close, shutdown and disconnect: the remaining paths *)

Lemma count_event_app (e : event) (l1 l2 : list event) :
  count_event e (l1 ++ l2) = (count_event e l1 + count_event e l2)%nat.
Proof. unfold count_event. rewrite filter_app, length_app. reflexivity. Qed.

(** X4.  What [close] sends.  From Listen it stops the listener, from
    Closed it sends nothing; otherwise it sends a reset and enters Closed
    exactly when unread data was queued, and follows the table when none
    was: a reset and a FIN are never sent together.  Both shutdown bits
    are set on every path, and the receive queue is drained unless the
    socket was listening. *)
Theorem close_resets_iff_unread (sk : sock) :
  valid_state (sk_state sk) ->
  exists sk',
    tcp_nip_close sk = Some sk'
    /\ sk_shutdown sk' = SHUTDOWN_MASK
    /\ sk_trace sk' =
         sk_trace sk
         ++ (if sk_state sk =? TCP_LISTEN then [inet_csk_listen_stop]
             else if sk_state sk =? TCP_CLOSE then []
             else if negb (data_was_unread (sk_receive_queue sk) 0 =? 0)
                  then [tcp_nip_send_active_reset]
             else if (close_transition (sk_state sk)).2 then [tcp_nip_send_fin]
             else [])
    /\ sk_state sk' =
         (if (sk_state sk =? TCP_LISTEN)
             || negb (data_was_unread (sk_receive_queue sk) 0 =? 0)
          then TCP_CLOSE else (close_transition (sk_state sk)).1)
    /\ (sk_state sk <> TCP_LISTEN -> sk_receive_queue sk' = []).
Proof.
  intros H. apply valid_state_cases in H.
  unfold tcp_nip_close.
  destruct sk as [st ? ? ? ? rq ? ? ? ? ? ? ? ? ? ? ? tr].
  cbn [sk_state sk_receive_queue sk_trace set_sk_shutdown] in *.
  repeat (apply elem_of_cons in H as [-> | H];
          [cbn; destruct (data_was_unread rq 0 =? 0); cbn;
           rewrite ?app_nil_r; eexists; repeat split; (reflexivity || congruence)|]).
  apply elem_of_nil in H. contradiction.
Qed.

(** [shutdown] evaluated: the table is consulted in four states. *)
Lemma shutdown_eval (sk : sock) (how : Z) :
  valid_state (sk_state sk) ->
  tcp_nip_shutdown sk how =
    Some (if negb (Z.land how SEND_SHUTDOWN =? 0)
             && ((sk_state sk =? TCP_ESTABLISHED) || (sk_state sk =? TCP_SYN_SENT)
                 || (sk_state sk =? TCP_SYN_RECV) || (sk_state sk =? TCP_CLOSE_WAIT))
          then (if (close_transition (sk_state sk)).2
                then call tcp_nip_send_fin
                       (tcp_set_state (close_transition (sk_state sk)).1 sk)
                else tcp_set_state (close_transition (sk_state sk)).1 sk)
          else sk).
Proof.
  intros H. apply valid_state_cases in H.
  unfold tcp_nip_shutdown, state_in.
  destruct sk as [st ? ? ? ? rq ? ? ? ? ? ? ? ? ? ? ? tr].
  cbn [sk_state] in *.
  destruct (Z.land how SEND_SHUTDOWN =? 0); [reflexivity|].
  repeat (apply elem_of_cons in H as [-> | H]; [reflexivity|]).
  apply elem_of_nil in H. contradiction.
Qed.

(** X5.  What [shutdown] does.  Without SEND_SHUTDOWN, and in every state
    but Established, SynSent, SynRecv and CloseWait, it leaves the socket
    as it is.  In those four states it enters the state the close table
    names; it sends one FIN from Established, SynRecv and CloseWait and
    none from SynSent.  It never sends a reset. *)
Theorem shutdown_follows_table (sk : sock) (how : Z) :
  valid_state (sk_state sk) ->
  let st := sk_state sk in
  let active :=
    negb (Z.land how SEND_SHUTDOWN =? 0)
    && ((st =? TCP_ESTABLISHED) || (st =? TCP_SYN_SENT) || (st =? TCP_SYN_RECV)
        || (st =? TCP_CLOSE_WAIT)) in
  exists sk',
    tcp_nip_shutdown sk how = Some sk'
    /\ (active = false -> sk' = sk)
    /\ sk_state sk' = (if active then (close_transition st).1 else st)
    /\ sk_trace sk' =
         sk_trace sk
         ++ (if active && (close_transition st).2 then [tcp_nip_send_fin] else [])
    /\ (active && (close_transition st).2 = true
        <-> st = TCP_ESTABLISHED /\ Z.land how SEND_SHUTDOWN <> 0
            \/ st = TCP_SYN_RECV /\ Z.land how SEND_SHUTDOWN <> 0
            \/ st = TCP_CLOSE_WAIT /\ Z.land how SEND_SHUTDOWN <> 0).
Proof.
  intros H st active. subst st active.
  rewrite (shutdown_eval sk how H).
  eexists. split; [reflexivity|].
  apply valid_state_cases in H.
  destruct sk as [st0 ? ? ? ? rq ? ? ? ? ? ? ? ? ? ? ? tr].
  cbn [sk_state] in *.
  destruct (Z.land how SEND_SHUTDOWN =? 0) eqn:Eh;
    [apply Z.eqb_eq in Eh | apply Z.eqb_neq in Eh];
    repeat (apply elem_of_cons in H as [-> | H];
            [cbn; rewrite ?app_nil_r;
             repeat split; try reflexivity; try discriminate;
             try (intros [[Hx ?] | [[Hx ?] | [Hx ?]]];
                  (discriminate Hx || congruence));
             try (intros _; auto)|]);
    apply elem_of_nil in H; contradiction.
Qed.

(** The states [shutdown] leaves a socket in are states in which it does
    nothing. *)
Lemma shutdown_result_state (sk sk' : sock) (how : Z) :
  valid_state (sk_state sk) ->
  tcp_nip_shutdown sk how = Some sk' ->
  valid_state (sk_state sk')
  /\ (sk' = sk
      \/ sk_state sk' ∈ [TCP_FIN_WAIT1; TCP_LAST_ACK; TCP_CLOSE]).
Proof.
  intros H. pose proof H as Hv. apply valid_state_cases in H.
  unfold tcp_nip_shutdown, state_in.
  destruct sk as [st ? ? ? ? rq ? ? ? ? ? ? ? ? ? ? ? tr].
  cbn [sk_state] in *.
  destruct (Z.land how SEND_SHUTDOWN =? 0); [intros [= <-]; auto|].
  repeat (apply elem_of_cons in H as [-> | H];
          [cbn; intros [= <-]; cbn;
           split; [cbv; split; [discriminate | reflexivity]|];
           first [left; reflexivity | right; set_solver]|]).
  apply elem_of_nil in H. contradiction.
Qed.

(** X6.  [shutdown] is idempotent: a second call changes nothing, so a
    FIN is not sent twice. *)
Theorem shutdown_idempotent (sk : sock) (how : Z) :
  valid_state (sk_state sk) ->
  (tcp_nip_shutdown sk how ≫= fun sk' => tcp_nip_shutdown sk' how)
  = tcp_nip_shutdown sk how.
Proof.
  intros H.
  destruct (tcp_nip_shutdown sk how) as [sk'|] eqn:E; [|reflexivity].
  cbn. destruct (shutdown_result_state sk sk' how H E) as [Hv [-> | Hst]];
    [exact E|].
  unfold tcp_nip_shutdown, state_in.
  destruct (Z.land how SEND_SHUTDOWN =? 0); [reflexivity|].
  repeat (apply elem_of_cons in Hst as [-> | Hst]; [reflexivity|]).
  apply elem_of_nil in Hst. contradiction.
Qed.

Lemma count_event_single (e e' : event) :
  count_event e [e'] = if decide (e' = e) then 1%nat else 0%nat.
Proof. unfold count_event. cbn. destruct (decide (e' = e)); reflexivity. Qed.

(** X7.  [shutdown] followed by [close], with no unread data queued, ends
    in the state [close] alone would reach and has sent as many FINs as
    [close] alone: one from Established, SynRecv and CloseWait, none
    otherwise. *)
Theorem shutdown_then_close_one_fin (sk : sock) (how : Z) :
  valid_state (sk_state sk) ->
  data_was_unread (sk_receive_queue sk) 0 = 0 ->
  exists sk2,
    (tcp_nip_shutdown sk how ≫= tcp_nip_close) = Some sk2
    /\ sk_state sk2 = (close_transition (sk_state sk)).1
    /\ count_event tcp_nip_send_fin (sk_trace sk2) =
         (count_event tcp_nip_send_fin (sk_trace sk)
          + (if (close_transition (sk_state sk)).2 then 1 else 0))%nat
    /\ count_event tcp_nip_send_active_reset (sk_trace sk2) =
         count_event tcp_nip_send_active_reset (sk_trace sk).
Proof.
  intros H Hread. pose proof H as Hv. apply valid_state_cases in H.
  assert (exists sk2,
            (tcp_nip_shutdown sk how ≫= tcp_nip_close) = Some sk2
            /\ sk_state sk2 = (close_transition (sk_state sk)).1
            /\ sk_trace sk2 =
                 sk_trace sk
                 ++ (if (close_transition (sk_state sk)).2 then [tcp_nip_send_fin]
                     else if sk_state sk =? TCP_LISTEN then [inet_csk_listen_stop]
                     else [])) as (sk2 & Hrun & Hst & Htr).
  { rewrite (shutdown_eval sk how Hv).
    unfold tcp_nip_close.
    destruct sk as [st ? ? ? ? rq ? ? ? ? ? ? ? ? ? ? ? tr].
    cbn [sk_state sk_receive_queue sk_trace] in *.
    destruct (Z.land how SEND_SHUTDOWN =? 0);
      repeat (apply elem_of_cons in H as [-> | H];
              [cbn; rewrite ?Hread; cbn; eexists; split; [reflexivity|];
               split; [reflexivity|]; cbn; rewrite ?app_nil_r; reflexivity|]);
      apply elem_of_nil in H; contradiction. }
  exists sk2. split; [exact Hrun|]. split; [exact Hst|].
  rewrite Htr, !count_event_app.
  destruct (close_transition (sk_state sk)).2;
    [|destruct (sk_state sk =? TCP_LISTEN)];
    rewrite ?count_event_single; repeat case_decide;
    try discriminate; try congruence; cbn; lia.
Qed.

Lemma close_resets_iff_unread_witness :
  (valid_state (sk_state sk_unread)
   /\ data_was_unread (sk_receive_queue sk_unread) 0 = 10)
  /\ exists sk',
       tcp_nip_close sk_unread = Some sk'
       /\ sk_trace sk' = [tcp_nip_send_active_reset]
       /\ sk_state sk' = TCP_CLOSE
       /\ sk_receive_queue sk' = [].
Proof.
  assert (valid_state (sk_state sk_unread)) as H1
    by (vm_compute; split; [discriminate | reflexivity]).
  split; [split; [exact H1 | reflexivity]|].
  destruct (close_resets_iff_unread sk_unread H1) as (sk' & Hrun & _ & Htr & Hst & Hq).
  exists sk'. split; [exact Hrun|]. split; [exact Htr|]. split; [exact Hst|].
  apply Hq. discriminate.
Defined.

Lemma shutdown_follows_table_witness :
  valid_state (sk_state sk_close_wait)
  /\ exists sk',
       tcp_nip_shutdown sk_close_wait SEND_SHUTDOWN = Some sk'
       /\ sk_state sk' = TCP_LAST_ACK
       /\ sk_trace sk' = [tcp_nip_send_fin].
Proof.
  assert (valid_state (sk_state sk_close_wait)) as H1
    by (vm_compute; split; [discriminate | reflexivity]).
  split; [exact H1|].
  destruct (shutdown_follows_table sk_close_wait SEND_SHUTDOWN H1)
    as (sk' & Hrun & _ & Hst & Htr & _).
  exists sk'. split; [exact Hrun|]. split; [exact Hst | exact Htr].
Defined.

Lemma shutdown_idempotent_witness :
  valid_state (sk_state sk_user)
  /\ (tcp_nip_shutdown sk_user SHUTDOWN_MASK
        ≫= fun sk' => tcp_nip_shutdown sk' SHUTDOWN_MASK)
     = tcp_nip_shutdown sk_user SHUTDOWN_MASK
  /\ (sk_trace <$> tcp_nip_shutdown sk_user SHUTDOWN_MASK) = Some [tcp_nip_send_fin].
Proof.
  assert (valid_state (sk_state sk_user)) as H1
    by (vm_compute; split; [discriminate | reflexivity]).
  split; [exact H1|]. split; [|reflexivity].
  exact (shutdown_idempotent sk_user SHUTDOWN_MASK H1).
Defined.

Lemma shutdown_then_close_one_fin_witness :
  (valid_state (sk_state sk_fin_queued)
   /\ data_was_unread (sk_receive_queue sk_fin_queued) 0 = 0)
  /\ exists sk2,
       (tcp_nip_shutdown sk_fin_queued SEND_SHUTDOWN ≫= tcp_nip_close) = Some sk2
       /\ sk_state sk2 = TCP_FIN_WAIT1
       /\ count_event tcp_nip_send_fin (sk_trace sk2) = 1%nat
       /\ count_event tcp_nip_send_active_reset (sk_trace sk2) = 0%nat.
Proof.
  assert (valid_state (sk_state sk_fin_queued)) as H1
    by (vm_compute; split; [discriminate | reflexivity]).
  assert (data_was_unread (sk_receive_queue sk_fin_queued) 0 = 0) as H2 by reflexivity.
  split; [auto|].
  destruct (shutdown_then_close_one_fin sk_fin_queued SEND_SHUTDOWN H1 H2)
    as (sk2 & Hrun & Hst & Hfin & Hrst).
  exists sk2. split; [exact Hrun|]. split; [exact Hst|].
  split; [exact Hfin | exact Hrst].
Defined.

Lemma to_int_congr (a b : Z) :
  a `mod` 2 ^ 32 = b `mod` 2 ^ 32 -> to_int a = to_int b.
Proof. intros H. unfold to_int. rewrite H. reflexivity. Qed.

(** The length the loop of [tcp_nip_close] adds for one segment is, modulo
    2^32, its sequence space without the FIN. *)
Lemma unread_len_mod (skb : sk_buff) :
  (let len := to_u32 (cb_end_seq skb - cb_seq skb) in
   if negb (Z.land (cb_tcp_flags skb) TCPHDR_FIN =? 0) then to_u32 (len - 1) else len)
    `mod` 2 ^ 32
  = unread_len skb `mod` 2 ^ 32.
Proof.
  unfold unread_len, to_u32. cbv zeta.
  destruct (negb (Z.land (cb_tcp_flags skb) TCPHDR_FIN =? 0)).
  - rewrite Z.mod_mod by lia. rewrite Zminus_mod_idemp_l. reflexivity.
  - rewrite Z.mod_mod by lia. f_equal. lia.
Qed.

Lemma to_int_idem (x : Z) : to_int (to_int x) = to_int x.
Proof. apply to_int_congr, to_int_mod. Qed.

Lemma add_mod_congr (a a' b b' : Z) :
  a `mod` 2 ^ 32 = a' `mod` 2 ^ 32 ->
  b `mod` 2 ^ 32 = b' `mod` 2 ^ 32 ->
  (a + b) `mod` 2 ^ 32 = (a' + b') `mod` 2 ^ 32.
Proof.
  intros Ha Hb. rewrite (Z.add_mod a b), (Z.add_mod a' b') by lia.
  rewrite Ha, Hb. reflexivity.
Qed.

Lemma data_was_unread_sum (queue : list sk_buff) (acc : Z) :
  to_int acc = acc ->
  data_was_unread queue acc
  = to_int (acc + foldr (fun skb n => unread_len skb + n) 0 queue).
Proof.
  revert acc. induction queue as [|skb queue IH]; intros acc Hacc.
  - cbn. rewrite Z.add_0_r. symmetry. exact Hacc.
  - cbn [data_was_unread foldr]. rewrite IH by apply to_int_idem.
    apply to_int_congr. rewrite Z.add_assoc.
    apply add_mod_congr; [|reflexivity].
    rewrite to_int_mod. apply add_mod_congr; [reflexivity|].
    apply unread_len_mod.
Qed.

(** X8.  What [close] counts as unread: modulo 2^32, the sequence space
    of the queued segments less one for each FIN.  A queue of segments
    that each hold nothing but a FIN, or nothing at all, counts as no
    unread data. *)
Theorem data_was_unread_counts_data (queue : list sk_buff) :
  data_was_unread queue 0
  = to_int (foldr (fun skb n => unread_len skb + n) 0 queue)
  /\ (Forall (fun skb => unread_len skb = 0) queue -> data_was_unread queue 0 = 0).
Proof.
  assert (data_was_unread queue 0
          = to_int (foldr (fun skb n => unread_len skb + n) 0 queue)) as Hsum
    by (rewrite data_was_unread_sum by reflexivity; reflexivity).
  split; [exact Hsum|].
  intros Hall. rewrite Hsum. clear Hsum.
  assert (foldr (fun skb n => unread_len skb + n) 0 queue = 0) as ->; [|reflexivity].
  induction Hall as [|skb queue Hz _ IH]; [reflexivity|].
  cbn. rewrite Hz, IH. reflexivity.
Qed.

Lemma data_was_unread_counts_data_witness :
  Forall (fun skb => unread_len skb = 0) [skb_fin; skb0]
  /\ data_was_unread [skb_fin; skb0] 0 = 0
  /\ data_was_unread [skb_unread; skb_fin] 0 = 10.
Proof.
  assert (Forall (fun skb => unread_len skb = 0) [skb_fin; skb0]) as H
    by (repeat constructor).
  split; [exact H|].
  split; [exact (proj2 (data_was_unread_counts_data [skb_fin; skb0]) H)|].
  rewrite (proj1 (data_was_unread_counts_data [skb_unread; skb_fin])). reflexivity.
Defined.

(** ** Disconnect: what it leaves behind *)

Lemma disconnect_state (sk : sock) (flags : Z) :
  sk_state (tcp_nip_disconnect sk flags).2 = TCP_CLOSE.
Proof.
  unfold tcp_nip_disconnect. cbv zeta. cbn [fst snd].
  repeat case_match; frame; try reflexivity;
    match goal with E : negb (_ =? _) = false |- _ =>
      apply negb_false_iff, Z.eqb_eq in E; exact E end.
Qed.

(** The first half of [tcp_nip_disconnect], up to the purge of the
    queues, leaves [tcp_sk] alone. *)
Lemma disconnect_tail (sk : sock) (flags : Z) :
  exists s,
    tcp_sk s = tcp_sk sk
    /\ (tcp_nip_disconnect sk flags).2 =
       (let sk := s in
        let sk := set_sk_receive_queue [] sk in
        let sk := set_sk_write_queue [] sk in
        let sk := tcp_nip_rtt_init sk in
        let sk := upd_inet (set_inet_dport 0) sk in
        let sk := set_sk_shutdown 0 sk in
        let sk := sock_reset_flag SOCK_DONE sk in
        let sk := upd_tp (set_srtt_us 0) sk in
        let sk := upd_tp (set_write_seq
                    (to_u32 (write_seq (tcp_sk sk) + max_window (tcp_sk sk) + TCP_NUM_2))) sk in
        let sk := if write_seq (tcp_sk sk) =? 0 then upd_tp (set_write_seq 1) sk else sk in
        let sk := upd_tp (set_snd_cwnd TCP_NUM_2) sk in
        let sk := upd_tp (set_packets_out 0) sk in
        let sk := set_sk_send_head None sk in
        call sk_error_report sk).
Proof.
  unfold tcp_nip_disconnect. cbv zeta. cbn [fst snd].
  eexists. split; [|reflexivity].
  repeat case_match; frame; reflexivity.
Qed.

(** X9.  Whatever the socket was, [disconnect] returns 0 and leaves it
    ready for a new connection: both queues empty and no send head, no
    peer port, no shutdown bits, SOCK_DONE off, the keepalive parameters,
    their backup and the idle-profile flag cleared, and [write_seq] moved
    on by [max_window + 2] modulo 2^32, or to 1 where that would be 0, so
    that it is never 0. *)
Theorem disconnect_leaves_fresh_socket (sk : sock) (flags : Z) :
  let sk' := (tcp_nip_disconnect sk flags).2 in
  let next := to_u32 (write_seq (tcp_sk sk) + max_window (tcp_sk sk) + TCP_NUM_2) in
  (tcp_nip_disconnect sk flags).1 = 0
  /\ sk_state sk' = TCP_CLOSE
  /\ sk_receive_queue sk' = [] /\ sk_write_queue sk' = [] /\ sk_send_head sk' = None
  /\ inet_dport (inet_sk sk') = 0
  /\ sk_shutdown sk' = 0
  /\ sock_flag sk' SOCK_DONE = false
  /\ keepalive_para sk' = (0, 0, 0) /\ keepalive_bak sk' = (0, 0, 0)
  /\ nip_keepalive_enable (tcp_sk sk') = false
  /\ write_seq (tcp_sk sk') = (if next =? 0 then 1 else next)
  /\ 1 <= write_seq (tcp_sk sk') < 2 ^ 32.
Proof.
  intros sk' next.
  split; [reflexivity|]. split; [apply disconnect_state|].
  assert (0 <= next < 2 ^ 32) as Hnext by (apply Z.mod_pos_bound; lia).
  assert (sk_receive_queue sk' = [] /\ sk_write_queue sk' = [] /\ sk_send_head sk' = None
          /\ inet_dport (inet_sk sk') = 0 /\ sk_shutdown sk' = 0
          /\ sock_flag sk' SOCK_DONE = false
          /\ keepalive_para sk' = (0, 0, 0) /\ keepalive_bak sk' = (0, 0, 0)
          /\ nip_keepalive_enable (tcp_sk sk') = false
          /\ write_seq (tcp_sk sk') = (if next =? 0 then 1 else next)) as H.
  { subst sk' next.
    destruct (disconnect_tail sk flags) as (s & Htp & ->). rewrite <- Htp. clear Htp.
    destruct s as [? fl ? ? ? ? ? ? ? ? ? ? ? ? ? [] [] ?].
    unfold keepalive_para, keepalive_bak, sock_flag, sock_reset_flag. cbn.
    assert (Z.testbit (Z.clearbit fl SOCK_DONE) SOCK_DONE = false) as Hclr
      by (apply Z.clearbit_eq).
    destruct (to_u32 _ =? 0); cbn; rewrite Hclr; repeat split. }
  destruct H as (? & ? & ? & ? & ? & ? & ? & ? & ? & Hw).
  repeat (split; [assumption|]). rewrite Hw.
  destruct (next =? 0) eqn:E; [lia|]. apply Z.eqb_neq in E. lia.
Qed.

Lemma sk_err_frame (sk : sock) :
  (forall e, sk_err (call e sk) = sk_err sk)
  /\ (forall f, sk_err (upd_tp f sk) = sk_err sk)
  /\ (forall f, sk_err (upd_inet f sk) = sk_err sk)
  /\ (forall v, sk_err (set_sk_err v sk) = v)
  /\ (forall v, sk_err (set_sk_shutdown v sk) = sk_err sk)
  /\ (forall v, sk_err (set_sk_send_head v sk) = sk_err sk)
  /\ (forall v, sk_err (set_sk_receive_queue v sk) = sk_err sk)
  /\ (forall v, sk_err (set_sk_write_queue v sk) = sk_err sk)
  /\ (forall v, sk_err (sock_reset_flag v sk) = sk_err sk)
  /\ sk_err (tcp_nip_rtt_init sk) = sk_err sk
  /\ (forall v, sk_err (tcp_set_state v sk) = sk_err sk).
Proof. destruct sk. repeat split. Qed.

(** Comparisons of constants are replaced by their values. *)
Ltac is_Z_const a :=
  first [ is_const a
        | lazymatch a with Z0 => idtac | Zpos _ => idtac | Zneg _ => idtac end ].
Ltac eqb_consts :=
  repeat match goal with
         | |- context [Z.eqb ?a ?b] =>
             is_Z_const a; is_Z_const b;
             let v := eval cbv in (Z.eqb a b) in
             match v with
             | true => change (Z.eqb a b) with true
             | false => change (Z.eqb a b) with false
             end
         end.

(** What the first half of [tcp_nip_disconnect] does, by the state the
    socket was in. *)
Lemma disconnect_head (sk : sock) (flags : Z) :
  valid_state (sk_state sk) ->
  exists s,
    tcp_sk s = tcp_sk sk
    /\ sk_err s =
         (if disconnect_resets sk || (sk_state sk =? TCP_SYN_SENT)
          then ECONNRESET else sk_err sk)
    /\ (tcp_nip_disconnect sk flags).2 =
       (let sk := s in
        let sk := set_sk_receive_queue [] sk in
        let sk := set_sk_write_queue [] sk in
        let sk := tcp_nip_rtt_init sk in
        let sk := upd_inet (set_inet_dport 0) sk in
        let sk := set_sk_shutdown 0 sk in
        let sk := sock_reset_flag SOCK_DONE sk in
        let sk := upd_tp (set_srtt_us 0) sk in
        let sk := upd_tp (set_write_seq
                    (to_u32 (write_seq (tcp_sk sk) + max_window (tcp_sk sk) + TCP_NUM_2))) sk in
        let sk := if write_seq (tcp_sk sk) =? 0 then upd_tp (set_write_seq 1) sk else sk in
        let sk := upd_tp (set_snd_cwnd TCP_NUM_2) sk in
        let sk := upd_tp (set_packets_out 0) sk in
        let sk := set_sk_send_head None sk in
        call sk_error_report sk).
Proof.
  intros H.
  unfold tcp_nip_disconnect. cbv zeta. cbn [fst snd].
  eexists. split; [|split; [|reflexivity]].
  - repeat case_match; frame; reflexivity.
  - assert (forall s : sock,
              tcp_sk (if negb (sk_state sk =? TCP_CLOSE) then tcp_set_state TCP_CLOSE s else s)
              = tcp_sk s /\
              sk_err (if negb (sk_state sk =? TCP_CLOSE) then tcp_set_state TCP_CLOSE s else s)
              = sk_err s) as Hc
      by (intros s; destruct (negb (sk_state sk =? TCP_CLOSE)); destruct s; auto).
    unfold disconnect_resets.
    rewrite (need_reset_valid _ H), (closing_or_last_ack_valid _ H).
    rewrite (proj1 (Hc sk)).
    clear Hc. apply valid_state_cases in H.
    destruct (negb (snd_nxt (tcp_sk sk) =? write_seq (tcp_sk sk)));
      repeat (apply elem_of_cons in H as [-> | H];
              [eqb_consts; cbn [orb andb negb];
               repeat first
                 [ rewrite (proj1 (sk_err_frame _))
                 | rewrite (proj1 (proj2 (proj2 (proj2 (sk_err_frame _)))))
                 | rewrite (proj2 (proj2 (proj2 (proj2 (proj2 (proj2 (proj2 (proj2 (proj2
                              (proj2 (sk_err_frame _))))))))))) ];
               reflexivity|]);
      apply elem_of_nil in H; contradiction.
Qed.

(** X10.  The error [disconnect] leaves on the socket: ECONNRESET when it
    sent a reset or the socket was in SynSent, and otherwise the error that
    was there before; a listener's and a closed socket's error is not
    touched. *)
Theorem disconnect_sets_connreset (sk : sock) (flags : Z) :
  valid_state (sk_state sk) ->
  sk_err (tcp_nip_disconnect sk flags).2 =
    (if disconnect_resets sk || (sk_state sk =? TCP_SYN_SENT)
     then ECONNRESET else sk_err sk)
  /\ (sk_state sk = TCP_LISTEN \/ sk_state sk = TCP_CLOSE ->
      sk_err (tcp_nip_disconnect sk flags).2 = sk_err sk).
Proof.
  intros H.
  assert (sk_err (tcp_nip_disconnect sk flags).2 =
            (if disconnect_resets sk || (sk_state sk =? TCP_SYN_SENT)
             then ECONNRESET else sk_err sk)) as Herr.
  { destruct (disconnect_head sk flags H) as (s & _ & Herr & ->). rewrite <- Herr.
    cbv zeta. match goal with |- context [if ?c then _ else _] => destruct c end;
      destruct s; reflexivity. }
  split; [exact Herr|].
  rewrite Herr. unfold disconnect_resets.
  intros [-> | ->]; eqb_consts; cbn [orb andb negb]; rewrite ?andb_false_r; reflexivity.
Qed.

(** On a closed socket [tcp_nip_disconnect] stops the timers and reports,
    and does nothing else that is observed. *)
Lemma disconnect_closed (sk : sock) (flags : Z) :
  sk_state sk = TCP_CLOSE ->
  sk_trace (tcp_nip_disconnect sk flags).2
  = sk_trace sk ++ [tcp_nip_clear_xmit_timers; sk_error_report]
  /\ sk_err (tcp_nip_disconnect sk flags).2 = sk_err sk.
Proof.
  intros H. unfold tcp_nip_disconnect. cbv zeta. cbn [fst snd]. rewrite H.
  change (tcp_nip_need_reset TCP_CLOSE) with false.
  change (negb (Z.land (Z.shiftl 1 TCP_CLOSE) (Z.lor TCPF_CLOSING TCPF_LAST_ACK) =? 0))
    with false.
  eqb_consts. cbn [negb orb andb]. rewrite andb_false_r.
  split.
  - match goal with |- context [if ?c then _ else _] => destruct c end;
      frame; rewrite <- app_assoc; reflexivity.
  - match goal with |- context [if ?c then _ else _] => destruct c end;
      destruct sk; reflexivity.
Qed.

(** X11.  A second [disconnect] finds the socket Closed: it stops the
    timers and reports, sends no reset and stops no listener, and leaves
    the error of the first call in place. *)
Theorem disconnect_twice_no_second_reset (sk : sock) (flags flags' : Z) :
  let sk1 := (tcp_nip_disconnect sk flags).2 in
  let sk2 := (tcp_nip_disconnect sk1 flags').2 in
  sk_state sk2 = TCP_CLOSE
  /\ sk_trace sk2 = sk_trace sk1 ++ [tcp_nip_clear_xmit_timers; sk_error_report]
  /\ sk_err sk2 = sk_err sk1
  /\ count_event tcp_nip_send_active_reset (sk_trace sk2)
     = count_event tcp_nip_send_active_reset (sk_trace sk1)
  /\ count_event inet_csk_listen_stop (sk_trace sk2)
     = count_event inet_csk_listen_stop (sk_trace sk1).
Proof.
  intros sk1 sk2.
  destruct (disconnect_closed sk1 flags' (disconnect_state sk flags)) as [Htr Herr].
  split; [apply disconnect_state|]. split; [exact Htr|]. split; [exact Herr|].
  subst sk2. rewrite Htr, !count_event_app.
  change (count_event tcp_nip_send_active_reset
            [tcp_nip_clear_xmit_timers; sk_error_report]) with 0%nat.
  change (count_event inet_csk_listen_stop
            [tcp_nip_clear_xmit_timers; sk_error_report]) with 0%nat.
  lia.
Qed.

(** ** Ingress: return value, references and the reset *)

Lemma shiftl_2_mul_4 (x : Z) : Z.shiftl x 2 = x * TCP_NUM_4.
Proof. rewrite Z.shiftl_mul_pow2 by lia. reflexivity. Qed.

(** X12.  The reset that answers a segment and the control block that
    [tcp_nip_fill_cb] computes for it agree: for a segment without ACK the
    reset acknowledges the [end_seq] of the control block, for a segment
    with ACK it takes its sequence number from the [ack_seq] of the control
    block; a segment with RST set gets no reset. *)
Theorem send_reset_agrees_with_cb (skb : sk_buff) :
  let cb := tcp_nip_fill_cb skb (data skb) in
  tcp_nip_send_reset skb =
    if negb (rst (data skb) =? 0) then []
    else if negb (ack (data skb) =? 0)
         then [tcp_nip_actual_send_reset (cb_ack_seq cb) 0]
         else [tcp_nip_actual_send_reset 0 (cb_end_seq cb)].
Proof.
  intros cb. subst cb. unfold tcp_nip_send_reset, tcp_nip_fill_cb.
  rewrite shiftl_2_mul_4. destruct skb. reflexivity.
Qed.

(** X13.  What [close] would count for a segment as [tcp_nip_fill_cb]
    recorded it: when the FIN bit of the flag byte is the [fin] field of
    the header, the payload length plus one for a SYN.  The FIN itself is
    not counted. *)
Theorem filled_segment_unread_payload (skb : sk_buff) (th : tcphdr) :
  fin th = Z.land (tcp_flag_byte th) TCPHDR_FIN ->
  data_was_unread [tcp_nip_fill_cb skb th] 0
  = to_int (syn th + len skb - doff th * TCP_NUM_4).
Proof.
  intros Hfin.
  rewrite data_was_unread_sum by reflexivity.
  apply to_int_congr. cbn [foldr]. rewrite Z.add_0_l, Z.add_0_r.
  unfold unread_len, tcp_nip_fill_cb.
  destruct skb. cbn [set_tcp_skb_cb cb_end_seq cb_seq cb_tcp_flags len].
  rewrite <- Hfin.
  assert (fin th = 0 \/ fin th = 1) as Hbit.
  { rewrite Hfin. unfold TCPHDR_FIN.
    assert (Z.land (tcp_flag_byte th) 1 = tcp_flag_byte th `mod` 2) as ->
      by (apply (Z.land_ones _ 1); lia).
    pose proof (Z.mod_pos_bound (tcp_flag_byte th) 2). lia. }
  assert ((if negb (fin th =? 0) then 1 else 0) = fin th) as ->
    by (destruct Hbit as [-> | ->]; reflexivity).
  unfold to_u32.
  rewrite <- (Zminus_mod_idemp_l (_ - _) (fin th)).
  rewrite (Zminus_mod_idemp_l _ (ntohl _)), Zminus_mod_idemp_l.
  f_equal. lia.
Qed.

(** Counting in a trace whose actions are known. *)
Ltac count_trace :=
  unfold count_action, count_resets; cbn;
  repeat case_decide; try discriminate; try congruence; cbn [length];
  first [lia | intros _; auto].

Section IngressMore.

Variable nip_check_sum_parse : list Z -> Z -> nip_pseudo_header -> Z.
Variable __ninet_lookup_skb : sk_buff -> option (sock * bool).
Variable tcp_filter : sock -> sk_buff -> bool.
Variable rsk_listener : sock -> sock.
Variable tcp_nip_check_req : sock -> sk_buff -> sock -> check_req_result.
Variable tcp_nip_child_process : sock -> sock -> sk_buff -> Z.
Variable rcv_state_process : sock -> sk_buff -> Z.
Variable sock_owned_by_user : sock -> bool.
Variable tcp_nip_add_backlog : sock -> sk_buff -> bool.

Abbreviation input_checksum' := (nip_get_tcp_input_checksum nip_check_sum_parse).
Abbreviation do_rcv' := (tcp_nip_do_rcv rcv_state_process).
Abbreviation rcv' :=
  (tcp_nip_rcv nip_check_sum_parse __ninet_lookup_skb tcp_filter rsk_listener
     tcp_nip_check_req tcp_nip_child_process rcv_state_process sock_owned_by_user
     tcp_nip_add_backlog).

(** The segment handler of a socket reports 0 whatever the state machine
    said, and frees the segment when the state machine refused it. *)
Lemma do_rcv_cases (sk : sock) (skb : sk_buff) :
  (do_rcv' sk skb).1 = 0
  /\ (do_rcv' sk skb).2 ∈
       [[tcp_nip_rcv_established]; [tcp_nip_rcv_state_process; kfree_skb];
        [tcp_nip_rcv_state_process]].
Proof.
  unfold tcp_nip_do_rcv. repeat case_match; cbn [fst snd]; split;
    try reflexivity; set_solver.
Qed.

(** X14.  [tcp_nip_rcv] returns 0 for every segment: the handler of the
    socket never reports a failure, so the -1 of the common exit is never
    produced. *)
Theorem rcv_returns_zero (skb : sk_buff) : (rcv' skb).1 = 0.
Proof.
  unfold tcp_nip_rcv.
  repeat case_match; cbn [fst snd]; try reflexivity;
    match goal with
    | Hn : negb (0 =? 0) = true |- _ => discriminate Hn
    | H : do_rcv' ?sk ?skb = (?ret, _) |- _ =>
        pose proof (proj1 (do_rcv_cases sk skb)) as Hz; rewrite H in Hz;
        cbn [fst] in Hz;
        match goal with Hn : negb (ret =? 0) = true |- _ =>
          rewrite Hz in Hn; discriminate Hn end
    end.
Qed.

(** The traces [tcp_nip_rcv] can leave, by what the lookup found. *)
Lemma rcv_trace_cases (skb : sk_buff) :
  (__ninet_lookup_skb skb = None
   /\ pkt_type skb = PACKET_HOST /\ input_checksum' skb = true /\ 5 <= doff (data skb)
   /\ (rcv' skb).2 = [ninet_lookup_skb] ++ tcp_nip_send_reset skb ++ [kfree_skb])
  \/ (exists put : list rcv_action,
        (put = [] \/ put = [sock_put])
        /\ (rcv' skb).2 ∈
             [[kfree_skb];
              [ninet_lookup_skb; kfree_skb];
              [ninet_lookup_skb; sock_hold; reqsk_put; sk_drops_add; sock_put; kfree_skb];
              [ninet_lookup_skb; sock_hold; sk_drops_add; sock_put; kfree_skb];
              [ninet_lookup_skb; sock_hold; sock_put];
              [ninet_lookup_skb; sk_drops_add] ++ put ++ [kfree_skb];
              [ninet_lookup_skb; tcp_nip_rcv_established] ++ put;
              [ninet_lookup_skb; tcp_nip_rcv_state_process; kfree_skb] ++ put;
              [ninet_lookup_skb; tcp_nip_rcv_state_process] ++ put;
              [ninet_lookup_skb; sk_add_backlog; sk_drops_add] ++ put ++ [kfree_skb];
              [ninet_lookup_skb; sk_add_backlog] ++ put]).
Proof.
  unfold tcp_nip_rcv, tcp_nip_do_rcv. cbv zeta.
  destruct (negb (pkt_type skb =? PACKET_HOST)) eqn:Ehost;
    [right; exists []; split; [auto|]; cbn [snd]; set_solver|].
  destruct (negb (input_checksum' skb)) eqn:Esum;
    [right; exists []; split; [auto|]; cbn [snd]; set_solver|].
  destruct (doff (data skb) <? 20 / TCP_NUM_4) eqn:Edoff;
    [right; exists []; split; [auto|]; cbn [snd]; set_solver|].
  apply negb_false_iff in Ehost, Esum. apply Z.eqb_eq in Ehost.
  apply Z.ltb_ge in Edoff. change (20 / TCP_NUM_4) with 5 in Edoff.
  destruct (__ninet_lookup_skb skb) as [[sk refcounted]|]; [right|left; auto].
  exists (if refcounted then [sock_put] else []).
  split; [destruct refcounted; auto|].
  repeat case_match; cbn [fst snd app]; simplify_eq; cbn [app];
    repeat first [ apply list_elem_of_here | apply list_elem_of_further ].
Qed.

(** X15.  No segment is freed twice and no reference is released twice;
    a reset is sent at most once, and only for a segment for the local
    host with a good checksum and a full header for which no socket was
    found and which is not itself a reset. *)
Theorem rcv_frees_once_resets_unmatched (skb : sk_buff) :
  (count_action kfree_skb (rcv' skb).2 <= 1)%nat
  /\ (count_action sock_put (rcv' skb).2 <= 1)%nat
  /\ (count_resets (rcv' skb).2 <= 1)%nat
  /\ ((0 < count_resets (rcv' skb).2)%nat ->
      pkt_type skb = PACKET_HOST /\ input_checksum' skb = true
      /\ 5 <= doff (data skb) /\ __ninet_lookup_skb skb = None
      /\ rst (data skb) = 0).
Proof.
  destruct (rcv_trace_cases skb)
    as [(Hnone & Hhost & Hsum & Hdoff & Htr) | (put & Hput & Hin)].
  - rewrite Htr, send_reset_cases.
    destruct (negb (rst (data skb) =? 0)) eqn:Er.
    + split; [|split; [|split]]; count_trace.
    + apply negb_false_iff, Z.eqb_eq in Er.
      split; [|split; [|split]]; count_trace.
  - repeat (apply elem_of_cons in Hin as [-> | Hin];
            [destruct Hput as [-> | ->]; (split; [|split; [|split]]; count_trace)|]).
    apply elem_of_nil in Hin. contradiction.
Qed.

(** X16.  References on the socket the lookup found.  For a request
    socket the handler takes one reference on the listener and releases
    one, on each of its paths.  For a socket in TimeWait the segment is
    only freed and no reference is released.  For every other socket no
    reference is taken, and one is released exactly when the lookup took
    one. *)
Theorem rcv_reference_balance (skb : sk_buff) (sk : sock) (refcounted : bool) :
  pkt_type skb = PACKET_HOST ->
  input_checksum' skb = true ->
  5 <= doff (data skb) ->
  __ninet_lookup_skb skb = Some (sk, refcounted) ->
  let tr := (rcv' skb).2 in
  if sk_state sk =? TCP_TIME_WAIT then tr = [ninet_lookup_skb; kfree_skb]
  else if sk_state sk =? TCP_NEW_SYN_RECV
  then count_action sock_hold tr = 1%nat /\ count_action sock_put tr = 1%nat
  else count_action sock_hold tr = 0%nat
       /\ count_action sock_put tr = (if refcounted then 1%nat else 0%nat).
Proof.
  intros Hhost Hsum Hdoff Hsk tr. subst tr.
  unfold tcp_nip_rcv, tcp_nip_do_rcv. cbv zeta.
  rewrite Hhost, Hsum, Hsk. cbn [negb].
  change (PACKET_HOST =? PACKET_HOST) with true. cbn [negb].
  destruct (doff (data skb) <? 20 / TCP_NUM_4) eqn:E;
    [apply Z.ltb_lt in E; change (20 / TCP_NUM_4) with 5 in E; lia|].
  destruct (sk_state sk =? TCP_TIME_WAIT); [reflexivity|].
  destruct (sk_state sk =? TCP_NEW_SYN_RECV).
  - repeat case_match; cbn [fst snd app]; split; count_trace.
  - destruct refcounted; repeat case_match; cbn [fst snd app]; simplify_eq;
      split; count_trace.
Qed.

End IngressMore.

(** ** The write queue *)

Lemma add_write_queue_tail_fields (skb : sk_buff) (sk : sock) :
  sk_write_queue (tcp_nip_add_write_queue_tail skb sk) = sk_write_queue sk ++ [skb]
  /\ sk_send_head (tcp_nip_add_write_queue_tail skb sk)
     = Some (default skb (sk_send_head sk)).
Proof.
  unfold tcp_nip_add_write_queue_tail. destruct sk as [? ? ? ? [h|] ? ? ? ? ? ? ? ? ? ? ? ? ?];
    cbn; auto.
Qed.

(** X17.  Segments appended to the write queue stay in order behind what
    was queued; the send head stays where it was, or becomes the first
    segment appended when there was none; and the send head remains a
    segment of the queue.  After [tcp_nip_write_queue_purge] the queue is
    empty and there is no send head. *)
Theorem write_queue_tail_keeps_send_head (sk : sock) (skbs : list sk_buff) :
  send_head_queued sk ->
  let sk' := foldl (fun s skb => tcp_nip_add_write_queue_tail skb s) sk skbs in
  sk_write_queue sk' = sk_write_queue sk ++ skbs
  /\ sk_send_head sk' =
       match sk_send_head sk with Some h => Some h | None => head skbs end
  /\ send_head_queued sk'
  /\ tcp_nip_write_queue_empty sk'
     = tcp_nip_write_queue_empty sk && bool_decide (skbs = [])
  /\ sk_write_queue (tcp_nip_write_queue_purge sk') = []
  /\ sk_send_head (tcp_nip_write_queue_purge sk') = None.
Proof.
  intros Hinv sk'.
  assert (sk_write_queue sk' = sk_write_queue sk ++ skbs
          /\ sk_send_head sk' =
               match sk_send_head sk with Some h => Some h | None => head skbs end
          /\ send_head_queued sk') as (Hq & Hh & Hinv').
  { subst sk'. revert sk Hinv. induction skbs as [|skb skbs IH]; intros sk Hinv.
    - cbn. rewrite app_nil_r. destruct (sk_send_head sk); auto.
    - cbn [foldl].
      destruct (add_write_queue_tail_fields skb sk) as [Hq1 Hh1].
      assert (send_head_queued (tcp_nip_add_write_queue_tail skb sk)) as Hinv1.
      { unfold send_head_queued in *. rewrite Hh1, Hq1.
        destruct (sk_send_head sk) as [h|]; cbn [default].
        - apply elem_of_app. left. exact Hinv.
        - apply elem_of_app. right. apply list_elem_of_singleton. reflexivity. }
      destruct (IH _ Hinv1) as (Hq & Hh & Hinv2).
      rewrite Hq, Hh, Hq1, Hh1, <- app_assoc.
      split; [reflexivity|]. split; [|exact Hinv2].
      destruct (sk_send_head sk); reflexivity. }
  split; [exact Hq|]. split; [exact Hh|]. split; [exact Hinv'|].
  split.
  - unfold tcp_nip_write_queue_empty. rewrite Hq.
    destruct (sk_write_queue sk); cbn [app andb]; [|reflexivity].
    destruct skbs; reflexivity.
  - destruct sk'. split; reflexivity.
Qed.

Lemma write_queue_tail_keeps_send_head_witness :
  send_head_queued sock0
  /\ (let sk' := foldl (fun s skb => tcp_nip_add_write_queue_tail skb s) sock0
                   [skb_syn; skb0] in
      sk_write_queue sk' = [skb_syn; skb0] /\ sk_send_head sk' = Some skb_syn).
Proof.
  assert (send_head_queued sock0) as H by exact I.
  split; [exact H|].
  destruct (write_queue_tail_keeps_send_head sock0 [skb_syn; skb0] H) as (Hq & Hh & _).
  split; [exact Hq | exact Hh].
Defined.

(** ** Connect: validation and failure *)

Section ConnectMore.

Variable sizeof_sockaddr_nin : Z.
Variable AF_NINET : Z.
Variable nip_dst_lookup_flow : sock -> nip_addr -> Z -> Z + nip_addr.
Variable nip_any_addr : nip_addr.
Variable nip_addr_eq : nip_addr -> nip_addr -> bool.
Variable nip_addr_invalid : nip_addr -> bool.
Variable ninet_hash_connect : sock -> Z * sock.
Variable ts_recent_stamp : sock -> Z.
Variable repair : sock -> Z.
Variable secure_tcp_nip_sequence_number : nip_addr -> nip_addr -> Z -> Z -> Z.
Variable __tcp_nip_connect : sock -> Z * sock.

Abbreviation connect' :=
  (tcp_nip_connect sizeof_sockaddr_nin AF_NINET nip_dst_lookup_flow nip_any_addr
     nip_addr_eq nip_addr_invalid ninet_hash_connect ts_recent_stamp repair
     secure_tcp_nip_sequence_number __tcp_nip_connect).

Lemma connect_fields (s : sock) :
  (forall v, sk_state (upd_inet v s) = sk_state s)
  /\ (forall v, inet_dport (inet_sk (upd_inet (set_inet_dport v) s)) = v)
  /\ (forall v, sk_state (set_sk_nip_rcv_saddr v s) = sk_state s)
  /\ (forall v, sk_state (tcp_set_state v s) = v).
Proof. destruct s as [? ? ? ? ? ? ? ? ? ? ? ? ? ? ? [] ? ?]. repeat split. Qed.

(** X18.  [connect] refuses an address that is too short with [-EINVAL]
    and one of another family with [-EAFNOSUPPORT], and then leaves the
    socket as it is.  Every later failure, whatever its cause, leaves the
    socket without a peer port, and either in the state it was in (the
    route or an address was refused) or in Closed (the port could not be
    bound or the SYN could not be sent). *)
Theorem connect_failure_cleanup (sk : sock) (usin : sockaddr_nin) (addr_len : Z) :
  let r := connect' sk usin addr_len in
  (to_size_t addr_len < sizeof_sockaddr_nin -> r = (- EINVAL, sk))
  /\ (sizeof_sockaddr_nin <= to_size_t addr_len -> sin_family usin <> AF_NINET ->
      r = (- EAFNOSUPPORT, sk))
  /\ (sizeof_sockaddr_nin <= to_size_t addr_len -> sin_family usin = AF_NINET ->
      r.1 <> 0 ->
      inet_dport (inet_sk r.2) = 0
      /\ (sk_state r.2 = sk_state sk \/ sk_state r.2 = TCP_CLOSE)).
Proof.
  intros r. subst r. unfold tcp_nip_connect. cbv zeta.
  destruct (to_size_t addr_len <? sizeof_sockaddr_nin) eqn:Elen;
    [apply Z.ltb_lt in Elen | apply Z.ltb_ge in Elen].
  { split; [reflexivity|]. split; intros; lia. }
  split; [intros; lia|].
  destruct (negb (sin_family usin =? AF_NINET)) eqn:Efam.
  { apply negb_true_iff, Z.eqb_neq in Efam. split; [reflexivity|]. intros; congruence. }
  apply negb_false_iff, Z.eqb_eq in Efam.
  split; [intros; congruence|]. intros _ _.
  destruct (nip_dst_lookup_flow sk (sin_addr usin) (sk_bound_dev_if sk)) as [err|saddr].
  { intros _. cbn [fst snd]. rewrite !(proj1 (connect_fields _)).
    rewrite (proj1 (proj2 (connect_fields _))). auto. }
  set (sk1 := if nip_addr_eq (sk_nip_rcv_saddr sk) nip_any_addr
              then set_sk_nip_rcv_saddr saddr sk else sk).
  assert (sk_state sk1 = sk_state sk) as Hst1.
  { subst sk1. destruct (nip_addr_eq _ _); [|reflexivity].
    apply (proj1 (proj2 (proj2 (connect_fields _)))). }
  destruct (nip_addr_invalid (sin_addr usin)).
  { intros _. cbn [fst snd]. rewrite !(proj1 (connect_fields _)).
    rewrite (proj1 (proj2 (connect_fields _))). auto. }
  destruct (nip_addr_invalid (sk_nip_rcv_saddr sk1)).
  { intros _. cbn [fst snd]. rewrite !(proj1 (connect_fields _)).
    rewrite (proj1 (proj2 (connect_fields _))). auto. }
  destruct (ninet_hash_connect _) as [err sk2].
  destruct (negb (err =? 0)) eqn:Eerr.
  { intros _. cbn [fst snd]. rewrite !(proj1 (connect_fields _)).
    rewrite (proj1 (proj2 (connect_fields _))).
    rewrite (proj2 (proj2 (proj2 (connect_fields _)))). auto. }
  destruct (__tcp_nip_connect _) as [err' sk3].
  destruct (negb (err' =? 0)) eqn:Eerr'.
  { intros _. cbn [fst snd]. rewrite !(proj1 (connect_fields _)).
    rewrite (proj1 (proj2 (connect_fields _))).
    rewrite (proj2 (proj2 (proj2 (connect_fields _)))). auto. }
  cbn [fst]. intros H. congruence.
Qed.

End ConnectMore.

Lemma connect_failure_cleanup_witness :
  (24 <= to_size_t 24 /\ sin_family usin_b = 45)
  /\ connect_with route_unreachable hash_connect_ok sock0 usin_b 24
     = (-101, upd_inet (set_inet_dport 0) sock0)
  /\ inet_dport (inet_sk (connect_with route_from_a hash_connect_fails sock0 usin_b 24).2) = 0
  /\ sk_state (connect_with route_from_a hash_connect_fails sock0 usin_b 24).2 = TCP_CLOSE
  /\ (connect_with route_from_a hash_connect_ok sock0 usin_b 24).1 = 0.
Proof.
  assert (24 <= to_size_t 24) as H1 by (vm_compute; discriminate).
  assert (sin_family usin_b = 45) as H2 by reflexivity.
  split; [auto|]. split; [reflexivity|].
  destruct (connect_failure_cleanup 24 45 route_from_a addr_any addr_eq addr_valid
              hash_connect_fails no_stamp no_stamp secure_seq_const send_syn_ok
              sock0 usin_b 24) as (_ & _ & Hfail).
  destruct (Hfail H1 H2) as [Hport _]; [vm_compute; discriminate|].
  split; [exact Hport|]. split; reflexivity.
Defined.

(** ** The size goal of a send *)

Section SizeGoalMore.

Variable MAX_TCP_HEADER : Z.
Variable tcp_bound_to_half_wnd : Z -> Z.

Abbreviation size_goal' := (tcp_xmit_size_goal MAX_TCP_HEADER tcp_bound_to_half_wnd).

Lemma max_multiple (k m : Z) :
  0 <= k -> 0 < m -> Z.max (k * m) m mod m = 0 /\ m <= Z.max (k * m) m.
Proof.
  intros Hk Hm. split; [|lia].
  destruct (Z.eq_dec k 0) as [->|Hne].
  - rewrite Z.mul_0_l, Z.max_r by lia. apply Z_mod_same_full.
  - rewrite Z.max_l by nia. apply Z_mod_mult.
Qed.

(** X19.  The size goal.  For a segment size [mss_now] above 0, with
    [gso_segs * mss_now] below 2^32, [tcp_xmit_size_goal] returns a goal
    that is at least [mss_now] and a multiple of [mss_now].  Without
    [large_allowed] the goal is [mss_now] and nothing is written.  With
    it, the goal is [gso_segs * mss_now] for the [gso_segs] the call
    leaves (or [mss_now] where that is 0), and is not above the bound the
    call computed from [sk_gso_max_size] and the window, unless [mss_now]
    itself is; a [gso_segs] that was recomputed is the quotient of the
    bound by [mss_now], cut to 16 bits and to [sk_gso_max_segs]. *)
Theorem xmit_size_goal_bounds (g : gso) (mss_now large_allowed : Z) :
  0 < mss_now < 2 ^ 32 ->
  0 <= gso_segs g < 2 ^ 16 ->
  gso_segs g * mss_now < 2 ^ 32 ->
  let bound :=
    to_u32 (tcp_bound_to_half_wnd
              (to_int (to_u32 (sk_gso_max_size g - 1 - MAX_TCP_HEADER)))) in
  exists goal g',
    size_goal' g mss_now large_allowed = Some (goal, g')
    /\ mss_now <= goal
    /\ goal mod mss_now = 0
    /\ (large_allowed = 0 -> goal = mss_now /\ g' = g)
    /\ (large_allowed <> 0 ->
        goal = Z.max (gso_segs g' * mss_now) mss_now
        /\ goal <= Z.max bound mss_now
        /\ (g' = g
            \/ gso_segs g'
               = Z.min (to_u16 (bound / mss_now)) (to_u16 (sk_gso_max_segs g)))).
Proof.
  intros Hmss Hsegs Hnowrap bound.
  unfold tcp_xmit_size_goal. fold bound.
  destruct (large_allowed =? 0) eqn:El; [apply Z.eqb_eq in El | apply Z.eqb_neq in El].
  { exists mss_now, g. split; [reflexivity|]. split; [lia|].
    split; [apply Z_mod_same_full|]. split; [auto|]. intros; contradiction. }
  assert (0 <= bound < 2 ^ 32) as Hbound by (apply Z.mod_pos_bound; lia).
  assert (to_u32 (gso_segs g * mss_now) = gso_segs g * mss_now) as Hsize
    by (apply Z.mod_small; nia).
  rewrite Hsize.
  destruct ((bound <? gso_segs g * mss_now)
            || (bound >=? to_u32 (gso_segs g * mss_now + mss_now))) eqn:Estale.
  - assert ((mss_now =? 0) = false) as -> by (apply Z.eqb_neq; lia).
    set (segs := Z.min (to_u16 (bound / mss_now)) (to_u16 (sk_gso_max_segs g))).
    cbn [gso_segs].
    assert (0 <= bound / mss_now) as Hq by (apply Z.div_pos; lia).
    assert (to_u16 (bound / mss_now) <= bound / mss_now) as Hcut
      by (unfold to_u16; apply Z.mod_le; lia).
    assert (0 <= to_u16 (bound / mss_now) /\ 0 <= to_u16 (sk_gso_max_segs g)) as [Hc1 Hc2]
      by (unfold to_u16; split; apply Z.mod_pos_bound; lia).
    assert (0 <= segs <= bound / mss_now) as Hs by (unfold segs; lia).
    assert (segs * mss_now <= bound) as Hle.
    { pose proof (Z.mul_div_le bound mss_now ltac:(lia)). nia. }
    assert (to_u32 (segs * mss_now) = segs * mss_now) as ->
      by (apply Z.mod_small; nia).
    destruct (max_multiple segs mss_now ltac:(lia) ltac:(lia)) as [Hmod Hge].
    eexists _, _. split; [reflexivity|]. split; [exact Hge|]. split; [exact Hmod|].
    split; [intros; contradiction|]. intros _. cbn [gso_segs].
    split; [reflexivity|]. split; [lia|]. right. reflexivity.
  - apply orb_false_iff in Estale as [E1 _]. apply Z.ltb_ge in E1.
    destruct (max_multiple (gso_segs g) mss_now ltac:(lia) ltac:(lia)) as [Hmod Hge].
    eexists _, _. split; [reflexivity|]. split; [exact Hge|]. split; [exact Hmod|].
    split; [intros; contradiction|]. intros _.
    split; [reflexivity|]. split; [lia|]. left. reflexivity.
Qed.

End SizeGoalMore.

Lemma xmit_size_goal_bounds_witness :
  (0 < 1000 < 2 ^ 32 /\ 0 <= gso_segs gso0 < 2 ^ 16 /\ gso_segs gso0 * 1000 < 2 ^ 32)
  /\ exists g',
       tcp_xmit_size_goal 320 half_wnd_unbounded gso0 1000 1 = Some (64000, g')
       /\ gso_segs g' = 64.
Proof.
  assert (0 < 1000 < 2 ^ 32) as H1 by (split; reflexivity).
  assert (0 <= gso_segs gso0 < 2 ^ 16) as H2 by (split; [discriminate | reflexivity]).
  assert (gso_segs gso0 * 1000 < 2 ^ 32) as H3 by reflexivity.
  split; [auto|].
  destruct (xmit_size_goal_bounds 320 half_wnd_unbounded gso0 1000 1 H1 H2 H3)
    as (goal & g' & Hrun & _).
  exists g'. split; [rewrite Hrun|]; revert Hrun; vm_compute; intros [= <- <-]; reflexivity.
Defined.

(** ** Connection tables: insertion, lookup and removal together *)

Lemma list_alter_insert_same {A} (f : A -> A) (l : list A) (i : nat) (x : A) :
  (i < length l)%nat -> alter f i (<[i := x]> l) = <[i := f x]> l.
Proof.
  intros Hlt. apply list_eq. intros j. destruct (decide (j = i)) as [->|Hne].
  - rewrite list_lookup_alter_eq, !list_lookup_insert_eq
      by (rewrite ?length_insert; exact Hlt).
    reflexivity.
  - rewrite list_lookup_alter_ne, !list_lookup_insert_ne by congruence. reflexivity.
Qed.

Section HashMore.

Variable jhash_1word : Z -> Z -> Z.
Variable jhash_3words : Z -> Z -> Z -> Z -> Z.
Variable net_hash_mix : Z -> Z.
Variable inet_sk_listen_hashfn : sock -> Z.
Variable ninet_ehash_secret ninet_hash_secret : Z.
Variable __ninet_ehashfn : Z -> Z -> Z -> Z -> Z -> Z.
Variable NINET_MATCH : sock -> Z -> nip_addr -> nip_addr -> Z -> Z -> bool.
Variable inet_ehash_nolisten : nat -> kernel -> kernel.
Variable SOCK_RCU_FREE : Z.
Variable sk_refcnt : sock -> Z.

Abbreviation unhash' := (ninet_unhash jhash_1word net_hash_mix inet_sk_listen_hashfn).
Abbreviation ehashfn' :=
  (ninet_ehashfn jhash_3words net_hash_mix ninet_ehash_secret ninet_hash_secret
     __ninet_ehashfn).
Abbreviation check_established' :=
  (__ninet_check_established jhash_3words net_hash_mix ninet_ehash_secret
     ninet_hash_secret __ninet_ehashfn NINET_MATCH).
Abbreviation lookup_established' :=
  (__ninet_lookup_established jhash_3words net_hash_mix ninet_ehash_secret
     ninet_hash_secret __ninet_ehashfn NINET_MATCH sk_refcnt).
Abbreviation scan' := (lookup_established_scan NINET_MATCH sk_refcnt).

Abbreviation tuple_hash' :=
  (tuple_hash jhash_3words net_hash_mix ninet_ehash_secret ninet_hash_secret
     __ninet_ehashfn).
Abbreviation established_sock' :=
  (established_sock jhash_3words net_hash_mix ninet_ehash_secret ninet_hash_secret
     __ninet_ehashfn).

(** The scan returns a socket of the chain that has the hash, matches and
    is referenced. *)
Lemma scan_sound (k : kernel) (nodes : list nat) (hash net : Z)
    (saddr daddr : nip_addr) (ports dif : Z) (sk : nat) :
  scan' k nodes hash net saddr daddr ports dif = Some sk ->
  sk ∈ nodes
  /\ exists s, socks k !! sk = Some s /\ sk_hash s = hash
       /\ NINET_MATCH s net saddr daddr ports dif = true /\ sk_refcnt s <> 0.
Proof.
  induction nodes as [|sk0 nodes IH]; cbn [lookup_established_scan]; [discriminate|].
  destruct (socks k !! sk0) as [s|] eqn:Hs.
  - destruct (negb (sk_hash s =? hash)) eqn:Eh.
    { intros H. destruct (IH H) as [Hin Hrest]. split; [apply elem_of_cons; right; exact Hin | exact Hrest]. }
    destruct (negb (NINET_MATCH s net saddr daddr ports dif)) eqn:Em.
    { intros H. destruct (IH H) as [Hin Hrest]. split; [apply elem_of_cons; right; exact Hin | exact Hrest]. }
    destruct (sk_refcnt s =? 0) eqn:Er; [discriminate|].
    intros [= <-]. split; [apply elem_of_cons; left; reflexivity|].
    apply negb_false_iff in Eh, Em. apply Z.eqb_eq in Eh. apply Z.eqb_neq in Er.
    exists s. auto.
  - intros H. destruct (IH H) as [Hin Hrest]. split; [apply elem_of_cons; right; exact Hin | exact Hrest].
Qed.

(** What the scan of [__ninet_check_established] finds, the scan of
    [__ninet_lookup_established] passes or stops at. *)
Lemma scan_none_of_not_found (k : kernel) (nodes : list nat) (hash net : Z)
    (saddr daddr : nip_addr) (ports dif : Z) :
  found_same_sk NINET_MATCH k nodes hash net saddr daddr ports dif = false ->
  scan' k nodes hash net saddr daddr ports dif = None.
Proof.
  unfold found_same_sk.
  induction nodes as [|sk0 nodes IH]; cbn [existsb lookup_established_scan];
    [reflexivity|].
  intros H. apply orb_false_iff in H as [H0 H].
  destruct (socks k !! sk0) as [s|]; [|exact (IH H)].
  apply andb_false_iff in H0 as [H0 | H0]; rewrite H0; cbn [negb]; [exact (IH H)|].
  destruct (negb (sk_hash s =? hash)); exact (IH H).
Qed.

(** The successful path of [__ninet_check_established]. *)
Lemma check_established_ok (sk : nat) (lport : Z) (k : kernel) (s : sock)
    (nodes : list nat) :
  let hash := tuple_hash' s lport in
  let head := Z.land hash (ehash_mask (hashinfo k)) in
  let lock := ehash_lock (Z.land hash (ehash_locks_mask (hashinfo k))) in
  socks k !! sk = Some s ->
  ehash (hashinfo k) !! Z.to_nat head = Some nodes ->
  found_same_sk NINET_MATCH k nodes hash (sk_net s) (sk_nip_daddr s) (sk_nip_rcv_saddr s)
    (INET_COMBINED_PORTS (inet_dport (inet_sk s)) (to_u16 lport)) (sk_bound_dev_if s)
  = false ->
  exists k',
    check_established' sk lport k = Some (0, k')
    /\ socks k' = <[sk := established_sock' s lport head]> (socks k)
    /\ hashinfo k' =
         set_ehash (<[Z.to_nat head := sk :: nodes]> (ehash (hashinfo k))) (hashinfo k)
    /\ prot_inuse k' = prot_inuse k + 1
    /\ hash_trace k' =
         hash_trace k
         ++ [spin_lock lock; write_inet_num sk (to_u16 lport);
             write_inet_sport sk (htons (to_u16 lport)); write_sk_hash sk hash;
             hlist_add_head sk (ehash_chain head); spin_unlock lock].
Proof.
  intros hash head lock Hs Hnodes Hfound.
  unfold __ninet_check_established. rewrite Hs. cbn [mbind option_bind].
  fold (tuple_hash' s lport). fold hash. fold head. fold lock.
  unfold chain_nodes. rewrite Hnodes. change (default [] (Some nodes)) with nodes.
  assert (found_same_sk NINET_MATCH (emit (spin_lock lock) k) nodes hash (sk_net s)
            (sk_nip_daddr s) (sk_nip_rcv_saddr s)
            (INET_COMBINED_PORTS (inet_dport (inet_sk s)) (to_u16 lport))
            (sk_bound_dev_if s) = false) as ->.
  { rewrite <- Hfound. unfold found_same_sk. kframe. reflexivity. }
  eexists. split; [reflexivity|].
  unfold __sk_nulls_add_node_rcu, upd_chain, established_sock. kframe.
  split; [|split; [|split]].
  - apply map_eq. intros i. destruct (decide (i = sk)) as [->|Hne].
    + rewrite lookup_insert_eq, !lookup_alter_eq, Hs. reflexivity.
    + rewrite lookup_insert_ne, !lookup_alter_ne by congruence. reflexivity.
  - f_equal. apply list_eq. intros i.
    destruct (decide (i = Z.to_nat head)) as [->|Hne].
    + rewrite list_lookup_alter_eq, Hnodes.
      rewrite list_lookup_insert_eq by (eapply lookup_lt_Some; exact Hnodes).
      reflexivity.
    + rewrite list_lookup_alter_ne, list_lookup_insert_ne by congruence. reflexivity.
  - reflexivity.
  - rewrite <- !app_assoc. reflexivity.
Qed.

(** [__ninet_check_established] returns 0 or [-EADDRNOTAVAIL], and 0 only
    when its scan found nothing. *)
Lemma check_established_ret (sk : nat) (lport : Z) (k : kernel) (s : sock) :
  socks k !! sk = Some s ->
  let found :=
    found_same_sk NINET_MATCH k
      (chain_nodes (hashinfo k)
         (ehash_chain (Z.land (tuple_hash' s lport) (ehash_mask (hashinfo k)))))
      (tuple_hash' s lport) (sk_net s) (sk_nip_daddr s) (sk_nip_rcv_saddr s)
      (INET_COMBINED_PORTS (inet_dport (inet_sk s)) (to_u16 lport)) (sk_bound_dev_if s) in
  exists k',
    check_established' sk lport k = Some (if found then - EADDRNOTAVAIL else 0, k').
Proof.
  intros Hs found. unfold __ninet_check_established. rewrite Hs. cbn [mbind option_bind].
  fold (tuple_hash' s lport).
  match goal with
  | |- context [found_same_sk _ (emit ?e k) ?n ?h ?a ?b ?c ?d ?f] =>
      assert (found_same_sk NINET_MATCH (emit e k) n h a b c d f = found) as ->
        by (unfold found, found_same_sk; kframe; reflexivity)
  end.
  destruct found; eauto.
Qed.

(** X20.  The lookup and the uniqueness check agree.  When
    [__ninet_lookup_established], asked for the connection a socket would
    have from local port [lport], returns a socket, then
    [__ninet_check_established] refuses that port with [-EADDRNOTAVAIL];
    and whenever the check returns 0, the lookup in the tables as they
    were returns nothing. *)
Theorem lookup_hit_refuses_port (sk : nat) (lport : Z) (k : kernel) (s : sock) :
  socks k !! sk = Some s ->
  let hit :=
    lookup_established' k (sk_net s) (sk_nip_daddr s) (inet_dport (inet_sk s))
      (sk_nip_rcv_saddr s) (to_u16 lport) (sk_bound_dev_if s) in
  exists ret k',
    check_established' sk lport k = Some (ret, k')
    /\ (ret = 0 \/ ret = - EADDRNOTAVAIL)
    /\ (is_Some hit -> ret = - EADDRNOTAVAIL)
    /\ (ret = 0 -> hit = None).
Proof.
  intros Hs hit.
  destruct (check_established_ret sk lport k s Hs) as [k' Hret].
  cbv zeta in Hret.
  destruct (found_same_sk _ _ _ _ _ _ _ _ _) eqn:Hfound in Hret.
  - exists (- EADDRNOTAVAIL), k'. split; [exact Hret|].
    split; [auto|]. split; [auto|]. discriminate.
  - exists 0, k'. split; [exact Hret|]. split; [auto|].
    assert (hit = None) as Hnone.
    { subst hit. unfold __ninet_lookup_established.
      apply scan_none_of_not_found. exact Hfound. }
    split; [|auto]. rewrite Hnone. intros [? [=]].
Qed.

(** X21.  Insertion, then lookup.  Once [__ninet_check_established] has
    returned 0 for a socket whose bucket exists, a lookup of its
    connection in the new tables returns that socket, provided the socket
    as it now is matches its own connection and is referenced. *)
Theorem check_established_then_lookup (sk : nat) (lport : Z) (k k' : kernel) (s : sock)
    (nodes : list nat) :
  let head := Z.land (tuple_hash' s lport) (ehash_mask (hashinfo k)) in
  let s' := established_sock' s lport head in
  socks k !! sk = Some s ->
  ehash (hashinfo k) !! Z.to_nat head = Some nodes ->
  check_established' sk lport k = Some (0, k') ->
  NINET_MATCH s' (sk_net s) (sk_nip_daddr s) (sk_nip_rcv_saddr s)
    (INET_COMBINED_PORTS (inet_dport (inet_sk s)) (to_u16 lport)) (sk_bound_dev_if s)
  = true ->
  sk_refcnt s' <> 0 ->
  socks k' !! sk = Some s'
  /\ lookup_established' k' (sk_net s) (sk_nip_daddr s) (inet_dport (inet_sk s))
       (sk_nip_rcv_saddr s) (to_u16 lport) (sk_bound_dev_if s) = Some sk.
Proof.
  intros head s' Hs Hnodes Hret Hmatch Href.
  destruct (check_established_ret sk lport k s Hs) as [k0 Hret0].
  cbv zeta in Hret0. fold head in Hret0.
  unfold chain_nodes in Hret0. rewrite Hnodes in Hret0.
  change (default [] (Some nodes)) with nodes in Hret0.
  destruct (found_same_sk _ _ _ _ _ _ _ _ _) eqn:Hfound in Hret0;
    [rewrite Hret in Hret0; discriminate|].
  destruct (check_established_ok sk lport k s nodes Hs Hnodes Hfound)
    as (k1 & Hret1 & Hsocks & Hinfo & _).
  rewrite Hret in Hret1. injection Hret1 as <-.
  assert (socks k' !! sk = Some s') as Hs'
    by (rewrite Hsocks, lookup_insert_eq; reflexivity).
  split; [exact Hs'|].
  unfold __ninet_lookup_established. cbv zeta.
  fold (tuple_hash' s lport).
  assert (ehash_mask (hashinfo k') = ehash_mask (hashinfo k)) as ->
    by (rewrite Hinfo; destruct (hashinfo k); reflexivity).
  fold head.
  assert (chain_nodes (hashinfo k') (ehash_chain head) = sk :: nodes) as ->.
  { unfold chain_nodes. rewrite Hinfo.
    assert (forall l h, ehash (set_ehash l h) = l) as -> by (intros l []; reflexivity).
    rewrite list_lookup_insert_eq by (eapply lookup_lt_Some; exact Hnodes).
    reflexivity. }
  cbn [lookup_established_scan]. rewrite Hs'.
  assert (sk_hash s' = tuple_hash' s lport) as ->.
  { unfold s', established_sock. destruct s. reflexivity. }
  rewrite Z.eqb_refl, Hmatch. cbn [negb].
  apply Z.eqb_neq in Href. rewrite Href. reflexivity.
Qed.

Lemma filter_ne_notin (sk : nat) (nodes : list nat) :
  sk ∉ nodes -> filter (fun x => x ≠ sk) nodes = nodes.
Proof.
  induction nodes as [|x nodes IH]; [reflexivity|].
  intros Hnotin. apply not_elem_of_cons in Hnotin as [Hne Hnotin].
  rewrite filter_cons_True by congruence. rewrite IH by exact Hnotin. reflexivity.
Qed.

(** X22.  Insertion, then removal.  [ninet_unhash] on a socket that
    [__ninet_check_established] has just linked (not a listener, and not
    in the chain before) takes the lock the check took, unlinks the socket
    and leaves the tables and the in-use counter as they were before the
    check; the socket keeps its port and hash. *)
Theorem check_established_then_unhash (sk : nat) (lport : Z) (k k' : kernel) (s : sock)
    (nodes : list nat) :
  let hash := tuple_hash' s lport in
  let head := Z.land hash (ehash_mask (hashinfo k)) in
  let lock := ehash_lock (Z.land hash (ehash_locks_mask (hashinfo k))) in
  socks k !! sk = Some s ->
  ehash (hashinfo k) !! Z.to_nat head = Some nodes ->
  sk ∉ nodes ->
  sk_state s <> TCP_LISTEN ->
  check_established' sk lport k = Some (0, k') ->
  exists k'',
    unhash' sk k' = Some k''
    /\ hashinfo k'' = hashinfo k
    /\ prot_inuse k'' = prot_inuse k
    /\ socks k'' =
         <[sk := set_sk_nulls_node None (established_sock' s lport head)]> (socks k)
    /\ hash_trace k'' =
         hash_trace k' ++ [spin_lock lock; hlist_del sk; spin_unlock lock].
Proof.
  intros hash head lock Hs Hnodes Hnotin Hstate Hret.
  destruct (check_established_ret sk lport k s Hs) as [k0 Hret0].
  cbv zeta in Hret0. fold hash in Hret0. fold head in Hret0.
  unfold chain_nodes in Hret0. rewrite Hnodes in Hret0.
  change (default [] (Some nodes)) with nodes in Hret0.
  destruct (found_same_sk _ _ _ _ _ _ _ _ _) eqn:Hfound in Hret0;
    [rewrite Hret in Hret0; discriminate|].
  destruct (check_established_ok sk lport k s nodes Hs Hnodes Hfound)
    as (k1 & Hret1 & Hsocks & Hinfo & Hinuse & _).
  rewrite Hret in Hret1. injection Hret1 as <-.
  fold hash in Hsocks, Hinfo. fold head in Hsocks, Hinfo.
  set (s' := established_sock' s lport head) in *.
  assert (socks k' !! sk = Some s') as Hs'
    by (rewrite Hsocks, lookup_insert_eq; reflexivity).
  assert (sk_state s' = sk_state s /\ sk_hash s' = hash
          /\ sk_nulls_node s' = Some (ehash_chain head)) as (Hst' & Hh' & Hn')
    by (unfold s', established_sock; destruct s; auto).
  unfold ninet_unhash. rewrite Hs'. cbn [mbind option_bind].
  unfold sk_unhashed. rewrite Hn', Hst'.
  apply Z.eqb_neq in Hstate. rewrite Hstate, Hh'.
  assert (ehash_locks_mask (hashinfo k') = ehash_locks_mask (hashinfo k)) as ->
    by (rewrite Hinfo; destruct (hashinfo k); reflexivity).
  fold lock.
  unfold __sk_nulls_del_node_init_rcu. kframe. rewrite Hs'.
  cbn [fmap option_fmap option_map]. rewrite Hn'.
  eexists. split; [reflexivity|]. kframe.
  split; [|split; [|split]].
  - unfold upd_chain. rewrite Hinfo.
    assert (forall l h, ehash (set_ehash l h) = l) as -> by (intros l []; reflexivity).
    assert (forall l l' h, set_ehash l (set_ehash l' h) = set_ehash l h) as ->
      by (intros l l' []; reflexivity).
    rewrite list_alter_insert_same by (eapply lookup_lt_Some; exact Hnodes).
    rewrite filter_cons_False by (intros H; apply H; reflexivity).
    rewrite filter_ne_notin by exact Hnotin.
    rewrite list_insert_id by exact Hnodes.
    destruct (hashinfo k); reflexivity.
  - rewrite Hinuse. lia.
  - rewrite Hsocks. apply map_eq. intros i. destruct (decide (i = sk)) as [->|Hne].
    + rewrite lookup_alter_eq, !lookup_insert_eq. reflexivity.
    + rewrite lookup_alter_ne, !lookup_insert_ne by congruence. reflexivity.
  - rewrite <- !app_assoc. reflexivity.
Qed.

Lemma ehash_set_ehash (l : list (list nat)) (h : inet_hashinfo) :
  ehash (set_ehash l h) = l.
Proof. destruct h. reflexivity. Qed.

Lemma ehash_set_listening_hash (l : list inet_listen_hashbucket) (h : inet_hashinfo) :
  ehash (set_listening_hash l h) = ehash h.
Proof. destruct h. reflexivity. Qed.

Lemma ehash_set_lhash2 (l : option (list inet_listen_hashbucket)) (h : inet_hashinfo) :
  ehash (set_lhash2 l h) = ehash h.
Proof. destruct h. reflexivity. Qed.

Lemma nulls_node_alter (f : sock -> sock) (m : gmap nat sock) (sk i : nat) :
  (forall s, sk_nulls_node (f s) = sk_nulls_node s) ->
  sk_nulls_node <$> alter f sk m !! i = sk_nulls_node <$> m !! i.
Proof.
  intros Hf. rewrite lookup_alter. case_decide; [subst i|reflexivity].
  destruct (m !! sk); cbn; [rewrite Hf|]; reflexivity.
Qed.

Lemma nulls_node_alter_set (v : option chain) (m : gmap nat sock) (sk i : nat) :
  is_Some (m !! sk) ->
  sk_nulls_node <$> alter (set_sk_nulls_node v) sk m !! i
  = if decide (i = sk) then Some v else sk_nulls_node <$> m !! i.
Proof.
  intros [s Hs]. rewrite lookup_alter.
  destruct (decide (i = sk)) as [->|Hne]; [|rewrite decide_False by congruence; reflexivity].
  rewrite decide_True by reflexivity. rewrite Hs. destruct s. reflexivity.
Qed.

(** X23.  [__ninet_check_established], called on an unhashed socket with
    a mask that is not negative, keeps the established table well formed:
    whether it links the socket or refuses the port, every socket in a
    chain is a socket whose node names that chain. *)
Theorem check_established_keeps_wf (sk : nat) (lport : Z) (k k' : kernel) (s : sock)
    (ret : Z) :
  ehash_wf k ->
  0 <= ehash_mask (hashinfo k) ->
  socks k !! sk = Some s ->
  sk_unhashed s = true ->
  check_established' sk lport k = Some (ret, k') ->
  ehash_wf k'.
Proof.
  intros Hwf Hmask Hs Hun.
  unfold __ninet_check_established. rewrite Hs. cbn [mbind option_bind].
  fold (tuple_hash' s lport).
  set (head := Z.land (tuple_hash' s lport) (ehash_mask (hashinfo k))).
  assert (0 <= head) as Hhead by (apply Z.land_nonneg; right; exact Hmask).
  assert (forall i nodes, ehash (hashinfo k) !! i = Some nodes -> sk ∉ nodes) as Hfresh.
  { intros i nodes Hi Hin. specialize (Hwf i nodes sk Hi Hin).
    rewrite Hs in Hwf. unfold sk_unhashed in Hun. cbn in Hwf.
    destruct (sk_nulls_node s); [discriminate | congruence]. }
  destruct (found_same_sk _ _ _ _ _ _ _ _ _).
  - intros [= _ <-]. intros i nodes sk0. kframe. apply Hwf.
  - intros [= _ <-]. intros i nodes sk0.
    unfold __sk_nulls_add_node_rcu, upd_chain. kframe. rewrite ehash_set_ehash.
    rewrite nulls_node_alter_set
      by (rewrite !lookup_alter_eq, Hs; cbn; eauto).
    rewrite !nulls_node_alter by (intros []; reflexivity).
    destruct (decide (i = Z.to_nat head)) as [->|Hne].
    + rewrite list_lookup_alter_eq.
      destruct (ehash (hashinfo k) !! Z.to_nat head) as [nodes0|] eqn:Hn; [|discriminate].
      intros [= <-] Hin. rewrite Z2Nat.id by exact Hhead.
      destruct (decide (sk0 = sk)) as [->|Hne]; [reflexivity|].
      apply elem_of_cons in Hin as [Hin | Hin]; [congruence|].
      rewrite <- (Z2Nat.id head) by exact Hhead. apply (Hwf _ nodes0); assumption.
    + rewrite list_lookup_alter_ne by congruence. intros Hi Hin.
      destruct (decide (sk0 = sk)) as [->|Hne0];
        [exfalso; exact (Hfresh i nodes Hi Hin)|].
      apply (Hwf _ nodes); assumption.
Qed.

(** What [ninet_unhash] does to the established table and to the nodes
    of the sockets. *)
Lemma unhash_ehash (sk : nat) (k k' : kernel) (s : sock) :
  socks k !! sk = Some s ->
  unhash' sk k = Some k' ->
  ehash (hashinfo k') =
    match sk_nulls_node s with
    | Some (ehash_chain h) =>
        alter (filter (fun x => x ≠ sk)) (Z.to_nat h) (ehash (hashinfo k))
    | _ => ehash (hashinfo k)
    end
  /\ forall i, sk_nulls_node <$> socks k' !! i =
               if decide (i = sk) then Some None else sk_nulls_node <$> socks k !! i.
Proof.
  intros Hs. unfold ninet_unhash. rewrite Hs. cbn [mbind option_bind].
  unfold sk_unhashed. destruct (sk_nulls_node s) as [c|] eqn:Hn.
  2:{ intros [= <-]. split; [reflexivity|]. intros i.
      case_decide; [subst i; rewrite Hs; cbn; rewrite Hn|]; reflexivity. }
  intros [= <-]. kframe.
  set (k0 := match (if sk_state s =? TCP_LISTEN then Some (inet_sk_listen_hashfn s) else None)
             with Some i => _ | None => _ end).
  assert (ehash (hashinfo k0) = ehash (hashinfo k)
          /\ forall i, sk_nulls_node <$> socks k0 !! i = sk_nulls_node <$> socks k !! i)
    as [Hek Hnk].
  { subst k0. destruct (sk_state s =? TCP_LISTEN); kframe; [|auto].
    rewrite ehash_set_listening_hash.
    split; [|intros i; rewrite unhash2_nulls_node; kframe; reflexivity].
    unfold ninet_unhash2. kframe.
    destruct (lhash2 (hashinfo k)); [|kframe; reflexivity].
    destruct (icsk_listen_portaddr_node s); kframe; [|reflexivity].
    rewrite ehash_set_lhash2. reflexivity. }
  clearbody k0.
  assert (exists s0, socks k0 !! sk = Some s0 /\ sk_nulls_node s0 = Some c)
    as (s0 & Hs0 & Hn0).
  { specialize (Hnk sk). rewrite Hs in Hnk. cbn in Hnk. rewrite Hn in Hnk.
    destruct (socks k0 !! sk) as [s0|]; [|discriminate].
    injection Hnk as Hnk. eauto. }
  unfold __sk_nulls_del_node_init_rcu. rewrite Hs0.
  cbn [fmap option_fmap option_map]. rewrite Hn0. kframe.
  split.
  - unfold upd_chain. destruct c; [rewrite ehash_set_ehash | rewrite ehash_set_listening_hash];
      rewrite Hek; reflexivity.
  - intros i. rewrite nulls_node_alter_set by eauto.
    destruct (decide (i = sk)); [reflexivity | apply Hnk].
Qed.

(** X24.  [ninet_unhash] keeps the established table well formed, and a
    socket it has unhashed is in no chain of the table, so that no
    [__ninet_lookup_established] returns it. *)
Theorem unhash_keeps_wf_and_hides (sk : nat) (k k' : kernel) :
  ehash_wf k ->
  unhash' sk k = Some k' ->
  ehash_wf k'
  /\ (forall i nodes, ehash (hashinfo k') !! i = Some nodes -> sk ∉ nodes)
  /\ (forall net saddr sport daddr hnum dif,
        lookup_established' k' net saddr sport daddr hnum dif <> Some sk).
Proof.
  intros Hwf Hun.
  destruct (socks k !! sk) as [s|] eqn:Hs;
    [|unfold ninet_unhash in Hun; rewrite Hs in Hun; discriminate].
  destruct (unhash_ehash sk k k' s Hs Hun) as [He Hn].
  assert (forall i nodes, ehash (hashinfo k') !! i = Some nodes ->
            exists nodes0, ehash (hashinfo k) !! i = Some nodes0
              /\ (nodes = nodes0 \/ nodes = filter (fun x => x ≠ sk) nodes0)
              /\ (sk ∈ nodes0 -> nodes = filter (fun x => x ≠ sk) nodes0)) as Hchains.
  { intros i nodes. rewrite He.
    destruct (sk_nulls_node s) as [[h|h]|] eqn:Hnode.
    - destruct (decide (i = Z.to_nat h)) as [->|Hne].
      + rewrite list_lookup_alter_eq.
        destruct (ehash (hashinfo k) !! Z.to_nat h) as [nodes0|]; [|discriminate].
        intros [= <-]. eauto.
      + rewrite list_lookup_alter_ne by congruence. intros Hi.
        exists nodes. split; [exact Hi|]. split; [auto|].
        intros Hin. specialize (Hwf i nodes sk Hi Hin).
        rewrite Hs in Hwf. cbn in Hwf. rewrite Hnode in Hwf.
        injection Hwf as Hwf. exfalso. apply Hne. lia.
    - intros Hi. exists nodes. split; [exact Hi|]. split; [auto|].
      intros Hin. specialize (Hwf i nodes sk Hi Hin).
      rewrite Hs in Hwf. cbn in Hwf. rewrite Hnode in Hwf. discriminate.
    - intros Hi. exists nodes. split; [exact Hi|]. split; [auto|].
      intros Hin. specialize (Hwf i nodes sk Hi Hin).
      rewrite Hs in Hwf. cbn in Hwf. rewrite Hnode in Hwf. discriminate. }
  assert (forall i nodes, ehash (hashinfo k') !! i = Some nodes -> sk ∉ nodes) as Hgone.
  { intros i nodes Hi Hin. destruct (Hchains i nodes Hi) as (nodes0 & _ & Hor & Hin0).
    assert (nodes = filter (fun x => x ≠ sk) nodes0) as ->.
    { destruct Hor as [-> | ->]; [apply Hin0; exact Hin | reflexivity]. }
    apply list_elem_of_filter in Hin as [Hne _]. apply Hne. reflexivity. }
  split; [|split; [exact Hgone|]].
  - intros i nodes sk0 Hi Hin. rewrite Hn.
    destruct (decide (sk0 = sk)) as [->|Hne];
      [exfalso; exact (Hgone i nodes Hi Hin)|].
    destruct (Hchains i nodes Hi) as (nodes0 & Hi0 & Hor & _).
    apply (Hwf i nodes0); [exact Hi0|].
    destruct Hor as [-> | ->]; [exact Hin|].
    apply list_elem_of_filter in Hin as [_ Hin]. exact Hin.
  - intros net saddr sport daddr hnum dif Hhit.
    unfold __ninet_lookup_established in Hhit. cbv zeta in Hhit.
    apply scan_sound in Hhit as [Hin _].
    unfold chain_nodes in Hin.
    destruct (ehash (hashinfo k') !! _) as [nodes|] eqn:Hi;
      [exact (Hgone _ nodes Hi Hin) | apply elem_of_nil in Hin; exact Hin].
Qed.

End HashMore.

Lemma list_alter_fix {A} (f : A -> A) (l : list A) (i : nat) (x : A) :
  l !! i = Some x -> f x = x -> alter f i l = l.
Proof.
  intros Hi Hf. apply list_eq. intros j. destruct (decide (j = i)) as [->|Hne].
  - rewrite list_lookup_alter_eq, Hi. cbn. rewrite Hf. reflexivity.
  - rewrite list_lookup_alter_ne by congruence. reflexivity.
Qed.

Lemma listener_sock_fields (flag : Z) (p : option Z) (c : option chain) (s : sock) :
  let s1 := sock_set_flag flag
              (set_icsk_listen_portaddr_node p (set_sk_nulls_node c s)) in
  sk_state s1 = sk_state s /\ sk_nulls_node s1 = c
  /\ icsk_listen_portaddr_node s1 = p /\ sk_net s1 = sk_net s
  /\ inet_num (inet_sk s1) = inet_num (inet_sk s)
  /\ sk_nip_rcv_saddr s1 = sk_nip_rcv_saddr s.
Proof. destruct s. cbn. auto 10. Qed.

Lemma listener_sock_restore (flag : Z) (p : option Z) (c : option chain) (s : sock) :
  sk_nulls_node s = None ->
  icsk_listen_portaddr_node s = None ->
  set_sk_nulls_node None
    (set_icsk_listen_portaddr_node None
       (sock_set_flag flag (set_icsk_listen_portaddr_node p (set_sk_nulls_node c s))))
  = sock_set_flag flag s.
Proof. destruct s. cbn. intros -> ->. reflexivity. Qed.

Lemma set_portaddr_node_none (c : option chain) (s : sock) :
  icsk_listen_portaddr_node s = None ->
  set_icsk_listen_portaddr_node None (set_sk_nulls_node c s) = set_sk_nulls_node c s.
Proof. destruct s. cbn. intros ->. reflexivity. Qed.

Lemma listener_sock_restore_none (flag : Z) (c : option chain) (s : sock) :
  sk_nulls_node s = None ->
  icsk_listen_portaddr_node s = None ->
  set_sk_nulls_node None
    (sock_set_flag flag (set_icsk_listen_portaddr_node None (set_sk_nulls_node c s)))
  = sock_set_flag flag s.
Proof. destruct s. cbn. intros -> ->. reflexivity. Qed.

Section ListenMore.

Variable jhash_1word : Z -> Z -> Z.
Variable net_hash_mix : Z -> Z.
Variable inet_sk_listen_hashfn : sock -> Z.
Variable inet_ehash_nolisten : nat -> kernel -> kernel.
Variable SOCK_RCU_FREE : Z.

Abbreviation unhash'' := (ninet_unhash jhash_1word net_hash_mix inet_sk_listen_hashfn).
Abbreviation hash'' :=
  (ninet_hash jhash_1word net_hash_mix inet_sk_listen_hashfn inet_ehash_nolisten
     SOCK_RCU_FREE).
Abbreviation lhash2_bucket_sk'' := (ninet_lhash2_bucket_sk jhash_1word net_hash_mix).

(** X25.  A listener hashed, then unhashed.  When the bucket of the
    listening table depends on the namespace and the port of the socket
    only, [ninet_hash] on an unhashed listener whose buckets exist and do
    not hold it, followed by [ninet_unhash], leaves both listening tables,
    their counts and the in-use counter as they were; the socket is as
    before but for SOCK_RCU_FREE. *)
Theorem hash_then_unhash_listener (sk : nat) (k : kernel) (s : sock)
    (b : inet_listen_hashbucket) :
  (forall s1 s2, sk_net s1 = sk_net s2 -> inet_num (inet_sk s1) = inet_num (inet_sk s2) ->
                 inet_sk_listen_hashfn s1 = inet_sk_listen_hashfn s2) ->
  socks k !! sk = Some s ->
  sk_state s = TCP_LISTEN ->
  sk_nulls_node s = None ->
  icsk_listen_portaddr_node s = None ->
  listening_hash (hashinfo k) !! Z.to_nat (inet_sk_listen_hashfn s) = Some b ->
  sk ∉ ilb_head b ->
  (forall buckets, lhash2 (hashinfo k) = Some buckets ->
     exists b2, buckets !! Z.to_nat (lhash2_bucket_sk'' (hashinfo k) s) = Some b2
                /\ sk ∉ ilb_head b2) ->
  exists k1 k2,
    hash'' sk k = Some (0, k1)
    /\ unhash'' sk k1 = Some k2
    /\ prot_inuse k1 = prot_inuse k + 1
    /\ (sk_nulls_node <$> socks k1 !! sk)
       = Some (Some (listening_chain (inet_sk_listen_hashfn s)))
    /\ hashinfo k2 = hashinfo k
    /\ prot_inuse k2 = prot_inuse k
    /\ socks k2 = <[sk := sock_set_flag SOCK_RCU_FREE s]> (socks k).
Proof.
  intros Hfn Hs Hst Hnode Hport Hb Hnotin Hl2.
  destruct k as [m [e em elm lh l2 l2m] inuse tr].
  cbn [socks hashinfo listening_hash lhash2 prot_inuse] in *.
  set (i := inet_sk_listen_hashfn s) in *.
  destruct l2 as [buckets|].
  { destruct (Hl2 buckets eq_refl) as (b2 & Hb2 & Hnotin2).
    set (j := lhash2_bucket_sk'' _ s) in *.
    set (s1 := sock_set_flag SOCK_RCU_FREE
                 (set_icsk_listen_portaddr_node (Some j)
                    (set_sk_nulls_node (Some (listening_chain i)) s))).
    assert (exists k1,
              hash'' sk {| socks := m;
                           hashinfo := {| ehash := e; ehash_mask := em; ehash_locks_mask := elm;
                                          listening_hash := lh; lhash2 := Some buckets;
                                          lhash2_mask := l2m |};
                           prot_inuse := inuse; hash_trace := tr |} = Some (0, k1)
              /\ socks k1 = <[sk := s1]> m
              /\ hashinfo k1 =
                   {| ehash := e; ehash_mask := em; ehash_locks_mask := elm;
                      listening_hash :=
                        upd_bucket count_inc i
                          (upd_bucket (fun b0 => {| ilb_head := sk :: ilb_head b0;
                                                    ilb_count := ilb_count b0 |}) i lh);
                      lhash2 :=
                        Some (upd_bucket count_inc j
                                (upd_bucket (fun b0 => {| ilb_head := sk :: ilb_head b0;
                                                          ilb_count := ilb_count b0 |})
                                   j buckets));
                      lhash2_mask := l2m |}
              /\ prot_inuse k1 = inuse + 1) as (k1 & Hk1 & Hsocks1 & Hh1 & Hin1).
    { unfold ninet_hash, __ninet_hash. cbn [socks]. rewrite Hs. cbn [mbind option_bind].
      rewrite Hst. eqb_consts. cbn [negb].
      eexists. split; [reflexivity|].
      unfold __sk_nulls_add_node_rcu, ninet_hash2, upd_chain.
      cbn -[alter insert lookup filter upd_bucket ninet_lhash2_bucket_sk sock_set_flag].
      split; [|auto].
      apply map_eq. intros x. destruct (decide (x = sk)) as [->|Hne].
      - rewrite lookup_insert_eq, !lookup_alter_eq, Hs. reflexivity.
      - rewrite lookup_insert_ne, !lookup_alter_ne by congruence. reflexivity. }
    exists k1.
    assert (socks k1 !! sk = Some s1) as Hs1
      by (rewrite Hsocks1, lookup_insert_eq; reflexivity).
    destruct (listener_sock_fields SOCK_RCU_FREE (Some j) (Some (listening_chain i)) s)
      as (Hst1 & Hn1 & Hp1 & Hnet1 & Hnum1 & Haddr1).
    fold s1 in Hst1, Hn1, Hp1, Hnet1, Hnum1, Haddr1. rewrite Hst in Hst1.
    assert (inet_sk_listen_hashfn s1 = i) as Hi1 by (apply Hfn; assumption).
    assert (lhash2_bucket_sk'' (hashinfo k1) s1 = j) as Hj1.
    { unfold j, ninet_lhash2_bucket_sk. rewrite Hh1, Hnet1, Hnum1, Haddr1. reflexivity. }
    eexists. split; [exact Hk1|].
    unfold ninet_unhash. rewrite Hs1. cbn [mbind option_bind].
    unfold sk_unhashed. rewrite Hn1, Hst1. eqb_consts. rewrite Hi1.
    split; [reflexivity|]. split; [exact Hin1|].
    split; [cbn; rewrite Hn1; reflexivity|].
    set (K := ninet_unhash2 _ _ sk s1 _).
    assert (socks K = alter (set_icsk_listen_portaddr_node None) sk (socks k1)
            /\ hashinfo K =
                 set_lhash2
                   (Some (upd_bucket count_dec j
                            (upd_bucket
                               (fun b0 => {| ilb_head := filter (fun x => x ≠ sk) (ilb_head b0);
                                             ilb_count := ilb_count b0 |}) j
                               (upd_bucket count_inc j
                                  (upd_bucket (fun b0 => {| ilb_head := sk :: ilb_head b0;
                                                            ilb_count := ilb_count b0 |})
                                     j buckets)))))
                   (hashinfo k1)
            /\ prot_inuse K = prot_inuse k1) as (HsK & HhK & HiK).
    { assert (lhash2 (hashinfo k1) =
                Some (upd_bucket count_inc j
                        (upd_bucket (fun b0 => {| ilb_head := sk :: ilb_head b0;
                                                  ilb_count := ilb_count b0 |})
                           j buckets))) as Hl1 by (rewrite Hh1; reflexivity).
      subst K. unfold ninet_unhash2. kframe. rewrite Hj1, Hp1, Hl1. kframe. auto. }
    clearbody K.
    assert (forall p s0, sk_nulls_node (set_icsk_listen_portaddr_node p s0) = sk_nulls_node s0)
      as Hnp by (intros ? []; reflexivity).
    unfold __sk_nulls_del_node_init_rcu. kframe. rewrite HsK, lookup_alter_eq, Hs1.
    cbn [fmap option_fmap option_map]. rewrite Hnp, Hn1. kframe.
    split; [|split].
    - unfold upd_chain. kframe. rewrite HhK, Hh1.
      cbn [set_lhash2 set_listening_hash listening_hash lhash2]. unfold upd_bucket.
      rewrite !list_alter_alter_eq.
      assert (forall (b0 : inet_listen_hashbucket) f,
                sk ∉ ilb_head b0 ->
                (f = count_dec ∘ count_inc \/ f = count_inc ∘ count_dec \/ True) ->
                {| ilb_head := filter (fun x => x ≠ sk) (sk :: ilb_head b0);
                   ilb_count := ilb_count b0 + 1 - 1 |} = b0) as Hfix.
      { intros [hd c] f Hn _. cbn [ilb_head ilb_count] in *.
        rewrite filter_cons_False by (intros H; apply H; reflexivity).
        rewrite filter_ne_notin by exact Hn. f_equal. lia. }
      rewrite (list_alter_fix _ lh (Z.to_nat i) b Hb)
        by (apply (Hfix b id Hnotin); auto).
      rewrite (list_alter_fix _ buckets (Z.to_nat j) b2 Hb2)
        by (apply (Hfix b2 id Hnotin2); auto).
      reflexivity.
    - rewrite HiK, Hin1. lia.
    - rewrite HsK, Hsocks1. apply map_eq. intros x.
      destruct (decide (x = sk)) as [->|Hne].
      + rewrite !lookup_alter_eq, !lookup_insert_eq. cbn. f_equal.
        apply listener_sock_restore; assumption.
      + rewrite !lookup_alter_ne, !lookup_insert_ne by congruence. reflexivity. }
  { set (s1 := sock_set_flag SOCK_RCU_FREE
                 (set_icsk_listen_portaddr_node None
                    (set_sk_nulls_node (Some (listening_chain i)) s))).
    assert (exists k1,
              hash'' sk {| socks := m;
                           hashinfo := {| ehash := e; ehash_mask := em; ehash_locks_mask := elm;
                                          listening_hash := lh; lhash2 := None;
                                          lhash2_mask := l2m |};
                           prot_inuse := inuse; hash_trace := tr |} = Some (0, k1)
              /\ socks k1 = <[sk := s1]> m
              /\ hashinfo k1 =
                   {| ehash := e; ehash_mask := em; ehash_locks_mask := elm;
                      listening_hash :=
                        upd_bucket count_inc i
                          (upd_bucket (fun b0 => {| ilb_head := sk :: ilb_head b0;
                                                    ilb_count := ilb_count b0 |}) i lh);
                      lhash2 := None;
                      lhash2_mask := l2m |}
              /\ prot_inuse k1 = inuse + 1) as (k1 & Hk1 & Hsocks1 & Hh1 & Hin1).
    { unfold ninet_hash, __ninet_hash. cbn [socks]. rewrite Hs. cbn [mbind option_bind].
      rewrite Hst. eqb_consts. cbn [negb].
      eexists. split; [reflexivity|].
      unfold __sk_nulls_add_node_rcu, ninet_hash2, upd_chain.
      cbn -[alter insert lookup filter upd_bucket ninet_lhash2_bucket_sk sock_set_flag].
      split; [|auto].
      apply map_eq. intros x. destruct (decide (x = sk)) as [->|Hne].
      - rewrite lookup_insert_eq, !lookup_alter_eq, Hs. cbn. unfold s1.
        rewrite set_portaddr_node_none by exact Hport. reflexivity.
      - rewrite lookup_insert_ne, !lookup_alter_ne by congruence. reflexivity. }
    exists k1.
    assert (socks k1 !! sk = Some s1) as Hs1
      by (rewrite Hsocks1, lookup_insert_eq; reflexivity).
    destruct (listener_sock_fields SOCK_RCU_FREE None (Some (listening_chain i)) s)
      as (Hst1 & Hn1 & Hp1 & Hnet1 & Hnum1 & Haddr1).
    fold s1 in Hst1, Hn1, Hp1, Hnet1, Hnum1, Haddr1. rewrite Hst in Hst1.
    assert (inet_sk_listen_hashfn s1 = i) as Hi1 by (apply Hfn; assumption).
    eexists. split; [exact Hk1|].
    unfold ninet_unhash. rewrite Hs1. cbn [mbind option_bind].
    unfold sk_unhashed. rewrite Hn1, Hst1. eqb_consts. rewrite Hi1.
    split; [reflexivity|]. split; [exact Hin1|].
    split; [cbn; rewrite Hn1; reflexivity|].
    set (K := ninet_unhash2 _ _ sk s1 _).
    assert (socks K = socks k1 /\ hashinfo K = hashinfo k1 /\ prot_inuse K = prot_inuse k1)
      as (HsK & HhK & HiK).
    { assert (lhash2 (hashinfo k1) = None) as Hl1 by (rewrite Hh1; reflexivity).
      subst K. unfold ninet_unhash2. kframe. rewrite Hl1. kframe. auto. }
    clearbody K.
    unfold __sk_nulls_del_node_init_rcu. kframe. rewrite HsK, Hs1.
    cbn [fmap option_fmap option_map]. rewrite Hn1. kframe.
    split; [|split].
    - unfold upd_chain. kframe. rewrite HhK, Hh1.
      cbn [set_lhash2 set_listening_hash listening_hash lhash2]. unfold upd_bucket.
      rewrite !list_alter_alter_eq.
      rewrite (list_alter_fix _ lh (Z.to_nat i) b Hb); [reflexivity|].
      destruct b as [hd c]. cbn [ilb_head ilb_count compose count_inc count_dec] in *.
      rewrite filter_cons_False by (intros H; apply H; reflexivity).
      rewrite filter_ne_notin by exact Hnotin. f_equal. lia.
    - rewrite HiK, Hin1. lia.
    - rewrite HsK, Hsocks1. apply map_eq. intros x.
      destruct (decide (x = sk)) as [->|Hne].
      + rewrite !lookup_alter_eq, !lookup_insert_eq. cbn. f_equal.
        apply listener_sock_restore_none; assumption.
      + rewrite !lookup_alter_ne, !lookup_insert_ne by congruence. reflexivity. }
Qed.

End ListenMore.

(** ** The listener lookup *)

Section ListenerLookup.

Variable jhash_1word : Z -> Z -> Z.
Variable jhash_3words : Z -> Z -> Z -> Z -> Z.
Variable net_hash_mix : Z -> Z.
Variable ninet_ehash_secret ninet_hash_secret : Z.
Variable __ninet_ehashfn : Z -> Z -> Z -> Z -> Z -> Z.
Variable sk_family : sock -> Z.
Variable PF_NINET : Z.
Variable nip_any_addr : nip_addr.
Variable nip_addr_eq : nip_addr -> nip_addr -> bool.
Variable inet_sk_bound_dev_eq : Z -> Z -> Z -> Z -> bool.
Variable sk_incoming_cpu : sock -> Z.
Variable raw_smp_processor_id : Z.
Variable sk_reuseport : sock -> Z.
Variable reciprocal_scale : Z -> Z -> Z.
Variable next_pseudo_random32 : Z -> Z.

Abbreviation compute_score' :=
  (nip_tcp_compute_score sk_family PF_NINET nip_any_addr nip_addr_eq inet_sk_bound_dev_eq
     sk_incoming_cpu raw_smp_processor_id).
Abbreviation lookup_step' :=
  (lhash2_lookup_step jhash_3words net_hash_mix ninet_ehash_secret ninet_hash_secret
     __ninet_ehashfn sk_family PF_NINET nip_any_addr nip_addr_eq inet_sk_bound_dev_eq
     sk_incoming_cpu raw_smp_processor_id sk_reuseport reciprocal_scale
     next_pseudo_random32).
Abbreviation lhash2_lookup' :=
  (ninet_lhash2_lookup jhash_3words net_hash_mix ninet_ehash_secret ninet_hash_secret
     __ninet_ehashfn sk_family PF_NINET nip_any_addr nip_addr_eq inet_sk_bound_dev_eq
     sk_incoming_cpu raw_smp_processor_id sk_reuseport reciprocal_scale
     next_pseudo_random32).

(** The score, in closed form. *)
Lemma compute_score_eq (s : sock) (net hnum : Z) (daddr : nip_addr) (dif sdif : Z) :
  compute_score' s net hnum daddr dif sdif =
    if (inet_num (inet_sk s) =? hnum) && (sk_family s =? PF_NINET) && (sk_net s =? net)
       && (nip_addr_eq (sk_nip_rcv_saddr s) nip_any_addr
           || nip_addr_eq (sk_nip_rcv_saddr s) daddr)
       && inet_sk_bound_dev_eq net (sk_bound_dev_if s) dif sdif
    then 2 + (if nip_addr_eq (sk_nip_rcv_saddr s) nip_any_addr then 0 else 1)
         + (if sk_incoming_cpu s =? raw_smp_processor_id then 1 else 0)
    else -1.
Proof.
  unfold nip_tcp_compute_score. cbv zeta.
  destruct ((inet_num (inet_sk s) =? hnum) && (sk_family s =? PF_NINET)
            && (sk_net s =? net)); cbn [andb]; [|reflexivity].
  destruct (nip_addr_eq (sk_nip_rcv_saddr s) nip_any_addr); cbn [negb andb orb];
    [|destruct (nip_addr_eq (sk_nip_rcv_saddr s) daddr); cbn [negb andb];
      [|reflexivity]];
    (destruct (inet_sk_bound_dev_eq net (sk_bound_dev_if s) dif sdif); cbn [negb];
     [|reflexivity]);
    destruct (sk_incoming_cpu s =? raw_smp_processor_id); reflexivity.
Qed.

Lemma compute_score_bounds (s : sock) (net hnum : Z) (daddr : nip_addr) (dif sdif : Z) :
  compute_score' s net hnum daddr dif sdif = -1
  \/ 2 <= compute_score' s net hnum daddr dif sdif <= 4.
Proof.
  rewrite compute_score_eq. repeat case_match; lia.
Qed.

(** X26.  The score of a listener is -1, 2, 3 or 4, never 0 or 1.  It
    is positive exactly when port, family and namespace agree, the socket
    is bound to the wildcard address or to the destination address, and
    the device test passes; a socket bound to the destination address
    then scores one more than it would on the wildcard address, and
    one more again on the running processor. *)
Theorem compute_score_range (s : sock) (net hnum : Z) (daddr : nip_addr) (dif sdif : Z) :
  let score := compute_score' s net hnum daddr dif sdif in
  let any := nip_addr_eq (sk_nip_rcv_saddr s) nip_any_addr in
  let eligible :=
    (inet_num (inet_sk s) =? hnum) && (sk_family s =? PF_NINET) && (sk_net s =? net)
    && (any || nip_addr_eq (sk_nip_rcv_saddr s) daddr)
    && inet_sk_bound_dev_eq net (sk_bound_dev_if s) dif sdif in
  (score = -1 \/ 2 <= score <= 4)
  /\ score = (if eligible
              then 2 + (if any then 0 else 1)
                   + (if sk_incoming_cpu s =? raw_smp_processor_id then 1 else 0)
              else -1).
Proof.
  intros score any eligible. subst score any eligible.
  split; [apply compute_score_bounds | apply compute_score_eq].
Qed.

(** The invariant of the loop of [ninet_lhash2_lookup]: nothing found
    and nothing seen scores above 0, or the socket found has the highest
    score seen, which is positive. *)
Lemma lookup_step_invariant (k : kernel) (net : Z) (saddr : nip_addr) (sport : Z)
    (daddr : nip_addr) (hnum dif sdif : Z) (st : lhash2_scan) (seen : list nat)
    (sk : nat) :
  let score := score_of (fun s => compute_score' s net hnum daddr dif sdif) k in
  let inv (st : lhash2_scan) (seen : list nat) :=
    (result st = None /\ hiscore st = 0 /\ forall x, x ∈ seen -> score x <= 0)
    \/ (exists r, result st = Some r /\ r ∈ seen /\ score r = hiscore st
                  /\ 0 < hiscore st /\ forall x, x ∈ seen -> score x <= hiscore st) in
  inv st seen ->
  inv (lookup_step' k net saddr sport daddr hnum dif sdif st sk) (seen ++ [sk]).
Proof.
  intros score inv Hinv. subst inv. cbv beta in *.
  unfold lhash2_lookup_step.
  assert (forall (bound : Z),
            (forall x, x ∈ seen -> score x <= bound) -> score sk <= bound ->
            forall x, x ∈ seen ++ [sk] -> score x <= bound) as Hext.
  { intros bound Hall Hsk x Hx. apply elem_of_app in Hx as [Hx | Hx]; [auto|].
    apply list_elem_of_singleton in Hx. subst x. exact Hsk. }
  assert (forall r, r ∈ seen -> r ∈ seen ++ [sk]) as Hmono
    by (intros r Hr; apply elem_of_app; auto).
  assert (sk ∈ seen ++ [sk]) as Hlast
    by (apply elem_of_app; right; apply list_elem_of_singleton; reflexivity).
  destruct (socks k !! sk) as [s|] eqn:Hs.
  2:{ assert (score sk = -1) as Hm by (unfold score, score_of; rewrite Hs; reflexivity).
      destruct Hinv as [(Hr & Hh & Hall) | (r & Hr & Hin & Hsc & Hpos & Hall)].
      - left. split; [exact Hr|]. split; [exact Hh|]. apply Hext; [exact Hall | lia].
      - right. exists r. repeat (split; [auto|]). apply Hext; [exact Hall | lia]. }
  assert (score sk = compute_score' s net hnum daddr dif sdif) as Hsk
    by (unfold score, score_of; rewrite Hs; reflexivity).
  rewrite <- Hsk.
  destruct (score sk >? hiscore st) eqn:Egt.
  - rewrite Z.gtb_ltb in Egt. apply Z.ltb_lt in Egt.
    assert (0 < score sk /\ forall x, x ∈ seen -> score x <= score sk) as [Hpos Hall].
    { destruct Hinv as [(_ & Hh & Hall) | (r & _ & _ & _ & Hpos & Hall)].
      - split; [lia|]. intros x Hx. specialize (Hall x Hx). lia.
      - split; [lia|]. intros x Hx. specialize (Hall x Hx). lia. }
    right. exists sk.
    destruct (negb (sk_reuseport s =? 0)); cbn [result hiscore];
      (split; [reflexivity|]; split; [exact Hlast|]; split; [reflexivity|];
       split; [exact Hpos|]; apply Hext; [exact Hall | lia]).
  - rewrite Z.gtb_ltb in Egt. apply Z.ltb_ge in Egt.
    destruct ((score sk =? hiscore st) && negb (reuseport st =? 0)) eqn:Eeq.
    + apply andb_true_iff in Eeq as [Eeq Ere]. apply Z.eqb_eq in Eeq.
      destruct Hinv as [(Hr & Hh & Hall) | (r & Hr & Hin & Hsc & Hpos & Hall)].
      * exfalso. pose proof (compute_score_bounds s net hnum daddr dif sdif). lia.
      * right. cbn [result hiscore].
        destruct (reciprocal_scale _ _ =? 0).
        -- exists sk. split; [reflexivity|]. split; [exact Hlast|].
           split; [exact Eeq|]. split; [exact Hpos|]. apply Hext; [exact Hall | lia].
        -- exists r. split; [exact Hr|]. split; [apply Hmono; exact Hin|].
           split; [exact Hsc|]. split; [exact Hpos|]. apply Hext; [exact Hall | lia].
    + destruct Hinv as [(Hr & Hh & Hall) | (r & Hr & Hin & Hsc & Hpos & Hall)].
      * left. split; [exact Hr|]. split; [exact Hh|]. apply Hext; [exact Hall | lia].
      * right. exists r. split; [exact Hr|]. split; [apply Hmono; exact Hin|].
        split; [exact Hsc|]. split; [exact Hpos|]. apply Hext; [exact Hall | lia].
Qed.

(** What the scan returns: nothing when no socket of the bucket scores
    above 0, otherwise a socket of the bucket with the highest score. *)
Lemma lhash2_lookup_cases (k : kernel) (net : Z) (ilb2 : inet_listen_hashbucket)
    (saddr : nip_addr) (sport : Z) (daddr : nip_addr) (hnum dif sdif : Z) :
  let score := score_of (fun s => compute_score' s net hnum daddr dif sdif) k in
  match lhash2_lookup' k net ilb2 saddr sport daddr hnum dif sdif with
  | Some sk =>
      sk ∈ ilb_head ilb2 /\ 0 < score sk
      /\ forall x, x ∈ ilb_head ilb2 -> score x <= score sk
  | None => forall x, x ∈ ilb_head ilb2 -> score x = -1
  end.
Proof.
  intros score. unfold ninet_lhash2_lookup.
  set (inv := fun (st : lhash2_scan) (seen : list nat) =>
    (result st = None /\ hiscore st = 0 /\ forall x, x ∈ seen -> score x <= 0)
    \/ (exists r, result st = Some r /\ r ∈ seen /\ score r = hiscore st
                  /\ 0 < hiscore st /\ forall x, x ∈ seen -> score x <= hiscore st)).
  assert (forall l st seen, inv st seen ->
            inv (foldl (lookup_step' k net saddr sport daddr hnum dif sdif) st l)
                (seen ++ l)) as Hfold.
  { induction l as [|x l IH]; intros st seen Hinv.
    - rewrite app_nil_r. exact Hinv.
    - cbn [foldl]. rewrite (cons_middle x seen l), app_assoc. apply IH.
      apply (lookup_step_invariant k net saddr sport daddr hnum dif sdif st seen x).
      exact Hinv. }
  specialize (Hfold (ilb_head ilb2)
                {| result := None; hiscore := 0; matches := 0; reuseport := 0; phash := 0 |}
                []).
  rewrite app_nil_l in Hfold.
  destruct Hfold as [(Hr & _ & Hall) | (r & Hr & Hin & Hsc & Hpos & Hall)].
  { left. split; [reflexivity|]. split; [reflexivity|].
    intros x Hx. apply elem_of_nil in Hx. contradiction. }
  - rewrite Hr. intros x Hx. specialize (Hall x Hx).
    unfold score, score_of in *. destruct (socks k !! x) as [s|]; [|reflexivity].
    pose proof (compute_score_bounds s net hnum daddr dif sdif). lia.
  - rewrite Hr. split; [exact Hin|]. split; [lia|].
    intros x Hx. rewrite Hsc. apply Hall. exact Hx.
Qed.

(** X27.  [ninet_lhash2_lookup] returns a best listener: the socket it
    returns is in the bucket, scores above 0, and no socket of the bucket
    scores higher; it returns nothing exactly when every socket of the
    bucket scores -1. *)
Theorem lhash2_lookup_best (k : kernel) (net : Z) (ilb2 : inet_listen_hashbucket)
    (saddr : nip_addr) (sport : Z) (daddr : nip_addr) (hnum dif sdif : Z) :
  let score := score_of (fun s => compute_score' s net hnum daddr dif sdif) k in
  let found := lhash2_lookup' k net ilb2 saddr sport daddr hnum dif sdif in
  (forall sk, found = Some sk ->
     sk ∈ ilb_head ilb2 /\ 0 < score sk
     /\ forall x, x ∈ ilb_head ilb2 -> score x <= score sk)
  /\ (found = None <-> forall x, x ∈ ilb_head ilb2 -> score x = -1).
Proof.
  intros score found.
  pose proof (lhash2_lookup_cases k net ilb2 saddr sport daddr hnum dif sdif) as H.
  cbv zeta in H. fold score in H. fold found in H.
  destruct found as [sk|].
  - split; [intros ? [= <-]; exact H|].
    split; [discriminate|]. intros Hall.
    destruct H as (Hin & Hpos & _). specialize (Hall sk Hin). lia.
  - split; [discriminate|]. split; [intros _; exact H | reflexivity].
Qed.

Abbreviation lookup_listener' :=
  (ninet_lookup_listener jhash_1word jhash_3words net_hash_mix ninet_ehash_secret
     ninet_hash_secret __ninet_ehashfn sk_family PF_NINET nip_any_addr nip_addr_eq
     inet_sk_bound_dev_eq sk_incoming_cpu raw_smp_processor_id sk_reuseport
     reciprocal_scale next_pseudo_random32).

(** A positive score says the socket is eligible. *)
Lemma score_positive (s : sock) (net hnum : Z) (daddr : nip_addr) (dif sdif : Z) :
  0 < compute_score' s net hnum daddr dif sdif ->
  inet_num (inet_sk s) = hnum /\ sk_family s = PF_NINET /\ sk_net s = net
  /\ (nip_addr_eq (sk_nip_rcv_saddr s) nip_any_addr = true
      \/ nip_addr_eq (sk_nip_rcv_saddr s) daddr = true)
  /\ inet_sk_bound_dev_eq net (sk_bound_dev_if s) dif sdif = true.
Proof.
  rewrite compute_score_eq.
  destruct (_ && _) eqn:E; [|lia]. intros _.
  repeat (apply andb_true_iff in E as [E ?]).
  apply Z.eqb_eq in E. repeat match goal with H : (_ =? _) = true |- _ =>
    apply Z.eqb_eq in H end.
  repeat (split; [assumption|]). split; [|assumption].
  apply orb_true_iff. assumption.
Qed.

(** X28.  The listener that [ninet_lookup_listener] returns is a socket
    that listens on the port asked for, in the namespace asked for, with
    the family of the protocol, bound to the destination address or to the
    wildcard address, and on a device that passes the test.  The bucket of
    the destination address is asked first: a listener found there is
    returned whatever the bucket of the wildcard address holds. *)
Theorem lookup_listener_sound (k : kernel) (net : Z) (saddr : nip_addr) (sport : Z)
    (daddr : nip_addr) (hnum dif sdif : Z) (sk : nat) :
  lookup_listener' k net saddr sport daddr hnum dif sdif = Some (Some sk) ->
  (exists s,
     socks k !! sk = Some s
     /\ inet_num (inet_sk s) = hnum /\ sk_family s = PF_NINET /\ sk_net s = net
     /\ (nip_addr_eq (sk_nip_rcv_saddr s) nip_any_addr = true
         \/ nip_addr_eq (sk_nip_rcv_saddr s) daddr = true)
     /\ inet_sk_bound_dev_eq net (sk_bound_dev_if s) dif sdif = true)
  /\ (forall buckets ilb2 sk',
        lhash2 (hashinfo k) = Some buckets ->
        buckets !! Z.to_nat (Z.land (nip_portaddr_hash jhash_1word net_hash_mix net daddr hnum)
                                    (lhash2_mask (hashinfo k))) = Some ilb2 ->
        lhash2_lookup' k net ilb2 saddr sport daddr hnum dif sdif = Some sk' ->
        sk' = sk).
Proof.
  unfold ninet_lookup_listener. cbv zeta.
  destruct (lhash2 (hashinfo k)) as [buckets|] eqn:Hl2; [|discriminate].
  cbn [mbind option_bind].
  destruct (buckets !! Z.to_nat (Z.land (nip_portaddr_hash _ _ net daddr hnum) _))
    as [ilb2|] eqn:Hb; [|discriminate].
  cbn [mbind option_bind].
  assert (forall ilb d sk0,
            lhash2_lookup' k net ilb saddr sport d hnum dif sdif = Some sk0 ->
            exists s, socks k !! sk0 = Some s
                      /\ 0 < compute_score' s net hnum d dif sdif) as Hpos.
  { intros ilb d sk0 Hfound.
    pose proof (lhash2_lookup_cases k net ilb saddr sport d hnum dif sdif) as H.
    cbv zeta in H. rewrite Hfound in H. destruct H as (_ & H & _).
    unfold score_of in H. destruct (socks k !! sk0) as [s|]; [eauto | lia]. }
  destruct (lhash2_lookup' k net ilb2 saddr sport daddr hnum dif sdif) as [sk1|] eqn:H1.
  - intros [= <-]. split.
    + destruct (Hpos _ _ _ H1) as (s & Hs & Hsc). exists s. split; [exact Hs|].
      apply score_positive in Hsc. exact Hsc.
    + intros buckets' ilb2' sk' [= <-]. rewrite Hb. intros [= <-]. rewrite H1.
      intros [= <-]. reflexivity.
  - destruct (buckets !! Z.to_nat (Z.land (nip_portaddr_hash _ _ net nip_any_addr hnum) _))
      as [ilb_any|] eqn:Hb'; [|discriminate].
    cbn [mbind option_bind]. intros [= H2]. split.
    + destruct (Hpos _ _ _ H2) as (s & Hs & Hsc). exists s. split; [exact Hs|].
      apply score_positive in Hsc.
      destruct Hsc as (? & ? & ? & Hor & ?). repeat (split; [assumption|]).
      split; [|assumption]. left. destruct Hor; assumption.
    + intros buckets' ilb2' sk' [= <-]. rewrite Hb. intros [= <-]. rewrite H1.
      discriminate.
Qed.

End ListenerLookup.

(** ** Keepalive: the idle profile without a user keepalive *)

Section KeepaliveNoUser.

Variable HZ : Z.
Variable param : nip_parameter.
Variable keepalive_time_elapsed : sock -> Z.

Abbreviation enable0 := (tcp_nip_keepalive_enable HZ param keepalive_time_elapsed).
Abbreviation disable0 := (tcp_nip_keepalive_disable param).

(** X29.  Round trip without a user keepalive.  On a socket with
    SO_KEEPALIVE off, no backup and the idle profile not active, an
    [enable] that activates the idle profile followed by [disable], once
    the configured number of idle probes went unanswered, leaves
    SO_KEEPALIVE off again, the idle profile off and no backup.  The
    calls the two functions make are, in this order, the keepalive handler
    of the protocol with 1 and with 0 when there is one, and nothing
    otherwise: neither function calls [inet_csk_reset_keepalive_timer]
    itself on this path (what the handler does to the timer is outside
    this model).  The idle time, probe count and interval stay those of
    the idle profile: what was there before is not put back. *)
Theorem enable_disable_without_user_keepalive (sk : sock) (n : Z) :
  nip_keepalive_enable (tcp_sk sk) = false ->
  sock_flag sk SOCK_KEEPOPEN = false ->
  keepalive_time_bak (tcp_sk sk) = 0 ->
  nip_keepalive_enable (tcp_sk (enable0 sk)) = true ->
  to_u32 (g_nip_idle_ka_probes_out param) <= n ->
  let sk' := disable0 (upd_tp (set_idle_ka_probes_out n) (enable0 sk)) in
  sock_flag sk' SOCK_KEEPOPEN = false
  /\ nip_keepalive_enable (tcp_sk sk') = false
  /\ keepalive_time_bak (tcp_sk sk') = 0
  /\ keepalive_para sk' = keepalive_para (enable0 sk)
  /\ (exists skb,
        sk_send_head sk = Some skb
        /\ keepalive_para sk' =
             (to_u32 (if to_u32 (pkt_total_len skb) <? NIP_PKT_TOTAL_LEN_BOUNDARY
                      then g_nip_keepalive_time_short_pkt param
                      else g_nip_keepalive_time param),
              NIP_KEEPALIVE_PROBES, to_u32 (g_nip_keepalive_intvl param)))
  /\ sk_trace sk' =
       sk_trace sk
       ++ (if sk_prot_has_keepalive sk then [sk_prot_keepalive 1; sk_prot_keepalive 0]
           else []).
Proof.
  intros Hoff Hka Hbak Hon Hn sk'. subst sk'.
  unfold tcp_nip_keepalive_enable, tcp_nip_send_head in *.
  destruct (sk_send_head sk) as [skb|] eqn:Hh; [|congruence].
  rewrite Hoff, Hka in *.
  set (t := to_u32 (if to_u32 (pkt_total_len skb) <? NIP_PKT_TOTAL_LEN_BOUNDARY
                    then g_nip_keepalive_time_short_pkt param
                    else g_nip_keepalive_time param)) in *.
  unfold tcp_nip_keepalive_para_update in *.
  assert (forall f, sock_flag (upd_tp f sk) SOCK_KEEPOPEN = false) as Hka'
    by (intros f; rewrite sock_flag_upd_tp; exact Hka).
  rewrite Hka' in *. cbn [andb] in *.
  clear Hka'.
  assert (forall s : sock,
            nip_keepalive_enable (tcp_sk s) = nip_keepalive_enable (tcp_sk sk) ->
            nip_keepalive_enable (tcp_sk s) = true -> False) as Hno
    by (intros s Hs Ht; congruence).
  destruct ((to_int t <? 1) || (to_int t >? MAX_NIP_TCP_KEEPIDLE)) eqn:E1.
  { exfalso. cbn beta iota in Hon. change (- EINVAL =? 0) with false in Hon.
    cbn [negb] in Hon. congruence. }
  destruct ((to_int (to_u32 (g_nip_keepalive_intvl param)) <? 1) || _) eqn:E2.
  { exfalso. cbn beta iota in Hon. change (- EINVAL =? 0) with false in Hon.
    cbn [negb] in Hon. revert Hon. autorewrite with sock_fields.
    destruct (tcp_sk sk); cbn in *; congruence. }
  destruct ((to_u8 NIP_KEEPALIVE_PROBES <? 1) || _) eqn:E3.
  { exfalso. cbn beta iota in Hon. change (- EINVAL =? 0) with false in Hon.
    cbn [negb] in Hon. revert Hon. autorewrite with sock_fields.
    destruct (tcp_sk sk); cbn in *; congruence. }
  cbn [negb Z.eqb] in *. clear Hon Hno.
  apply to_int_accepted in E1 as [E1 R1]. apply to_int_accepted in E2 as [E2 R2].
  rewrite E1, E2, !to_u32_idem, to_u8_idem.
  change (to_u8 NIP_KEEPALIVE_PROBES) with NIP_KEEPALIVE_PROBES.
  assert (to_u32 t = t) as Ht by (unfold t; apply to_u32_idem). rewrite Ht.
  unfold tcp_nip_keepalive_disable.
  destruct sk as [st fl err sh hd rq wq hs nn pn dev ra da net hk inet
                  [kt ki kp ktb kpb kib en ko io sn ws mw sr cw po] tr].
  unfold sock_flag, keepalive_para in *. cbn in Hoff, Hka, Hbak, Hh. subst en ktb hd.
  assert (Z.testbit (Z.setbit fl SOCK_KEEPOPEN) SOCK_KEEPOPEN = true) as Hset
    by (apply Z.setbit_eq; unfold SOCK_KEEPOPEN; lia).
  assert (Z.testbit (Z.clearbit (Z.setbit fl SOCK_KEEPOPEN) SOCK_KEEPOPEN) SOCK_KEEPOPEN
          = false) as Hclr by (apply Z.clearbit_eq).
  assert ((n <? to_u32 (g_nip_idle_ka_probes_out param)) = false) as Hlt
    by (apply Z.ltb_ge; exact Hn).
  unfold sock_valbool_flag, sock_set_flag, sock_reset_flag, call, upd_tp.
  destruct hk; cbn; rewrite ?Hset, ?Hka; cbn; rewrite ?Hlt; cbn; rewrite ?Hclr, <- ?app_assoc.
  all: repeat (split; [first [reflexivity | assumption | (eexists; split; reflexivity)]|]).
  - reflexivity.
  - rewrite app_nil_r. reflexivity.
Qed.

End KeepaliveNoUser.

Lemma enable_disable_without_user_keepalive_witness :
  (nip_keepalive_enable (tcp_sk sk_plain) = false
   /\ sock_flag sk_plain SOCK_KEEPOPEN = false
   /\ keepalive_para sk_plain = (0, 0, 0))
  /\ (let sk' :=
        tcp_nip_keepalive_disable param_below_hz
          (upd_tp (set_idle_ka_probes_out 20)
             (tcp_nip_keepalive_enable 100 param_below_hz no_elapsed sk_plain)) in
      sock_flag sk' SOCK_KEEPOPEN = false
      /\ nip_keepalive_enable (tcp_sk sk') = false
      /\ keepalive_para sk' = (5, 255, 25)
      /\ sk_trace sk' = [sk_prot_keepalive 1; sk_prot_keepalive 0]).
Proof.
  assert (nip_keepalive_enable (tcp_sk sk_plain) = false) as H1 by reflexivity.
  assert (sock_flag sk_plain SOCK_KEEPOPEN = false) as H2 by reflexivity.
  assert (keepalive_time_bak (tcp_sk sk_plain) = 0) as H3 by reflexivity.
  assert (nip_keepalive_enable
            (tcp_sk (tcp_nip_keepalive_enable 100 param_below_hz no_elapsed sk_plain))
          = true) as H4 by reflexivity.
  assert (to_u32 (g_nip_idle_ka_probes_out param_below_hz) <= 20) as H5
    by (vm_compute; discriminate).
  split; [repeat split|].
  destruct (enable_disable_without_user_keepalive 100 param_below_hz no_elapsed
              sk_plain 20 H1 H2 H3 H4 H5) as (Hka & Hoff & _ & Hpara & _ & Htr).
  cbv zeta. split; [exact Hka|]. split; [exact Hoff|].
  split; [rewrite Hpara; reflexivity | exact Htr].
Defined.

(** ** The further properties at concrete sockets and tables *)

Lemma disconnect_sets_connreset_witness :
  valid_state (sk_state sk_close_wait)
  /\ sk_err (tcp_nip_disconnect sk_close_wait 0).2 = ECONNRESET.
Proof.
  assert (valid_state (sk_state sk_close_wait)) as H
    by (vm_compute; split; [discriminate | reflexivity]).
  split; [exact H|].
  rewrite (proj1 (disconnect_sets_connreset sk_close_wait 0 H)). reflexivity.
Defined.

Lemma filled_segment_unread_payload_witness :
  fin (data skb_data_fin) = Z.land (tcp_flag_byte (data skb_data_fin)) TCPHDR_FIN
  /\ data_was_unread [tcp_nip_fill_cb skb_data_fin (data skb_data_fin)] 0 = 10.
Proof.
  assert (fin (data skb_data_fin)
          = Z.land (tcp_flag_byte (data skb_data_fin)) TCPHDR_FIN) as H by reflexivity.
  split; [exact H|].
  rewrite (filled_segment_unread_payload skb_data_fin (data skb_data_fin) H).
  reflexivity.
Defined.

Lemma rcv_reference_balance_witness :
  (pkt_type skb_syn = PACKET_HOST
   /\ nip_get_tcp_input_checksum checksum_accepts skb_syn = true
   /\ 5 <= doff (data skb_syn)
   /\ lookup_finds sk_request false skb_syn = Some (sk_request, false))
  /\ (let tr :=
        (tcp_nip_rcv checksum_accepts (lookup_finds sk_request false) filter_passes
           listener_of check_req_fails child_process_ok state_process_ok not_owned
           backlog_accepts skb_syn).2 in
      count_action sock_hold tr = 1%nat /\ count_action sock_put tr = 1%nat).
Proof.
  assert (pkt_type skb_syn = PACKET_HOST) as H1 by reflexivity.
  assert (nip_get_tcp_input_checksum checksum_accepts skb_syn = true) as H2 by reflexivity.
  assert (5 <= doff (data skb_syn)) as H3 by (vm_compute; discriminate).
  assert (lookup_finds sk_request false skb_syn = Some (sk_request, false)) as H4
    by reflexivity.
  split; [auto|].
  exact (rcv_reference_balance checksum_accepts (lookup_finds sk_request false)
           filter_passes listener_of check_req_fails child_process_ok state_process_ok
           not_owned backlog_accepts skb_syn sk_request false H1 H2 H3 H4).
Defined.

Lemma lookup_hit_refuses_port_witness :
  socks kernel1 !! 2%nat = Some (set_sk_state TCP_SYN_SENT sock0)
  /\ lookup_established_with kernel1 0 addr_b 80 addr_a 5000 0 = Some 1%nat
  /\ exists k', check_established_with 2 5000 kernel1 = Some (- EADDRNOTAVAIL, k').
Proof.
  assert (socks kernel1 !! 2%nat = Some (set_sk_state TCP_SYN_SENT sock0)) as H
    by reflexivity.
  split; [exact H|]. split; [reflexivity|].
  destruct (lookup_hit_refuses_port jhash_3words_sum hash_mix_zero 0 0 ehashfn_sum
              match_tuple refcnt_one 2 5000 kernel1 _ H)
    as (ret & k' & Hret & _ & Hhit & _).
  exists k'. unfold check_established_with. rewrite Hret. rewrite Hhit; [reflexivity|].
  exists 1%nat. reflexivity.
Defined.

Lemma check_established_then_lookup_witness :
  (socks kernel0 !! 1%nat = Some (set_sk_state TCP_SYN_SENT sock0)
   /\ ehash (hashinfo kernel0) !! 2%nat = Some []
   /\ check_established_with 1 5000 kernel0 = Some (0, kernel1))
  /\ lookup_established_with kernel1 0 addr_b 80 addr_a 5000 0 = Some 1%nat.
Proof.
  assert (socks kernel0 !! 1%nat = Some (set_sk_state TCP_SYN_SENT sock0)) as H1
    by reflexivity.
  assert (ehash (hashinfo kernel0) !! 2%nat = Some []) as H2 by reflexivity.
  assert (check_established_with 1 5000 kernel0 = Some (0, kernel1)) as H3
    by reflexivity.
  split; [auto|].
  refine (proj2 (check_established_then_lookup jhash_3words_sum hash_mix_zero 0 0
                   ehashfn_sum match_tuple refcnt_one 1 5000 kernel0 kernel1
                   (set_sk_state TCP_SYN_SENT sock0) [] H1 H2 H3 _ _));
    [reflexivity | discriminate].
Defined.

Lemma check_established_then_unhash_witness :
  (socks kernel0 !! 1%nat = Some (set_sk_state TCP_SYN_SENT sock0)
   /\ ehash (hashinfo kernel0) !! 2%nat = Some []
   /\ check_established_with 1 5000 kernel0 = Some (0, kernel1))
  /\ exists k'',
       unhash_with 1 kernel1 = Some k''
       /\ hashinfo k'' = hashinfo kernel0
       /\ prot_inuse k'' = prot_inuse kernel0.
Proof.
  assert (socks kernel0 !! 1%nat = Some (set_sk_state TCP_SYN_SENT sock0)) as H1
    by reflexivity.
  assert (ehash (hashinfo kernel0) !! 2%nat = Some []) as H2 by reflexivity.
  assert (check_established_with 1 5000 kernel0 = Some (0, kernel1)) as H3
    by reflexivity.
  split; [auto|].
  destruct (check_established_then_unhash jhash_1word_xor jhash_3words_sum hash_mix_zero
              listen_hashfn_low 0 0 ehashfn_sum match_tuple 1 5000 kernel0 kernel1
              (set_sk_state TCP_SYN_SENT sock0) [] H1 H2)
    as (k'' & Hun & Hinfo & Hinuse & _).
  - apply not_elem_of_nil.
  - discriminate.
  - exact H3.
  - exists k''. auto.
Defined.

Lemma ehash_wf_kernel0 : ehash_wf kernel0.
Proof.
  intros i nodes sk Hi Hin.
  do 4 (destruct i as [|i]; [injection Hi as <-; apply elem_of_nil in Hin; contradiction|]).
  discriminate.
Qed.

Lemma check_established_keeps_wf_witness :
  (ehash_wf kernel0
   /\ 0 <= ehash_mask (hashinfo kernel0)
   /\ check_established_with 1 5000 kernel0 = Some (0, kernel1))
  /\ ehash_wf kernel1.
Proof.
  assert (0 <= ehash_mask (hashinfo kernel0)) as Hm by discriminate.
  assert (socks kernel0 !! 1%nat = Some (set_sk_state TCP_SYN_SENT sock0)) as H1
    by reflexivity.
  assert (check_established_with 1 5000 kernel0 = Some (0, kernel1)) as H3
    by reflexivity.
  split; [split; [exact ehash_wf_kernel0 | auto]|].
  exact (check_established_keeps_wf jhash_3words_sum hash_mix_zero 0 0 ehashfn_sum
           match_tuple 1 5000 kernel0 kernel1 (set_sk_state TCP_SYN_SENT sock0) 0
           ehash_wf_kernel0 Hm H1 eq_refl H3).
Defined.

Lemma ehash_wf_kernel1 : ehash_wf kernel1.
Proof.
  intros i nodes sk Hi Hin.
  do 2 (destruct i as [|i]; [injection Hi as <-; apply elem_of_nil in Hin; contradiction|]).
  destruct i as [|i].
  { injection Hi as <-. apply list_elem_of_singleton in Hin. subst sk. reflexivity. }
  destruct i as [|i]; [injection Hi as <-; apply elem_of_nil in Hin; contradiction|].
  discriminate.
Qed.

Lemma unhash_keeps_wf_and_hides_witness :
  (ehash_wf kernel1 /\ is_Some (unhash_with 1 kernel1))
  /\ forall k', unhash_with 1 kernel1 = Some k' ->
       ehash_wf k'
       /\ lookup_established_with k' 0 addr_b 80 addr_a 5000 0 <> Some 1%nat.
Proof.
  split; [split; [exact ehash_wf_kernel1 | eexists; reflexivity]|].
  intros k' Hun.
  destruct (unhash_keeps_wf_and_hides jhash_1word_xor jhash_3words_sum hash_mix_zero
              listen_hashfn_low 0 0 ehashfn_sum match_tuple refcnt_one 1 kernel1 k'
              ehash_wf_kernel1 Hun) as (Hwf & _ & Hmiss).
  split; [exact Hwf | apply Hmiss].
Defined.

Lemma hash_then_unhash_listener_witness :
  (socks kernel_listen_new !! 3%nat = Some sk_listener_new
   /\ sk_state sk_listener_new = TCP_LISTEN
   /\ sk_nulls_node sk_listener_new = None)
  /\ exists k1 k2,
       hash_with 3 kernel_listen_new = Some (0, k1)
       /\ unhash_with 3 k1 = Some k2
       /\ prot_inuse k1 = 1
       /\ hashinfo k2 = hashinfo kernel_listen_new
       /\ prot_inuse k2 = 0.
Proof.
  split; [repeat split|].
  destruct (hash_then_unhash_listener jhash_1word_xor hash_mix_zero listen_hashfn_low
              ehash_nolisten_skip 23 3 kernel_listen_new sk_listener_new
              {| ilb_head := []; ilb_count := 0 |})
    as (k1 & k2 & Hh & Hu & Hi1 & _ & Hinfo & Hi2 & _).
  - intros s1 s2 _ Hnum. unfold listen_hashfn_low. rewrite Hnum. reflexivity.
  - reflexivity.
  - reflexivity.
  - reflexivity.
  - reflexivity.
  - reflexivity.
  - apply not_elem_of_nil.
  - intros buckets [= <-]. exists {| ilb_head := []; ilb_count := 0 |}.
    split; [reflexivity | apply not_elem_of_nil].
  - exists k1, k2. auto.
Defined.

Lemma lhash2_lookup_best_witness :
  lhash2_lookup_with kernel_two_listeners 0 bucket_two_listeners addr_b 5000 addr_a 80 1 0
  = Some 3%nat
  /\ score_of (fun s => nip_tcp_compute_score family_ninet 45 addr_any addr_eq
                          bound_dev_eq cpu_zero 0 s 0 80 addr_a 1 0)
        kernel_two_listeners 4 <= 4.
Proof.
  assert (lhash2_lookup_with kernel_two_listeners 0 bucket_two_listeners addr_b 5000
            addr_a 80 1 0 = Some 3%nat) as H by reflexivity.
  split; [exact H|].
  destruct (proj1 (lhash2_lookup_best jhash_3words_sum hash_mix_zero 0 0 ehashfn_sum
                     family_ninet 45 addr_any addr_eq bound_dev_eq cpu_zero 0
                     no_reuseport scale_low next_random kernel_two_listeners 0
                     bucket_two_listeners addr_b 5000 addr_a 80 1 0) 3%nat H)
    as (_ & _ & Hbest).
  etransitivity; [apply Hbest; unfold bucket_two_listeners; cbn; set_solver|].
  vm_compute. discriminate.
Defined.

Lemma lookup_listener_sound_witness :
  lookup_listener_with kernel_listen 0 addr_b 5000 addr_a 80 1 0 = Some (Some 3%nat)
  /\ exists s, socks kernel_listen !! 3%nat = Some s /\ inet_num (inet_sk s) = 80.
Proof.
  assert (lookup_listener_with kernel_listen 0 addr_b 5000 addr_a 80 1 0
          = Some (Some 3%nat)) as H by reflexivity.
  split; [exact H|].
  destruct (proj1 (lookup_listener_sound jhash_1word_xor jhash_3words_sum hash_mix_zero
                     0 0 ehashfn_sum family_ninet 45 addr_any addr_eq bound_dev_eq
                     cpu_zero 0 no_reuseport scale_low next_random kernel_listen 0
                     addr_b 5000 addr_a 80 1 0 3%nat H))
    as (s & Hs & Hnum & _).
  exists s. auto.
Defined.
